(** * xr_serial: MaxLinear/Exar USB to serial driver

    A shallow embedding of [xr_serial.c]: the model table, the register
    access layer, the UART lifecycle, the baud-rate engine, the modem-control
    and break operations and the termios translation, followed by the
    properties of the driver's specification that were checked against it.

    Integers are [Z]; every conversion the C code performs (parameter passing
    into [u8], compound assignment on a [u8], unsigned 32-bit arithmetic) is
    written out with the conversions of section "C integers".  The driver's
    only effects are USB control transfers and allocations: they are recorded
    as a list of events, and every function is a computation that reads the
    history so far and returns its result with the events it emitted. *)

From Stdlib Require Import ZArith List Bool Lia.
Import ListNotations.
Local Open Scope Z_scope.

(** ** C integers *)

(** Conversion to [u8], [u16] and [u32] (reduction modulo 2^w). *)
Definition u8 (x : Z) : Z := x mod 2 ^ 8.
Definition u16 (x : Z) : Z := x mod 2 ^ 16.
Definition u32 (x : Z) : Z := x mod 2 ^ 32.

(** [BIT(n)] and [GENMASK(h, l)] of linux/bits.h. *)
Definition BIT (n : Z) : Z := Z.shiftl 1 n.
Definition GENMASK (h l : Z) : Z := Z.shiftl (Z.ones (h - l + 1)) l.

(** [clamp(val, lo, hi)] of linux/minmax.h: [min(max(val, lo), hi)]. *)
Definition clamp (val lo hi : Z) : Z := Z.min (Z.max val lo) hi.

(** ** Constants of the driver *)

Definition XR_INT_OSC_HZ : Z := 48000000.
Definition MIN_SPEED : Z := 46.
Definition MAX_SPEED : Z := XR_INT_OSC_HZ.

Definition CLOCK_DIVISOR_0 : Z := 0x04.
Definition CLOCK_DIVISOR_1 : Z := 0x05.
Definition CLOCK_DIVISOR_2 : Z := 0x06.
Definition TX_CLOCK_MASK_0 : Z := 0x07.
Definition TX_CLOCK_MASK_1 : Z := 0x08.
Definition RX_CLOCK_MASK_0 : Z := 0x09.
Definition RX_CLOCK_MASK_1 : Z := 0x0a.

Definition UART_REG_BLOCK : Z := 0.
Definition UM_REG_BLOCK : Z := 4.
Definition UART_CUSTOM_BLOCK : Z := 0x66.

Definition UM_FIFO_ENABLE_REG : Z := 0x10.
Definition UM_ENABLE_TX_FIFO : Z := 0x01.
Definition UM_ENABLE_RX_FIFO : Z := 0x02.

Definition UM_RX_FIFO_RESET : Z := 0x18.
Definition UM_TX_FIFO_RESET : Z := 0x1c.

Definition UART_ENABLE_TX : Z := 0x1.
Definition UART_ENABLE_RX : Z := 0x2.

Definition UART_MODE_RI : Z := BIT 0.
Definition UART_MODE_CD : Z := BIT 1.
Definition UART_MODE_DSR : Z := BIT 2.
Definition UART_MODE_DTR : Z := BIT 3.
Definition UART_MODE_CTS : Z := BIT 4.
Definition UART_MODE_RTS : Z := BIT 5.

Definition UART_BREAK_ON : Z := 0xff.
Definition UART_BREAK_OFF : Z := 0.

Definition UART_DATA_MASK : Z := GENMASK 3 0.
Definition UART_DATA_7 : Z := 0x7.
Definition UART_DATA_8 : Z := 0x8.

Definition UART_PARITY_MASK : Z := GENMASK 6 4.
Definition UART_PARITY_SHIFT : Z := 4.
Definition UART_PARITY_NONE : Z := Z.shiftl 0x0 UART_PARITY_SHIFT.
Definition UART_PARITY_ODD : Z := Z.shiftl 0x1 UART_PARITY_SHIFT.
Definition UART_PARITY_EVEN : Z := Z.shiftl 0x2 UART_PARITY_SHIFT.
Definition UART_PARITY_MARK : Z := Z.shiftl 0x3 UART_PARITY_SHIFT.
Definition UART_PARITY_SPACE : Z := Z.shiftl 0x4 UART_PARITY_SHIFT.

Definition UART_STOP_MASK : Z := BIT 7.
Definition UART_STOP_SHIFT : Z := 7.
Definition UART_STOP_1 : Z := Z.shiftl 0x0 UART_STOP_SHIFT.
Definition UART_STOP_2 : Z := Z.shiftl 0x1 UART_STOP_SHIFT.

Definition UART_FLOW_MODE_NONE : Z := 0x0.
Definition UART_FLOW_MODE_HW : Z := 0x1.
Definition UART_FLOW_MODE_SW : Z := 0x2.

Definition UART_MODE_GPIO_MASK : Z := GENMASK 2 0.
Definition UART_MODE_RTS_CTS : Z := 0x1.
Definition UART_MODE_DTR_DSR : Z := 0x2.
Definition UART_MODE_RS485 : Z := 0x3.
Definition UART_MODE_RS485_ADDR : Z := 0x4.

Definition URM_RESET_RX_FIFO_BASE : Z := 0x18.
Definition URM_RESET_TX_FIFO_BASE : Z := 0x1c.

Definition VIA_CDC_REGISTER : Z := -1.

(** ** Constants of the kernel headers the driver includes

    These are not part of the driver; the values are those of the Linux
    headers named with each group. *)

(** include/uapi/asm-generic/errno-base.h *)
Definition EIO : Z := 5.
Definition ENOMEM : Z := 12.
Definition EINVAL : Z := 22.

(** include/uapi/linux/usb/ch9.h *)
Definition USB_DIR_OUT : Z := 0.
Definition USB_DIR_IN : Z := 0x80.
Definition USB_TYPE_CLASS : Z := Z.shiftl 0x01 5.
Definition USB_TYPE_VENDOR : Z := Z.shiftl 0x02 5.
Definition USB_RECIP_DEVICE : Z := 0x00.
Definition USB_RECIP_INTERFACE : Z := 0x01.

(** include/uapi/linux/usb/cdc.h *)
Definition USB_CDC_REQ_SET_LINE_CODING : Z := 0x20.
Definition USB_CDC_REQ_SEND_BREAK : Z := 0x23.

(** include/uapi/asm-generic/termios.h *)
Definition TIOCM_DTR : Z := 0x002.
Definition TIOCM_RTS : Z := 0x004.
Definition TIOCM_CTS : Z := 0x020.
Definition TIOCM_CD : Z := 0x040.
Definition TIOCM_RI : Z := 0x080.
Definition TIOCM_DSR : Z := 0x100.

(** include/uapi/asm-generic/termbits.h (octal in the header) *)
Definition IXON : Z := 0x400.
Definition CBAUD : Z := 0x100f.
Definition B0 : Z := 0.
Definition CSIZE : Z := 0x30.
Definition CS5 : Z := 0x00.
Definition CS6 : Z := 0x10.
Definition CS7 : Z := 0x20.
Definition CS8 : Z := 0x30.
Definition CSTOPB : Z := 0x40.
Definition PARENB : Z := 0x100.
Definition PARODD : Z := 0x200.
Definition CMSPAR : Z := 0x40000000.
Definition CRTSCTS : Z := 0x80000000.
Definition VSTART : nat := 8.
Definition VSTOP : nat := 9.

(** ** Model table *)

Inductive xr_model : Type :=
| XR2280X
| XR21B1411
| XR21V141X
| XR21B142X
| MAX_XR_MODELS.

Inductive xr_hal_type : Type :=
| REG_ENABLE
| REG_FORMAT
| REG_FLOW_CTRL
| REG_XON_CHAR
| REG_XOFF_CHAR
| REG_TX_BREAK
| REG_RS485_DELAY
| REG_GPIO_MODE
| REG_GPIO_DIR
| REG_GPIO_SET
| REG_GPIO_CLR
| REG_GPIO_STATUS
| REG_GPIO_INT_MASK
| REG_CUSTOMIZED_INT
| REG_GPIO_PULL_UP_ENABLE
| REG_GPIO_PULL_DOWN_ENABLE
| REG_LOOPBACK
| REG_LOW_LATENCY
| REG_CUSTOM_DRIVER
| REQ_SET
| REQ_GET
| MAX_XR_HAL_TYPE.

Definition xr_model_eqb (a b : xr_model) : bool :=
  match a, b with
  | XR2280X, XR2280X | XR21B1411, XR21B1411 | XR21V141X, XR21V141X
  | XR21B142X, XR21B142X | MAX_XR_MODELS, MAX_XR_MODELS => true
  | _, _ => false
  end.

(** [xr_hal_table[m][r]].  Entries the initialiser does not name are zero, as
    C initialises them.  The array has no row [MAX_XR_MODELS] and no column
    [MAX_XR_HAL_TYPE]: C leaves a read there undefined; the embedding says 0,
    and [xr_set_reg] and [xr_get_reg] reject that model before any transfer. *)
Definition xr_hal_table (m : xr_model) (r : xr_hal_type) : Z :=
  match m with
  | XR2280X =>
      match r with
      | REG_ENABLE => 0x40
      | REG_FORMAT => 0x45
      | REG_FLOW_CTRL => 0x46
      | REG_XON_CHAR => 0x47
      | REG_XOFF_CHAR => 0x48
      | REG_TX_BREAK => 0x4a
      | REG_RS485_DELAY => 0x4b
      | REG_GPIO_MODE => 0x4c
      | REG_GPIO_DIR => 0x4d
      | REG_GPIO_SET => 0x4e
      | REG_GPIO_CLR => 0x4f
      | REG_GPIO_STATUS => 0x50
      | REG_GPIO_INT_MASK => 0x51
      | REG_CUSTOMIZED_INT => 0x52
      | REG_GPIO_PULL_UP_ENABLE => 0x54
      | REG_GPIO_PULL_DOWN_ENABLE => 0x55
      | REG_LOOPBACK => 0x56
      | REG_LOW_LATENCY => 0x66
      | REG_CUSTOM_DRIVER => 0x81
      | REQ_SET => 5
      | REQ_GET => 5
      | MAX_XR_HAL_TYPE => 0
      end
  | XR21B1411 =>
      match r with
      | REG_ENABLE => 0xc00
      | REG_FORMAT => VIA_CDC_REGISTER
      | REG_FLOW_CTRL => 0xc06
      | REG_XON_CHAR => 0xc07
      | REG_XOFF_CHAR => 0xc08
      | REG_TX_BREAK => 0xc0a
      | REG_RS485_DELAY => 0xc0b
      | REG_GPIO_MODE => 0xc0c
      | REG_GPIO_DIR => 0xc0d
      | REG_GPIO_SET => 0xc0e
      | REG_GPIO_CLR => 0xc0f
      | REG_GPIO_STATUS => 0xc10
      | REG_GPIO_INT_MASK => 0xc11
      | REG_CUSTOMIZED_INT => 0xc12
      | REG_GPIO_PULL_UP_ENABLE => 0xc14
      | REG_GPIO_PULL_DOWN_ENABLE => 0xc15
      | REG_LOOPBACK => 0xc16
      | REG_LOW_LATENCY => 0xcc2
      | REG_CUSTOM_DRIVER => 0x20d
      | REQ_SET => 0
      | REQ_GET => 1
      | MAX_XR_HAL_TYPE => 0
      end
  | XR21V141X =>
      match r with
      | REG_ENABLE => 0x03
      | REG_FORMAT => 0x0b
      | REG_FLOW_CTRL => 0x0c
      | REG_XON_CHAR => 0x10
      | REG_XOFF_CHAR => 0x11
      | REG_LOOPBACK => 0x12
      | REG_TX_BREAK => 0x14
      | REG_RS485_DELAY => 0x15
      | REG_GPIO_MODE => 0x1a
      | REG_GPIO_DIR => 0x1b
      | REG_GPIO_INT_MASK => 0x1c
      | REG_GPIO_SET => 0x1d
      | REG_GPIO_CLR => 0x1e
      | REG_GPIO_STATUS => 0x1f
      | REQ_SET => 0
      | REQ_GET => 1
      | REG_CUSTOMIZED_INT | REG_GPIO_PULL_UP_ENABLE
      | REG_GPIO_PULL_DOWN_ENABLE | REG_LOW_LATENCY | REG_CUSTOM_DRIVER
      | MAX_XR_HAL_TYPE => 0
      end
  | XR21B142X =>
      match r with
      | REG_ENABLE => 0x00
      | REG_FORMAT => VIA_CDC_REGISTER
      | REG_FLOW_CTRL => 0x06
      | REG_XON_CHAR => 0x07
      | REG_XOFF_CHAR => 0x08
      | REG_TX_BREAK => 0x0a
      | REG_RS485_DELAY => 0x0b
      | REG_GPIO_MODE => 0x0c
      | REG_GPIO_DIR => 0x0d
      | REG_GPIO_SET => 0x0e
      | REG_GPIO_CLR => 0x0f
      | REG_GPIO_STATUS => 0x10
      | REG_GPIO_INT_MASK => 0x11
      | REG_CUSTOMIZED_INT => 0x12
      | REG_GPIO_PULL_UP_ENABLE => 0x14
      | REG_GPIO_PULL_DOWN_ENABLE => 0x15
      | REG_LOOPBACK => 0x16
      | REG_LOW_LATENCY => 0x46
      | REG_CUSTOM_DRIVER => 0x60
      | REQ_SET => 0
      | REQ_GET => 0
      | MAX_XR_HAL_TYPE => 0
      end
  | MAX_XR_MODELS => 0
  end.

(** [struct xr_port_private]; [control_if] stands for the control interface
    by its [bInterfaceNumber], the only field of it the driver reads. *)
Record xr_port_private : Type := mk_port {
  model : xr_model;
  channel : Z;
  control_if : Z
}.

(** [struct ktermios], the fields the driver uses.  The driver reaches it as
    [tty->termios]; a [tty] below is that structure. *)
Record ktermios : Type := mk_termios {
  c_iflag : Z;
  c_cflag : Z;
  c_cc : list Z;
  c_ispeed : Z;
  c_ospeed : Z
}.

(** The accessor macros of include/linux/tty.h. *)
Definition C_BAUD (tty : ktermios) : Z := Z.land (c_cflag tty) CBAUD.
Definition C_CSIZE (tty : ktermios) : Z := Z.land (c_cflag tty) CSIZE.
Definition C_CSTOPB (tty : ktermios) : Z := Z.land (c_cflag tty) CSTOPB.
Definition C_PARENB (tty : ktermios) : Z := Z.land (c_cflag tty) PARENB.
Definition C_PARODD (tty : ktermios) : Z := Z.land (c_cflag tty) PARODD.
Definition C_CMSPAR (tty : ktermios) : Z := Z.land (c_cflag tty) CMSPAR.
Definition C_CRTSCTS (tty : ktermios) : Z := Z.land (c_cflag tty) CRTSCTS.
Definition I_IXON (tty : ktermios) : Z := Z.land (c_iflag tty) IXON.
Definition START_CHAR (tty : ktermios) : Z := nth VSTART (c_cc tty) 0.
Definition STOP_CHAR (tty : ktermios) : Z := nth VSTOP (c_cc tty) 0.

(** ** USB control transfers, allocations and the event trace *)

(** The arguments of one [usb_control_msg] call.  [pipe_in] tells
    [usb_rcvctrlpipe] from [usb_sndctrlpipe]; [payload] is the content of the
    buffer handed over (empty when the buffer is NULL or freshly allocated). *)
Record ctrl_msg : Type := mk_msg {
  pipe_in : bool;
  bRequest : Z;
  bmRequestType : Z;
  wValue : Z;
  wIndex : Z;
  wLength : Z;
  payload : list Z
}.

Inductive event : Type :=
| EvKmalloc (ok : bool)
| EvCtrl (m : ctrl_msg) (status : Z) (byte0 : Z).

(** Uninitialised automatic variables the driver reads or hands out by
    address before assigning them. *)
Inductive local_var : Type :=
| L_break_state
| L_cdc_set
| L_cdc_clear
| L_flow_gpio_mode
| L_tiocmget_status.

(** What the driver cannot decide itself: the outcome of a control transfer
    (its return value and the first byte found in the buffer afterwards), the
    outcome of an allocation and the content of an uninitialised local, each
    of which may depend on the history, and the two tty helpers the driver
    calls. *)
Record kernel_env : Type := mk_env {
  usb_control_msg : list event -> ctrl_msg -> Z * Z;
  kmalloc : list event -> bool;
  uninit : local_var -> list event -> Z;
  tty_get_baud_rate : ktermios -> Z;
  tty_encode_baud_rate : ktermios -> Z -> Z -> ktermios
}.

(** A computation reads the history and returns a value with the events it
    appends to the history. *)
Definition M (A : Type) : Type := list event -> A * list event.

Definition ret {A} (a : A) : M A := fun _ => (a, []).

Definition bind {A B} (m : M A) (f : A -> M B) : M B :=
  fun h =>
    let (a, e1) := m h in
    let (b, e2) := f a (h ++ e1) in
    (b, e1 ++ e2).

Declare Scope xr_scope.
Delimit Scope xr_scope with xr.
Notation "x <- m ;; k" := (bind m (fun x => k))
  (at level 61, m at next level, right associativity) : xr_scope.
Notation "m ;;; k" := (bind m (fun _ => k))
  (at level 61, right associativity) : xr_scope.
Local Open Scope xr_scope.

Definition do_usb (env : kernel_env) (m : ctrl_msg) : M (Z * Z) :=
  fun h =>
    let r := usb_control_msg env h m in
    (r, [EvCtrl m (fst r) (snd r)]).

Definition do_kmalloc (env : kernel_env) : M bool :=
  fun h => let ok := kmalloc env h in (ok, [EvKmalloc ok]).

Definition read_uninit (env : kernel_env) (x : local_var) : M Z :=
  fun h => (uninit env x h, []).

(** The value a computation returns and the events it emits. *)
Definition result {A} (m : M A) (h : list event) : A := fst (m h).
Definition emitted {A} (m : M A) (h : list event) : list event := snd (m h).

(** ** Register access layer *)

(** The [switch] on the model that opens both [xr_set_reg] and [xr_get_reg]:
    the register number after the channel arithmetic.  [reg] is a [u8], so
    each [reg |= ...] is truncated to eight bits; the shifted channel is an
    [unsigned int].  [None] is the [default:] branch. *)
Definition xr_mangle_reg (p : xr_port_private) (reg : Z) : option Z :=
  match model p with
  | XR2280X | XR21B1411 => Some reg
  | XR21V141X =>
      if channel p =? 0 then Some reg
      else Some (u8 (Z.lor reg (u32 (Z.shiftl (u32 (channel p - 1)) 8))))
  | XR21B142X =>
      Some (u8 (Z.lor reg (u32 (Z.shiftl (u32 (channel p - 4)) 1))))
  | MAX_XR_MODELS => None
  end.

Definition xr_set_reg (env : kernel_env) (p : xr_port_private)
    (block reg val : Z) : M Z :=
  let block := u8 block in
  let reg := u8 reg in
  let val := u8 val in
  match xr_mangle_reg p reg with
  | None => ret (- EINVAL)
  | Some reg =>
      r <- do_usb env
             {| pipe_in := false;
                bRequest := u8 (xr_hal_table (model p) REQ_SET);
                bmRequestType :=
                  Z.lor (Z.lor USB_DIR_OUT USB_TYPE_VENDOR) USB_RECIP_DEVICE;
                wValue := val;
                wIndex := u16 (Z.lor reg (Z.shiftl block 8));
                wLength := 0;
                payload := [] |} ;;
      if fst r <? 0 then ret (fst r) else ret 0
  end.

(** [xr_get_reg] returns its status together with the content of [*val]
    afterwards; [val] is the content of [*val] at the call. *)
Definition xr_get_reg (env : kernel_env) (p : xr_port_private)
    (block reg val : Z) : M (Z * Z) :=
  let block := u8 block in
  let reg := u8 reg in
  ok <- do_kmalloc env ;;
  if negb ok then ret (- ENOMEM, val)
  else
    match xr_mangle_reg p reg with
    | None => ret (- EINVAL, val)
    | Some reg =>
        r <- do_usb env
               {| pipe_in := true;
                  bRequest := u8 (xr_hal_table (model p) REQ_GET);
                  bmRequestType :=
                    Z.lor (Z.lor USB_DIR_IN USB_TYPE_VENDOR) USB_RECIP_DEVICE;
                  wValue := 0;
                  wIndex := u16 (Z.lor reg (Z.shiftl block 8));
                  wLength := 1;
                  payload := [] |} ;;
        if fst r =? 1 then ret (0, u8 (snd r))
        else ret (if fst r >=? 0 then - EIO else fst r, val)
    end.

(** ** Class control layer *)

(** [buf] is the content of the caller's buffer ([[]] for NULL), [len] its
    length.  The copy back into [buf] after the transfer has no reader in
    the driver and is not modelled. *)
Definition xr_usb_serial_ctrl_msg (env : kernel_env) (p : xr_port_private)
    (request val : Z) (buf : list Z) (len : Z) : M Z :=
  let if_num := control_if p in
  let send :=
    r <- do_usb env
           {| pipe_in := true;
              bRequest := u8 request;
              bmRequestType := Z.lor USB_TYPE_CLASS USB_RECIP_INTERFACE;
              wValue := u16 val;
              wIndex := u16 if_num;
              wLength := u16 len;
              payload := buf |} ;;
    if fst r <? 0 then ret (fst r) else ret 0 in
  if len =? 0 then send
  else
    ok <- do_kmalloc env ;;
    if negb ok then ret (- ENOMEM) else send.

Definition xr_set_reg_uart (env : kernel_env) (p : xr_port_private)
    (reg val : Z) : M Z :=
  xr_set_reg env p UART_REG_BLOCK reg val.

Definition xr_get_reg_uart (env : kernel_env) (p : xr_port_private)
    (reg val : Z) : M (Z * Z) :=
  xr_get_reg env p UART_REG_BLOCK reg val.

Definition xr_set_reg_um (env : kernel_env) (p : xr_port_private)
    (reg val : Z) : M Z :=
  xr_set_reg env p UM_REG_BLOCK reg val.

(** ** UART lifecycle *)

Definition xr_uart_enable (env : kernel_env) (p : xr_port_private) : M Z :=
  if negb (xr_model_eqb (model p) XR21V141X) then
    xr_set_reg_uart env p (xr_hal_table (model p) REG_ENABLE)
      (Z.lor UART_ENABLE_TX UART_ENABLE_RX)
  else
    r <- xr_set_reg_um env p UM_FIFO_ENABLE_REG UM_ENABLE_TX_FIFO ;;
    if negb (r =? 0) then ret r
    else
      r <- xr_set_reg_uart env p (xr_hal_table (model p) REG_ENABLE)
             (Z.lor UART_ENABLE_TX UART_ENABLE_RX) ;;
      if negb (r =? 0) then ret r
      else
        r <- xr_set_reg_um env p UM_FIFO_ENABLE_REG
               (Z.lor UM_ENABLE_TX_FIFO UM_ENABLE_RX_FIFO) ;;
        if negb (r =? 0) then
          xr_set_reg_uart env p (xr_hal_table (model p) REG_ENABLE) 0 ;;;
          ret r
        else ret r.

Definition xr_uart_disable (env : kernel_env) (p : xr_port_private) : M Z :=
  r <- xr_set_reg_uart env p (xr_hal_table (model p) REG_ENABLE) 0 ;;
  if negb (r =? 0) then ret r
  else if negb (xr_model_eqb (model p) XR21V141X) then ret 0
  else xr_set_reg_um env p UM_FIFO_ENABLE_REG 0.

Definition fifo_reset (env : kernel_env) (p : xr_port_private) : M Z :=
  if negb (xr_model_eqb (model p) XR21V141X) then ret 0
  else
    let channel := if channel p =? 0 then channel p else channel p - 1 in
    r <- xr_set_reg_um env p (URM_RESET_RX_FIFO_BASE + channel) 0xff ;;
    if negb (r =? 0) then ret r
    else xr_set_reg_um env p (URM_RESET_TX_FIFO_BASE + channel) 0xff.

(** ** Modem-control lines *)

Definition xr_tiocmget (env : kernel_env) (p : xr_port_private) : M Z :=
  s0 <- read_uninit env L_tiocmget_status ;;
  r <- xr_get_reg_uart env p (xr_hal_table (model p) REG_GPIO_STATUS) s0 ;;
  let (rc, status) := r in
  if negb (rc =? 0) then ret rc
  else
    let bit (mask tiocm : Z) :=
      if negb (Z.land status mask =? 0) then 0 else tiocm in
    ret (Z.lor (Z.lor (Z.lor (Z.lor (Z.lor
           (bit UART_MODE_DTR TIOCM_DTR)
           (bit UART_MODE_RTS TIOCM_RTS))
           (bit UART_MODE_CTS TIOCM_CTS))
           (bit UART_MODE_DSR TIOCM_DSR))
           (bit UART_MODE_RI TIOCM_RI))
           (bit UART_MODE_CD TIOCM_CD)).

Definition xr_tiocmset_port (env : kernel_env) (p : xr_port_private)
    (set clear : Z) : M Z :=
  let set := u32 set in
  let clear := u32 clear in
  let gpio_set := 0 in
  let gpio_clr := 0 in
  let gpio_clr :=
    if negb (Z.land set TIOCM_RTS =? 0)
    then u8 (Z.lor gpio_clr UART_MODE_RTS) else gpio_clr in
  let gpio_clr :=
    if negb (Z.land set TIOCM_DTR =? 0)
    then u8 (Z.lor gpio_clr UART_MODE_DTR) else gpio_clr in
  let gpio_set :=
    if negb (Z.land clear TIOCM_RTS =? 0)
    then u8 (Z.lor gpio_set UART_MODE_RTS) else gpio_set in
  let gpio_set :=
    if negb (Z.land clear TIOCM_DTR =? 0)
    then u8 (Z.lor gpio_set UART_MODE_DTR) else gpio_set in
  r <- (if negb (gpio_clr =? 0)
        then xr_set_reg_uart env p (xr_hal_table (model p) REG_GPIO_CLR)
               gpio_clr
        else ret 0) ;;
  (if negb (gpio_set =? 0)
   then xr_set_reg_uart env p (xr_hal_table (model p) REG_GPIO_SET) gpio_set
   else ret r).

Definition xr_tiocmset (env : kernel_env) (p : xr_port_private)
    (set clear : Z) : M Z :=
  xr_tiocmset_port env p set clear.

Definition xr_dtr_rts (env : kernel_env) (p : xr_port_private) (on : Z)
    : M unit :=
  if negb (on =? 0) then
    xr_tiocmset_port env p (Z.lor TIOCM_DTR TIOCM_RTS) 0 ;;; ret tt
  else
    xr_tiocmset_port env p 0 (Z.lor TIOCM_DTR TIOCM_RTS) ;;; ret tt.

(** ** Break signaling *)

(** [state] is declared without an initialiser and assigned only after the
    early return, so the class request is handed the indeterminate content
    of the variable. *)
Definition xr_break_ctl (env : kernel_env) (p : xr_port_private)
    (break_state : Z) : M unit :=
  if negb (xr_model_eqb (model p) XR21V141X) then
    state <- read_uninit env L_break_state ;;
    xr_usb_serial_ctrl_msg env p USB_CDC_REQ_SEND_BREAK (u8 state) [] 0 ;;;
    ret tt
  else
    let state := if break_state =? 0 then UART_BREAK_OFF else UART_BREAK_ON in
    xr_set_reg_uart env p (xr_hal_table (model p) REG_TX_BREAK) state ;;;
    ret tt.

(** ** Baud-rate engine *)

Record xr_txrx_clk_mask : Type := mk_mask {
  tx : Z;
  rx0 : Z;
  rx1 : Z
}.

(** Tx and Rx clock mask values, section 3.3.4 of the datasheet. *)
Definition xr21v141x_txrx_clk_masks : list xr_txrx_clk_mask :=
  [ mk_mask 0x000 0x000 0x000;
    mk_mask 0x000 0x000 0x000;
    mk_mask 0x100 0x000 0x100;
    mk_mask 0x020 0x400 0x020;
    mk_mask 0x010 0x100 0x010;
    mk_mask 0x208 0x040 0x208;
    mk_mask 0x104 0x820 0x108;
    mk_mask 0x844 0x210 0x884;
    mk_mask 0x444 0x110 0x444;
    mk_mask 0x122 0x888 0x224;
    mk_mask 0x912 0x448 0x924;
    mk_mask 0x492 0x248 0x492;
    mk_mask 0x252 0x928 0x292;
    mk_mask 0x94a 0x4a4 0xa52;
    mk_mask 0x52a 0xaa4 0x54a;
    mk_mask 0xaaa 0x954 0x4aa;
    mk_mask 0xaaa 0x554 0xaaa;
    mk_mask 0x555 0xad4 0x5aa;
    mk_mask 0xb55 0xab4 0x55a;
    mk_mask 0x6b5 0x5ac 0xb56;
    mk_mask 0x5b5 0xd6c 0x6d6;
    mk_mask 0xb6d 0xb6a 0xdb6;
    mk_mask 0x76d 0x6da 0xbb6;
    mk_mask 0xedd 0xdda 0x76e;
    mk_mask 0xddd 0xbba 0xeee;
    mk_mask 0x7bb 0xf7a 0xdde;
    mk_mask 0xf7b 0xef6 0x7de;
    mk_mask 0xdf7 0xbf6 0xf7e;
    mk_mask 0x7f7 0xfee 0xefe;
    mk_mask 0xfdf 0xfbe 0x7fe;
    mk_mask 0xf7f 0xefe 0xffe;
    mk_mask 0xfff 0xffe 0xffd ].

(** Array access [xr21v141x_txrx_clk_masks[idx]].  The driver masks the
    index to five bits, so it never leaves the array (lemma
    [xr_clk_idx_in_table]); outside it the embedding answers the zero entry. *)
Definition clk_mask_at (idx : Z) : xr_txrx_clk_mask :=
  nth (Z.to_nat idx) xr21v141x_txrx_clk_masks (mk_mask 0 0 0).

(** The three [u32] computations of [xr_set_baudrate], written with the
    32-bit wrap-around of each operation: the clamp of the requested baud,
    and, on the clamped baud, the divisor and the table index. *)
Definition xr_clamp_baud (baud : Z) : Z := clamp baud MIN_SPEED MAX_SPEED.

Definition xr_divisor (baud : Z) : Z := u32 (XR_INT_OSC_HZ / baud).

Definition xr_clk_idx (baud : Z) : Z :=
  Z.land (u32 (u32 (32 * XR_INT_OSC_HZ) / baud)) 0x1f.

(** [xr_set_baudrate] returns its status and the termios as
    [tty_encode_baud_rate] leaves it. *)
Definition xr_set_baudrate (env : kernel_env) (tty : ktermios)
    (p : xr_port_private) : M (Z * ktermios) :=
  let baud := c_ospeed tty in
  if baud =? 0 then ret (0, tty)
  else
    let baud := xr_clamp_baud baud in
    let divisor := xr_divisor baud in
    let idx := xr_clk_idx baud in
    let tx_mask := u16 (tx (clk_mask_at idx)) in
    let rx_mask :=
      if negb (Z.land divisor 0x01 =? 0) then u16 (rx1 (clk_mask_at idx))
      else u16 (rx0 (clk_mask_at idx)) in
    r <- xr_set_reg_uart env p CLOCK_DIVISOR_0 (Z.land divisor 0xff) ;;
    if negb (r =? 0) then ret (r, tty) else
    r <- xr_set_reg_uart env p CLOCK_DIVISOR_1
           (Z.land (Z.shiftr divisor 8) 0xff) ;;
    if negb (r =? 0) then ret (r, tty) else
    r <- xr_set_reg_uart env p CLOCK_DIVISOR_2
           (Z.land (Z.shiftr divisor 16) 0xff) ;;
    if negb (r =? 0) then ret (r, tty) else
    r <- xr_set_reg_uart env p TX_CLOCK_MASK_0 (Z.land tx_mask 0xff) ;;
    if negb (r =? 0) then ret (r, tty) else
    r <- xr_set_reg_uart env p TX_CLOCK_MASK_1
           (Z.land (Z.shiftr tx_mask 8) 0xff) ;;
    if negb (r =? 0) then ret (r, tty) else
    r <- xr_set_reg_uart env p RX_CLOCK_MASK_0 (Z.land rx_mask 0xff) ;;
    if negb (r =? 0) then ret (r, tty) else
    r <- xr_set_reg_uart env p RX_CLOCK_MASK_1
           (Z.land (Z.shiftr rx_mask 8) 0xff) ;;
    if negb (r =? 0) then ret (r, tty) else
    ret (0, tty_encode_baud_rate env tty baud baud).

(** ** Termios translation *)

(** [old_termios] may be NULL: [None]. *)
Definition xr_set_flow_mode (env : kernel_env) (tty : ktermios)
    (p : xr_port_private) (old_termios : option ktermios) : M unit :=
  g0 <- read_uninit env L_flow_gpio_mode ;;
  r <- xr_get_reg_uart env p (xr_hal_table (model p) REG_GPIO_MODE) g0 ;;
  let (rc, gpio_mode) := r in
  if negb (rc =? 0) then ret tt
  else
    let gpio_mode := u8 (Z.land gpio_mode (Z.lnot UART_MODE_GPIO_MASK)) in
    gf <- (if negb (C_CRTSCTS tty =? 0) && negb (C_BAUD tty =? B0) then
             ret (u8 (Z.lor gpio_mode UART_MODE_RTS_CTS), UART_FLOW_MODE_HW)
           else if negb (I_IXON tty =? 0) then
             let start_char := u8 (START_CHAR tty) in
             let stop_char := u8 (STOP_CHAR tty) in
             xr_set_reg_uart env p (xr_hal_table (model p) REG_XON_CHAR)
               start_char ;;;
             xr_set_reg_uart env p (xr_hal_table (model p) REG_XOFF_CHAR)
               stop_char ;;;
             ret (gpio_mode, UART_FLOW_MODE_SW)
           else ret (gpio_mode, UART_FLOW_MODE_NONE)) ;;
    let (gpio_mode, flow) := gf in
    let gpio_mode :=
      if xr_model_eqb (model p) XR21B142X then u8 (Z.lor gpio_mode 0x300)
      else gpio_mode in
    xr_uart_disable env p ;;;
    xr_set_reg_uart env p (xr_hal_table (model p) REG_FLOW_CTRL) flow ;;;
    xr_uart_enable env p ;;;
    xr_set_reg_uart env p (xr_hal_table (model p) REG_GPIO_MODE) gpio_mode ;;;
    if C_BAUD tty =? B0 then xr_dtr_rts env p 0
    else
      match old_termios with
      | Some old =>
          if Z.land (c_cflag old) CBAUD =? B0 then xr_dtr_rts env p 1
          else ret tt
      | None => ret tt
      end.

(** The seven bytes of [struct usb_cdc_line_coding] as they lie in memory,
    [dwDTERate] little-endian first. *)
Definition line_coding_bytes (dwDTERate bCharFormat bParityType bDataBits : Z)
    : list Z :=
  [ Z.land dwDTERate 0xff;
    Z.land (Z.shiftr dwDTERate 8) 0xff;
    Z.land (Z.shiftr dwDTERate 16) 0xff;
    Z.land (Z.shiftr dwDTERate 24) 0xff;
    u8 bCharFormat; u8 bParityType; u8 bDataBits ].

(** [clear] and [set] are declared without initialisers and only one of them
    is assigned before both are read. *)
Definition xr_set_termios_cdc (env : kernel_env) (tty : ktermios)
    (p : xr_port_private) (old_termios : option ktermios) : M ktermios :=
  let dwDTERate := u32 (tty_get_baud_rate env tty) in
  let bCharFormat := if negb (C_CSTOPB tty =? 0) then 1 else 0 in
  let bParityType :=
    if negb (C_PARENB tty =? 0) then
      (if negb (C_PARODD tty =? 0) then 1 else 2)
      + (if negb (C_CMSPAR tty =? 0) then 2 else 0)
    else 0 in
  let bDataBits :=
    if C_CSIZE tty =? CS5 then 5
    else if C_CSIZE tty =? CS6 then 6
    else if C_CSIZE tty =? CS7 then 7
    else 8 in
  set0 <- read_uninit env L_cdc_set ;;
  clear0 <- read_uninit env L_cdc_clear ;;
  let '(dwDTERate, set, clear) :=
    if dwDTERate =? 0 then (c_ospeed tty, set0, UART_MODE_DTR)
    else (dwDTERate, UART_MODE_DTR, clear0) in
  (if negb (clear =? 0) || negb (set =? 0)
   then xr_tiocmset_port env p set clear ;;; ret tt
   else ret tt) ;;;
  xr_set_flow_mode env tty p old_termios ;;;
  xr_usb_serial_ctrl_msg env p USB_CDC_REQ_SET_LINE_CODING 0
    (line_coding_bytes dwDTERate bCharFormat bParityType bDataBits) 7 ;;;
  ret tty.

Definition set_c_cflag (tty : ktermios) (v : Z) : ktermios :=
  {| c_iflag := c_iflag tty; c_cflag := v; c_cc := c_cc tty;
     c_ispeed := c_ispeed tty; c_ospeed := c_ospeed tty |}.

Definition xr_set_termios_format_reg (env : kernel_env) (tty : ktermios)
    (p : xr_port_private) (old_termios : option ktermios) : M ktermios :=
  let bits := 0 in
  tty <- (match old_termios with
          | None => r <- xr_set_baudrate env tty p ;; ret (snd r)
          | Some old =>
              if negb (c_ospeed tty =? c_ospeed old)
              then r <- xr_set_baudrate env tty p ;; ret (snd r)
              else ret tty
          end) ;;
  let '(tty, bits) :=
    if (C_CSIZE tty =? CS5) || (C_CSIZE tty =? CS6) then
      let cflag := u32 (Z.land (c_cflag tty) (Z.lnot CSIZE)) in
      match old_termios with
      | Some old =>
          (set_c_cflag tty (Z.lor cflag (Z.land (c_cflag old) CSIZE)), bits)
      | None => (set_c_cflag tty cflag, u8 (Z.lor bits UART_DATA_8))
      end
    else if C_CSIZE tty =? CS7 then (tty, u8 (Z.lor bits UART_DATA_7))
    else (tty, u8 (Z.lor bits UART_DATA_8)) in
  let bits :=
    if negb (C_PARENB tty =? 0) then
      if negb (C_CMSPAR tty =? 0) then
        if negb (C_PARODD tty =? 0) then u8 (Z.lor bits UART_PARITY_MARK)
        else u8 (Z.lor bits UART_PARITY_SPACE)
      else
        if negb (C_PARODD tty =? 0) then u8 (Z.lor bits UART_PARITY_ODD)
        else u8 (Z.lor bits UART_PARITY_EVEN)
    else bits in
  let bits :=
    if negb (C_CSTOPB tty =? 0) then u8 (Z.lor bits UART_STOP_2)
    else u8 (Z.lor bits UART_STOP_1) in
  xr_set_reg_uart env p (xr_hal_table (model p) REG_FORMAT) bits ;;;
  xr_set_flow_mode env tty p old_termios ;;;
  ret tty.

Definition xr_set_termios (env : kernel_env) (tty : ktermios)
    (p : xr_port_private) (old_termios : option ktermios) : M ktermios :=
  if xr_hal_table (model p) REG_FORMAT =? VIA_CDC_REGISTER
  then xr_set_termios_cdc env tty p old_termios
  else xr_set_termios_format_reg env tty p old_termios.

(** * The specification's side

    Definitions that follow the words of the specification, to be compared
    with the driver's functions above, and predicates on event traces. *)

(** The 32-entry table index as the specification computes it, on unbounded
    integers: [((32 * 48_000_000) / baud) & 0x1f]. *)
Definition spec_clk_idx (baud : Z) : Z :=
  Z.land ((32 * 48000000) / baud) 0x1f.

(** [wIndex] of a register write on XR21V141X as the specification gives it:
    [(block << 8) | R | ((c - 1) << 8)]. *)
Definition spec_wIndex_XR21V141X (block R c : Z) : Z :=
  Z.lor (Z.lor (Z.shiftl block 8) R) (Z.shiftl (c - 1) 8).

(** The seven (register, byte) pairs of the baud-rate engine as the
    specification lists them: divisor, tx mask and rx mask, low byte first,
    at UART registers 0x04 to 0x0a. *)
Definition spec_baud_writes (baud : Z) : list (Z * Z) :=
  let b := Z.min (Z.max baud 46) 48000000 in
  let divisor := 48000000 / b in
  let entry := clk_mask_at (spec_clk_idx b) in
  let tx_mask := tx entry in
  let rx_mask := if Z.odd divisor then rx1 entry else rx0 entry in
  [ (0x04, divisor mod 256);
    (0x05, (divisor / 256) mod 256);
    (0x06, (divisor / 65536) mod 256);
    (0x07, tx_mask mod 256);
    (0x08, (tx_mask / 256) mod 256);
    (0x09, rx_mask mod 256);
    (0x0a, (rx_mask / 256) mod 256) ].

(** Register writes issued in order through the register access layer,
    stopping at the first one that fails. *)
Fixpoint write_in_order (env : kernel_env) (p : xr_port_private)
    (ws : list (Z * Z)) : M Z :=
  match ws with
  | [] => ret 0
  | (reg, val) :: ws' =>
      r <- xr_set_reg_uart env p reg val ;;
      if r =? 0 then write_in_order env p ws' else ret r
  end.

(** A vendor register write as the specification encodes it on the wire:
    [bmRequestType = 0x40], [bRequest = REQ_SET[model]], [wValue = value],
    [wIndex = (block << 8) | reg], [wLength = 0]. *)
Definition spec_write_msg (req block reg val : Z) : ctrl_msg :=
  {| pipe_in := false;
     bRequest := req;
     bmRequestType := 0x40;
     wValue := val;
     wIndex := Z.lor (Z.shiftl block 8) reg;
     wLength := 0;
     payload := [] |}.

(** UART-block writes sent in order as such transfers, stopping at the
    first transfer with a negative status. *)
Fixpoint wire_write_in_order (env : kernel_env) (req : Z)
    (ws : list (Z * Z)) : M Z :=
  match ws with
  | [] => ret 0
  | (reg, val) :: ws' =>
      r <- do_usb env (spec_write_msg req 0 reg val) ;;
      if fst r <? 0 then ret (fst r) else wire_write_in_order env req ws'
  end.

(** The baud-rate engine as the specification describes it. *)
Definition spec_set_baudrate (env : kernel_env) (tty : ktermios)
    (p : xr_port_private) : M (Z * ktermios) :=
  let baud := c_ospeed tty in
  if baud =? 0 then ret (0, tty)
  else
    let b := Z.min (Z.max baud 46) 48000000 in
    r <- write_in_order env p (spec_baud_writes baud) ;;
    if r =? 0 then ret (0, tty_encode_baud_rate env tty b b)
    else ret (r, tty).

(** A vendor register write on the wire: [bmRequestType] 0x40, sent on the
    out pipe. *)
Definition is_vendor_write (e : event) : Prop :=
  match e with
  | EvCtrl m _ _ => pipe_in m = false /\ bmRequestType m = 0x40
  | EvKmalloc _ => False
  end.

(** A register read that failed: its buffer could not be allocated, or the
    transfer did not return the one byte asked for. *)
Definition is_failed_read (e : event) : Prop :=
  match e with
  | EvCtrl m status _ =>
      pipe_in m = true /\ bmRequestType m = 0xC0 /\ status <> 1
  | EvKmalloc ok => ok = false
  end.

(** The transfer [xr_set_reg] hands to [usb_control_msg] once the channel
    arithmetic has produced the register number [r]. *)
Definition set_reg_msg (p : xr_port_private) (block r val : Z) : ctrl_msg :=
  {| pipe_in := false;
     bRequest := u8 (xr_hal_table (model p) REQ_SET);
     bmRequestType := 0x40;
     wValue := u8 val;
     wIndex := u16 (Z.lor r (Z.shiftl (u8 block) 8));
     wLength := 0;
     payload := [] |}.

(** Likewise for [xr_get_reg]. *)
Definition get_reg_msg (p : xr_port_private) (block r : Z) : ctrl_msg :=
  {| pipe_in := true;
     bRequest := u8 (xr_hal_table (model p) REQ_GET);
     bmRequestType := 0xC0;
     wValue := 0;
     wIndex := u16 (Z.lor r (Z.shiftl (u8 block) 8));
     wLength := 1;
     payload := [] |}.

(** The status [xr_set_reg] returns for the status of its transfer. *)
Definition set_status (st : Z) : Z := if st <? 0 then st else 0.

(** The flow mode [xr_set_flow_mode] selects from the line settings. *)
Definition flow_of (tty : ktermios) : Z :=
  if negb (C_CRTSCTS tty =? 0) && negb (C_BAUD tty =? B0)
  then UART_FLOW_MODE_HW
  else if negb (I_IXON tty =? 0) then UART_FLOW_MODE_SW
  else UART_FLOW_MODE_NONE.

(** The values [xr_tiocmset_port] can write carry the DTR and RTS bits
    only. *)
Definition only_dtr_rts (e : event) : Prop :=
  match e with
  | EvCtrl m _ _ =>
      pipe_in m = false /\
      Z.land (wValue m) (Z.lnot (Z.lor UART_MODE_DTR UART_MODE_RTS)) = 0
  | EvKmalloc _ => False
  end.

(** A computation all of whose transfers and allocations satisfy [P],
    whatever the history it starts from. *)
Definition emits_only {A} (P : event -> Prop) (m : M A) : Prop :=
  forall h, Forall P (emitted m h).

(** The event is a write, through [xr_set_reg_uart], of the register the
    model table names [r]. *)
Definition is_reg_write (p : xr_port_private) (r : xr_hal_type) (e : event)
    : Prop :=
  exists n val st b0,
    xr_mangle_reg p (u8 (xr_hal_table (model p) r)) = Some n /\
    e = EvCtrl (set_reg_msg p UART_REG_BLOCK n val) st b0.

(** No vendor write follows a failed register read in the trace.  (A failed
    allocation counts as a failed read: the termios call allocates for the
    register read and, as its last step on the CDC path, for the class
    request.) *)
Definition quiet_after_failed_read (l : list event) : Prop :=
  forall l1 e l2,
    l = l1 ++ e :: l2 -> is_failed_read e ->
    Forall (fun x => ~ is_vendor_write x) l2.

(** A trace made of a part without failed reads followed by a part without
    vendor writes: once a read has failed, nothing more is written. *)
Definition settles (l : list event) : Prop :=
  exists A B,
    l = A ++ B /\
    Forall (fun e => ~ is_failed_read e) A /\
    Forall (fun e => ~ is_vendor_write e) B.

Definition settling {A} (m : M A) : Prop :=
  forall h, settles (emitted m h).

(** C3 as the specification states it, for one termios call: a GPIO_MODE
    read fails and a FLOW_CTRL write is still issued after it. *)
Definition flow_ctrl_written_after_failed_read (p : xr_port_private)
    (l : list event) : Prop :=
  exists l1 e l2,
    l = l1 ++ e :: l2 /\ is_failed_read e /\
    Exists (is_reg_write p REG_FLOW_CTRL) l2.

(** The wire address ([wIndex]) of a UART-block register of the model table,
    after the channel arithmetic; [None] on an unknown model. *)
Definition uart_wIndex (p : xr_port_private) (r : xr_hal_type) : option Z :=
  match xr_mangle_reg p (u8 (xr_hal_table (model p) r)) with
  | Some n => Some (wIndex (set_reg_msg p UART_REG_BLOCK n 0))
  | None => None
  end.

(** The event is a vendor write to wire address [a]. *)
Definition writes_wIndex (a : Z) (e : event) : Prop :=
  is_vendor_write e /\
  match e with
  | EvCtrl m _ _ => wIndex m = a
  | EvKmalloc _ => False
  end.

(** The event is a write of a register of the UART-manager block. *)
Definition is_um_write (p : xr_port_private) (e : event) : Prop :=
  exists n val st b0,
    0 <= n < 256 /\ e = EvCtrl (set_reg_msg p UM_REG_BLOCK n val) st b0.

(** FLOW_CTRL has a wire address of its own among the UART-block registers
    [xr_set_flow_mode] writes.  (On XR21B142X the channel arithmetic can map
    two registers to one address.) *)
Definition flow_ctrl_unaliased (p : xr_port_private) : Prop :=
  exists a,
    uart_wIndex p REG_FLOW_CTRL = Some a /\
    Forall (fun r => uart_wIndex p r <> Some a)
      [REG_ENABLE; REG_XON_CHAR; REG_XOFF_CHAR;
       REG_GPIO_MODE; REG_GPIO_SET; REG_GPIO_CLR].

(** ** Concrete environments and inputs, for running the driver *)

Definition encode_baud (t : ktermios) (ibaud obaud : Z) : ktermios :=
  {| c_iflag := c_iflag t; c_cflag := c_cflag t; c_cc := c_cc t;
     c_ispeed := ibaud; c_ospeed := obaud |}.

(** Every transfer moves the bytes asked for, every allocation succeeds. *)
Definition env_ok : kernel_env :=
  {| usb_control_msg := fun _ m => (wLength m, 0);
     kmalloc := fun _ => true;
     uninit := fun _ _ => 0;
     tty_get_baud_rate := c_ospeed;
     tty_encode_baud_rate := encode_baud |}.

(** Vendor reads fail with -EPROTO; everything else succeeds. *)
Definition env_read_fails : kernel_env :=
  {| usb_control_msg := fun _ m =>
       if pipe_in m && (bmRequestType m =? 0xC0) then (-71, 0)
       else (wLength m, 0);
     kmalloc := fun _ => true;
     uninit := fun _ _ => 0;
     tty_get_baud_rate := c_ospeed;
     tty_encode_baud_rate := encode_baud |}.

(** Every transfer fails with -EPROTO. *)
Definition env_usb_fails : kernel_env :=
  {| usb_control_msg := fun _ _ => (-71, 0);
     kmalloc := fun _ => true;
     uninit := fun _ _ => 0;
     tty_get_baud_rate := c_ospeed;
     tty_encode_baud_rate := encode_baud |}.

(** Uninitialised locals hold [g]; everything succeeds. *)
Definition env_garbage (g : Z) : kernel_env :=
  {| usb_control_msg := fun _ m => (wLength m, 0);
     kmalloc := fun _ => true;
     uninit := fun _ _ => g;
     tty_get_baud_rate := c_ospeed;
     tty_encode_baud_rate := encode_baud |}.

(** 9600 8N1 with hardware flow control (B9600 = 0xd, CS8, CRTSCTS). *)
Definition tty_9600_crtscts : ktermios :=
  {| c_iflag := 0; c_cflag := Z.lor (Z.lor 0xd CS8) CRTSCTS;
     c_cc := [3; 28; 127; 21; 4; 0; 1; 0; 17; 19];
     c_ispeed := 9600; c_ospeed := 9600 |}.

(** * Port open and close, probe and disconnect *)

(** include/uapi/asm-generic/errno-base.h *)
Definition ENODEV : Z := 19.

(** [xr_open].  [tty] may be NULL ([None]); the termios [xr_set_termios]
    leaves is returned with the status.  [usb_serial_generic_open] belongs
    to the generic serial layer: its status is a parameter, and it issues no
    control transfer of this driver. *)
Definition xr_open (env : kernel_env)
    (usb_serial_generic_open : option ktermios -> list event -> Z)
    (tty : option ktermios) (p : xr_port_private)
    : M (Z * option ktermios) :=
  r <- xr_uart_enable env p ;;
  if negb (r =? 0) then ret (r, tty)
  else
    let gpio_dir := u8 (Z.lor UART_MODE_DTR UART_MODE_RTS) in
    xr_set_reg_uart env p (xr_hal_table (model p) REG_GPIO_DIR) gpio_dir ;;;
    r <- fifo_reset env p ;;
    if negb (r =? 0) then ret (r, tty)
    else
      tty <- (match tty with
              | Some t => t' <- xr_set_termios env t p None ;; ret (Some t')
              | None => ret None
              end) ;;
      r <- (fun h => (usb_serial_generic_open tty h, [])) ;;
      if negb (r =? 0) then xr_uart_disable env p ;;; ret (r, tty)
      else ret (0, tty).

(** [xr_close]: [usb_serial_generic_close], which issues no control
    transfer of this driver, then [xr_uart_disable]. *)
Definition xr_close (env : kernel_env) (p : xr_port_private) : M unit :=
  xr_uart_disable env p ;;; ret tt.

(** The calls [xr_probe] and [xr_disconnect] make on the control interface,
    which is named by its interface number, and on the port data. *)
Inductive kernel_call : Type :=
| usb_get_intf (ifnum : Z)
| usb_put_intf (ifnum : Z)
| pm_suspend_ignore_children (ifnum : Z) (enable : bool)
| pm_runtime_enable (ifnum : Z)
| pm_runtime_set_active (ifnum : Z)
| pm_runtime_disable (ifnum : Z)
| pm_runtime_set_suspended (ifnum : Z)
| kfree_port_priv.

(** [xr_probe].  Inputs: [supports_autosuspend] of the USB driver, the
    [bInterfaceNumber] of the interface probed, [driver_info] of the matched
    id, [endpoint0], the [bEndpointAddress] of the interface's first endpoint
    ([None]: the interface has no endpoint), and [usb_ifnum_to_if], which
    tells whether the device has an interface of the given number.  Result:
    the status, the port data attached to the serial device ([None]: none)
    and the calls made, in order.

    The source uses [endpoint[0]] and the pointer [usb_ifnum_to_if] returns
    without a check.  Without a first endpoint [data_ep->bEndpointAddress]
    reads through a NULL pointer, and without the control interface
    [pm_suspend_ignore_children(&ctrl_intf->dev, false)] writes through one;
    both happen after the allocation.  The result is then [None]: the call
    does not return.  [%] is C's remainder. *)
Definition xr_probe (env : kernel_env) (supports_autosuspend : bool)
    (ifnum : Z) (driver_info : xr_model) (endpoint0 : option Z)
    (usb_ifnum_to_if : Z -> bool)
    : M (option (Z * option xr_port_private * list kernel_call)) :=
  if Z.rem ifnum 2 =? 0 then ret (Some (- ENODEV, None, []))
  else
    let ctrl_ifnum := ifnum - Z.rem ifnum 2 in
    ok <- do_kmalloc env ;;
    if negb ok then ret (Some (- ENOMEM, None, []))
    else
      match endpoint0 with
      | None => ret None
      | Some bEndpointAddress =>
          if negb (usb_ifnum_to_if ctrl_ifnum) then ret None
          else
            let port_priv :=
              {| model := driver_info;
                 channel := bEndpointAddress;
                 control_if := ctrl_ifnum |} in
            ret (Some (0, Some port_priv,
                       [ usb_get_intf ctrl_ifnum;
                         pm_suspend_ignore_children ctrl_ifnum false;
                         if supports_autosuspend
                         then pm_runtime_enable ctrl_ifnum
                         else pm_runtime_set_active ctrl_ifnum ]))
      end.

(** [xr_disconnect]: the port data left attached afterwards and the calls
    made, in order. *)
Definition xr_disconnect (supports_autosuspend : bool)
    (port_priv : xr_port_private)
    : option xr_port_private * list kernel_call :=
  let ctrl_intf := control_if port_priv in
  (None,
   (if supports_autosuspend then [pm_runtime_disable ctrl_intf] else [])
   ++ [ pm_runtime_set_suspended ctrl_intf;
        usb_put_intf ctrl_intf;
        kfree_port_priv ]).

(** [id_table]: vendor id, product id and [driver_info] of each entry. *)
Definition id_table : list (Z * Z * xr_model) :=
  [ (0x04e2, 0x1400, XR2280X);
    (0x04e2, 0x1401, XR2280X);
    (0x04e2, 0x1402, XR2280X);
    (0x04e2, 0x1403, XR2280X);
    (0x04e2, 0x1410, XR21V141X);
    (0x04e2, 0x1411, XR21B1411);
    (0x04e2, 0x1412, XR21V141X);
    (0x04e2, 0x1414, XR21V141X);
    (0x04e2, 0x1420, XR21B142X);
    (0x04e2, 0x1422, XR21B142X);
    (0x04e2, 0x1424, XR21B142X) ].

(** ** More predicates on traces *)

(** A class request to an interface ([bmRequestType] 0x21). *)
Definition is_class_request (e : event) : Prop :=
  match e with
  | EvCtrl m _ _ => bmRequestType m = 0x21
  | EvKmalloc _ => False
  end.

(** The event is a UART-block write of the register the model table names
    [r], with value [v]. *)
Definition is_reg_write_of (p : xr_port_private) (r : xr_hal_type) (v : Z)
    (e : event) : Prop :=
  exists n st b0,
    xr_mangle_reg p (u8 (xr_hal_table (model p) r)) = Some n /\
    e = EvCtrl (set_reg_msg p UART_REG_BLOCK n v) st b0.

(** The byte [xr_set_flow_mode] writes back to GPIO_MODE when it has read
    [s]: bits 7..3 of [s], and RTS_CTS (1) in the low three bits under
    hardware flow control. *)
Definition gpio_mode_value (s : Z) (tty : ktermios) : Z :=
  Z.lor (Z.land s 0xf8)
    (if negb (C_CRTSCTS tty =? 0) && negb (C_BAUD tty =? B0) then 1 else 0).

(** The value a transfer carries in [wValue]; -1 for an allocation. *)
Definition written_value (e : event) : Z :=
  match e with
  | EvCtrl m _ _ => wValue m
  | EvKmalloc _ => -1
  end.

(** Every transfer succeeds under [env]. *)
Definition usb_never_fails (env : kernel_env) : Prop :=
  forall h m, 0 <= fst (usb_control_msg env h m).

(** Vendor reads fail with -EPROTO and only the first allocation
    succeeds. *)
Definition env_read_and_alloc_fail : kernel_env :=
  {| usb_control_msg := fun _ m =>
       if pipe_in m && (bmRequestType m =? 0xC0) then (-71, 0)
       else (wLength m, 0);
     kmalloc := fun h => match h with [] => true | _ :: _ => false end;
     uninit := fun _ _ => 0;
     tty_get_baud_rate := c_ospeed;
     tty_encode_baud_rate := encode_baud |}.

(** The first transfer fails, every later one succeeds. *)
Definition env_first_fails : kernel_env :=
  {| usb_control_msg := fun h _ =>
       match h with [] => (-71, 0) | _ :: _ => (0, 0) end;
     kmalloc := fun _ => true;
     uninit := fun _ _ => 0;
     tty_get_baud_rate := c_ospeed;
     tty_encode_baud_rate := encode_baud |}.

(** * Properties *)

(** ** C integers *)

Lemma u8_range (x : Z) : 0 <= u8 x < 256.
Proof. unfold u8. change (2 ^ 8) with 256. apply Z.mod_pos_bound. lia. Qed.

Lemma u8_small (x : Z) : 0 <= x < 256 -> u8 x = x.
Proof. intros H. unfold u8. change (2 ^ 8) with 256. now apply Z.mod_small. Qed.

Lemma u16_small (x : Z) : 0 <= x < 65536 -> u16 x = x.
Proof.
  intros H. unfold u16. change (2 ^ 16) with 65536. now apply Z.mod_small.
Qed.

Lemma u32_small (x : Z) : 0 <= x < 4294967296 -> u32 x = x.
Proof.
  intros H. unfold u32. change (2 ^ 32) with 4294967296.
  now apply Z.mod_small.
Qed.

Lemma u8_idem (x : Z) : u8 (u8 x) = u8 x.
Proof. apply u8_small, u8_range. Qed.

(** ** Baud-rate arithmetic *)

Lemma xr_clamp_baud_range (baud : Z) :
  MIN_SPEED <= xr_clamp_baud baud <= MAX_SPEED.
Proof.
  unfold xr_clamp_baud, clamp, MIN_SPEED, MAX_SPEED, XR_INT_OSC_HZ. lia.
Qed.

Lemma xr_clamp_baud_spec (baud : Z) :
  xr_clamp_baud baud = Z.min (Z.max baud 46) 48000000.
Proof. reflexivity. Qed.

Lemma xr_clamp_baud_id (baud : Z) :
  MIN_SPEED <= baud <= MAX_SPEED -> xr_clamp_baud baud = baud.
Proof.
  unfold xr_clamp_baud, clamp, MIN_SPEED, MAX_SPEED, XR_INT_OSC_HZ. lia.
Qed.

Lemma div_osc_bounds (n baud : Z) :
  0 <= n -> 1 <= baud -> 0 <= n / baud <= n.
Proof.
  intros Hn Hb. split.
  - apply Z.div_pos; lia.
  - apply Z.div_le_upper_bound; nia.
Qed.

Lemma xr_divisor_exact (baud : Z) :
  1 <= baud -> xr_divisor baud = 48000000 / baud.
Proof.
  intros Hb. unfold xr_divisor, XR_INT_OSC_HZ. apply u32_small.
  pose proof (div_osc_bounds 48000000 baud). lia.
Qed.

Lemma xr_clk_idx_exact (baud : Z) :
  1 <= baud -> xr_clk_idx baud = spec_clk_idx baud.
Proof.
  intros Hb. unfold xr_clk_idx, spec_clk_idx, XR_INT_OSC_HZ.
  change (32 * 48000000) with 1536000000.
  rewrite (u32_small 1536000000) by lia.
  rewrite u32_small; [reflexivity|].
  pose proof (div_osc_bounds 1536000000 baud). lia.
Qed.

Lemma land_0x1f (x : Z) : Z.land x 0x1f = x mod 32.
Proof. change 0x1f with (Z.ones 5). now rewrite Z.land_ones by lia. Qed.

Lemma xr_clk_idx_range (baud : Z) : 0 <= xr_clk_idx baud < 32.
Proof.
  unfold xr_clk_idx. rewrite land_0x1f. apply Z.mod_pos_bound. lia.
Qed.

(** The masked index never leaves the 32-entry table. *)
Lemma xr_clk_idx_in_table (baud : Z) :
  (Z.to_nat (xr_clk_idx baud) < length xr21v141x_txrx_clk_masks)%nat.
Proof.
  pose proof (xr_clk_idx_range baud). simpl length. lia.
Qed.

(** The index is the fractional part of [48_000_000 / baud], in 32nds. *)
Lemma spec_clk_idx_fraction (baud : Z) :
  1 <= baud ->
  spec_clk_idx baud = (32 * 48000000) / baud - 32 * (48000000 / baud).
Proof.
  intros Hb. unfold spec_clk_idx. rewrite land_0x1f.
  rewrite Z.mod_eq by lia.
  assert (E : 32 * 48000000 / baud / 32 = 48000000 / baud).
  { rewrite Z.div_div by lia. rewrite (Z.mul_comm baud 32).
    rewrite <- Z.div_div by lia. reflexivity. }
  now rewrite E.
Qed.

(** C10. The index computation of the baud-rate engine stays inside unsigned
    32-bit arithmetic: [32 * XR_INT_OSC_HZ] is 1_536_000_000, below 2^32, so
    neither the product nor the quotient wraps, and for every baud of at
    least 1 the driver's index is the exact
    [((32 * 48_000_000) / baud) & 0x1f]. *)
Theorem xr_clk_idx_no_overflow (baud : Z) :
  1 <= baud < 2 ^ 32 ->
  32 * XR_INT_OSC_HZ = 1536000000 /\
  32 * XR_INT_OSC_HZ < 2 ^ 32 /\
  u32 (32 * XR_INT_OSC_HZ) = 32 * XR_INT_OSC_HZ /\
  u32 (u32 (32 * XR_INT_OSC_HZ) / baud) = (32 * XR_INT_OSC_HZ) / baud /\
  xr_clk_idx baud = Z.land ((32 * 48000000) / baud) 0x1f.
Proof.
  intros [Hlo Hhi].
  assert (Hprod : u32 (32 * XR_INT_OSC_HZ) = 32 * XR_INT_OSC_HZ)
    by reflexivity.
  repeat split; try reflexivity.
  - rewrite Hprod. apply u32_small.
    pose proof (div_osc_bounds (32 * XR_INT_OSC_HZ) baud).
    unfold XR_INT_OSC_HZ in *. lia.
  - now apply xr_clk_idx_exact.
Qed.

Lemma xr_clk_idx_no_overflow_witness :
  1 <= 115200 < 2 ^ 32 /\ xr_clk_idx 115200 = 21.
Proof.
  split; [lia|].
  destruct (xr_clk_idx_no_overflow 115200 ltac:(lia)) as (_ & _ & _ & _ & E).
  rewrite E. reflexivity.
Defined.

(** Across the clamped range the divisor needs up to 20 bits; it fits in 19
    bits exactly from 92 baud on. *)
Lemma xr_divisor_lt_2_20 (baud : Z) :
  MIN_SPEED <= baud <= MAX_SPEED -> 1 <= xr_divisor baud < 2 ^ 20.
Proof.
  unfold MIN_SPEED, MAX_SPEED, XR_INT_OSC_HZ. intros H.
  rewrite xr_divisor_exact by lia. split.
  - apply Z.div_le_lower_bound; lia.
  - apply Z.div_lt_upper_bound; lia.
Qed.

Lemma xr_divisor_lt_2_19_iff (baud : Z) :
  MIN_SPEED <= baud <= MAX_SPEED ->
  xr_divisor baud < 2 ^ 19 <-> 92 <= baud.
Proof.
  unfold MIN_SPEED, MAX_SPEED, XR_INT_OSC_HZ. intros H.
  rewrite xr_divisor_exact by lia. split.
  - intros Hd. destruct (Z_lt_le_dec baud 92) as [Hs|Hs]; [|exact Hs].
    exfalso. apply Z.lt_nge in Hd. apply Hd.
    apply Z.div_le_lower_bound; lia.
  - intros Hb. apply Z.div_lt_upper_bound; lia.
Qed.

(** C7. At the lower clamp, 46 baud, the divisor the driver computes is
    1_043_478: it does not fit in the 19 bits the driver's comment gives the
    divisor, and the byte written to CLOCK_DIVISOR_2 is 0x0f, with bit 19 of
    the divisor set. *)
Theorem xr_divisor_at_min_speed_exceeds_19_bits :
  MIN_SPEED <= 46 <= MAX_SPEED /\
  xr_clamp_baud 46 = 46 /\
  xr_divisor (xr_clamp_baud 46) = 1043478 /\
  ~ xr_divisor (xr_clamp_baud 46) < 2 ^ 19 /\
  Z.land (Z.shiftr (xr_divisor (xr_clamp_baud 46)) 16) 0xff = 0x0f.
Proof.
  repeat split; try reflexivity; try (intros H; discriminate H).
Qed.

(** C2, as stated, fails: 48_000_000 baud lies in the clamped range and
    selects entry 0 of the table. *)
Lemma xr_clk_idx_below_2 :
  ~ (MIN_SPEED <= 48000000 <= MAX_SPEED -> 2 <= xr_clk_idx 48000000).
Proof.
  intros H.
  assert (R : MIN_SPEED <= 48000000 <= MAX_SPEED)
    by (unfold MIN_SPEED, MAX_SPEED, XR_INT_OSC_HZ; lia).
  specialize (H R). revert H. now vm_compute.
Qed.

(** C2, amended.  For every baud in [46, 48_000_000] the index is exact, lies
    in 0..31 (inside the 32-entry table) and is the fractional part of the
    divisor counted in 32nds; whenever that fraction is 0 or 1 the engine
    selects the all-zero entry 0 or 1. *)
Theorem xr_clk_idx_is_fraction (baud : Z) :
  MIN_SPEED <= baud <= MAX_SPEED ->
  xr_clk_idx baud = Z.land ((32 * 48000000) / baud) 0x1f /\
  0 <= xr_clk_idx baud <= 31 /\
  (Z.to_nat (xr_clk_idx baud) < length xr21v141x_txrx_clk_masks)%nat /\
  xr_clk_idx baud = (32 * 48000000) / baud - 32 * xr_divisor baud /\
  (xr_clk_idx baud < 2 -> clk_mask_at (xr_clk_idx baud) = mk_mask 0 0 0).
Proof.
  unfold MIN_SPEED, MAX_SPEED, XR_INT_OSC_HZ. intros H.
  pose proof (xr_clk_idx_range baud) as Hr.
  repeat split; try lia.
  - apply xr_clk_idx_exact. lia.
  - apply xr_clk_idx_in_table.
  - rewrite xr_clk_idx_exact, xr_divisor_exact by lia.
    apply spec_clk_idx_fraction. lia.
  - intros Hlt.
    assert (C : xr_clk_idx baud = 0 \/ xr_clk_idx baud = 1) by lia.
    destruct C as [-> | ->]; reflexivity.
Qed.

Lemma xr_clk_idx_is_fraction_witness :
  MIN_SPEED <= 46000000 <= MAX_SPEED /\
  xr_clk_idx 46000000 = 1 /\
  clk_mask_at (xr_clk_idx 46000000) = mk_mask 0 0 0.
Proof.
  assert (R : MIN_SPEED <= 46000000 <= MAX_SPEED)
    by (unfold MIN_SPEED, MAX_SPEED, XR_INT_OSC_HZ; lia).
  destruct (xr_clk_idx_is_fraction 46000000 R) as (E & _ & _ & _ & Hz).
  split; [exact R|]. split; [rewrite E; reflexivity|].
  apply Hz. rewrite E. reflexivity.
Defined.

(** ** Computations and their traces *)

Lemma bind_run {A B} (m : M A) (f : A -> M B) (h : list event) :
  bind m f h =
  (fst (f (fst (m h)) (h ++ snd (m h))),
   snd (m h) ++ snd (f (fst (m h)) (h ++ snd (m h)))).
Proof.
  unfold bind. destruct (m h) as [a e1]. simpl.
  destruct (f a (h ++ e1)) as [b e2]. reflexivity.
Qed.

Lemma result_bind {A B} (m : M A) (f : A -> M B) (h : list event) :
  result (bind m f) h = result (f (result m h)) (h ++ emitted m h).
Proof. unfold result, emitted. now rewrite bind_run. Qed.

Lemma emitted_bind {A B} (m : M A) (f : A -> M B) (h : list event) :
  emitted (bind m f) h =
  emitted m h ++ emitted (f (result m h)) (h ++ emitted m h).
Proof. unfold result, emitted. now rewrite bind_run. Qed.

Lemma emitted_ret {A} (a : A) (h : list event) : emitted (ret a) h = [].
Proof. reflexivity. Qed.

Lemma result_ret {A} (a : A) (h : list event) : result (ret a) h = a.
Proof. reflexivity. Qed.

Lemma run_eta {A} (m : M A) (h : list event) :
  m h = (result m h, emitted m h).
Proof. unfold result, emitted. now destruct (m h). Qed.

(** ** Register access layer *)

Lemma xr_set_reg_run (env : kernel_env) (p : xr_port_private)
    (block reg val r : Z) (h : list event) :
  xr_mangle_reg p (u8 reg) = Some r ->
  xr_set_reg env p block reg val h =
  (set_status (fst (usb_control_msg env h (set_reg_msg p block r val))),
   [EvCtrl (set_reg_msg p block r val)
      (fst (usb_control_msg env h (set_reg_msg p block r val)))
      (snd (usb_control_msg env h (set_reg_msg p block r val)))]).
Proof.
  intros Hm. unfold xr_set_reg. rewrite Hm. rewrite bind_run.
  unfold do_usb, set_status. cbn [fst snd].
  change (Z.lor (Z.lor USB_DIR_OUT USB_TYPE_VENDOR) USB_RECIP_DEVICE)
    with 0x40.
  fold (set_reg_msg p block r val).
  destruct (fst (usb_control_msg env h (set_reg_msg p block r val)) <? 0);
    cbn; reflexivity.
Qed.

Lemma xr_set_reg_run_none (env : kernel_env) (p : xr_port_private)
    (block reg val : Z) (h : list event) :
  xr_mangle_reg p (u8 reg) = None ->
  xr_set_reg env p block reg val h = (- EINVAL, []).
Proof. intros Hm. unfold xr_set_reg. now rewrite Hm. Qed.

Lemma xr_mangle_reg_none (p : xr_port_private) (reg : Z) :
  xr_mangle_reg p reg = None <-> model p = MAX_XR_MODELS.
Proof.
  unfold xr_mangle_reg.
  destruct (model p); try destruct (channel p =? 0);
    split; intros H; try discriminate; reflexivity.
Qed.

(** A shifted-in channel never reaches the low eight bits. *)
Lemma u8_lor_shifted (reg y : Z) :
  0 <= reg < 256 -> u8 (Z.lor reg (u32 (Z.shiftl y 8))) = reg.
Proof.
  intros Hr. unfold u8.
  rewrite <- (Z.land_ones _ 8) by lia.
  rewrite Z.land_lor_distr_l.
  rewrite !Z.land_ones by lia.
  assert (E : u32 (Z.shiftl y 8) mod 2 ^ 8 = 0).
  { unfold u32. rewrite Z.mod_mod_divide by (exists (2 ^ 24); reflexivity).
    rewrite Z.shiftl_mul_pow2 by lia. apply Z_mod_mult. }
  rewrite E, Z.lor_0_r. apply Z.mod_small. exact Hr.
Qed.

(** On XR21V141X the channel arithmetic leaves the [u8] register number as
    it was, whatever the channel. *)
Lemma xr_mangle_reg_XR21V141X (p : xr_port_private) (reg : Z) :
  model p = XR21V141X -> 0 <= reg < 256 -> xr_mangle_reg p reg = Some reg.
Proof.
  intros Hm Hr. unfold xr_mangle_reg. rewrite Hm.
  destruct (channel p =? 0); [reflexivity|].
  now rewrite u8_lor_shifted.
Qed.

Lemma xr_mangle_reg_direct (p : xr_port_private) (reg : Z) :
  model p = XR2280X \/ model p = XR21B1411 -> xr_mangle_reg p reg = Some reg.
Proof. unfold xr_mangle_reg. intros [-> | ->]; reflexivity. Qed.

Lemma lor_shiftl_8_high (b R : Z) :
  0 <= b -> 0 <= R < 256 -> Z.shiftr (Z.lor R (Z.shiftl b 8)) 8 = b.
Proof.
  intros Hb HR. rewrite Z.shiftr_lor, Z.shiftr_shiftl_l by lia.
  rewrite Z.sub_diag, Z.shiftl_0_r.
  rewrite (Z.shiftr_div_pow2 R) by lia.
  rewrite Z.div_small by (change (2 ^ 8) with 256; lia).
  apply Z.lor_0_l.
Qed.

(** On XR21V141X a register write carries [wIndex = (block << 8) | R] for
    every channel: the high byte of [wIndex] is the block alone. *)
Lemma xr_set_reg_XR21V141X_wIndex (env : kernel_env) (h : list event)
    (c ifn b R v : Z) :
  0 <= b < 256 -> 0 <= R < 256 ->
  exists m st b0,
    emitted (xr_set_reg env (mk_port XR21V141X c ifn) b R v) h
    = [EvCtrl m st b0] /\
    wIndex m = Z.lor R (Z.shiftl b 8) /\
    Z.shiftr (wIndex m) 8 = b.
Proof.
  intros Hb HR.
  set (p := mk_port XR21V141X c ifn).
  assert (Hm : xr_mangle_reg p (u8 R) = Some R).
  { rewrite (u8_small R) by exact HR.
    now apply xr_mangle_reg_XR21V141X. }
  eexists _, _, _. unfold emitted.
  rewrite (xr_set_reg_run env p b R v R h Hm). cbn [snd].
  split; [reflexivity|].
  assert (Hw : wIndex (set_reg_msg p b R v) = Z.lor R (Z.shiftl b 8)).
  { cbn [set_reg_msg wIndex]. rewrite (u8_small b) by exact Hb.
    apply u16_small.
    assert (Hs : Z.shiftr (Z.lor R (Z.shiftl b 8)) 8 = b)
      by (apply lor_shiftl_8_high; lia).
    assert (Hn : 0 <= Z.lor R (Z.shiftl b 8)).
    { apply Z.lor_nonneg. split; [lia|]. apply Z.shiftl_nonneg. lia. }
    rewrite Z.shiftr_div_pow2 in Hs by lia.
    change (2 ^ 8) with 256 in Hs.
    pose proof (Z.div_mod (Z.lor R (Z.shiftl b 8)) 256 ltac:(lia)).
    pose proof (Z.mod_pos_bound (Z.lor R (Z.shiftl b 8)) 256 ltac:(lia)).
    lia. }
  split; [exact Hw|]. rewrite Hw. apply lor_shiftl_8_high; lia.
Qed.

(** C1. On XR21V141X, channel 2, a write of register 0x03 in block 0 goes out
    with [wIndex = 0x0003] under every environment, where the specification
    gives [(0 << 8) | 0x03 | ((2 - 1) << 8) = 0x0103]: the register number is
    a [u8], so OR-ing the channel into bits 8 and up is lost, and the high
    byte of [wIndex] equals the block. *)
Theorem xr_set_reg_XR21V141X_channel_2 (env : kernel_env) (h : list event)
    (ifn : Z) :
  exists m st b0,
    emitted (xr_set_reg env (mk_port XR21V141X 2 ifn) 0 0x03 0x03) h
    = [EvCtrl m st b0] /\
    wIndex m = 0x0003 /\
    Z.shiftr (wIndex m) 8 = 0 /\
    spec_wIndex_XR21V141X 0 0x03 2 = 0x0103 /\
    wIndex m <> spec_wIndex_XR21V141X 0 0x03 2.
Proof.
  destruct (xr_set_reg_XR21V141X_wIndex env h 2 ifn 0 0x03 0x03)
    as (m & st & b0 & E & Hw & Hs); try lia.
  exists m, st, b0. change (Z.lor 3 (Z.shiftl 0 8)) with 3 in Hw.
  repeat split; try assumption.
  rewrite Hw. intros H. discriminate H.
Qed.

(** What one [xr_set_reg] call does: nothing on an unknown model, one vendor
    write otherwise, whose status decides the return value. *)
Lemma xr_set_reg_cases (env : kernel_env) (p : xr_port_private)
    (block reg val : Z) (h : list event) :
  (model p = MAX_XR_MODELS /\
   xr_set_reg env p block reg val h = (- EINVAL, []))
  \/
  (exists r st b0,
     xr_mangle_reg p (u8 reg) = Some r /\
     usb_control_msg env h (set_reg_msg p block r val) = (st, b0) /\
     xr_set_reg env p block reg val h
     = (set_status st, [EvCtrl (set_reg_msg p block r val) st b0])).
Proof.
  destruct (xr_mangle_reg p (u8 reg)) as [r|] eqn:Hm.
  - right. exists r.
    destruct (usb_control_msg env h (set_reg_msg p block r val))
      as [st b0] eqn:Hu.
    exists st, b0. repeat split.
    rewrite (xr_set_reg_run env p block reg val r h Hm), Hu. reflexivity.
  - left. split.
    + now apply (xr_mangle_reg_none p (u8 reg)).
    + now apply xr_set_reg_run_none.
Qed.

Lemma set_status_zero_iff (st : Z) : set_status st = 0 <-> 0 <= st.
Proof.
  unfold set_status. destruct (st <? 0) eqn:E.
  - apply Z.ltb_lt in E. lia.
  - apply Z.ltb_ge in E. lia.
Qed.

(** ** C8: [xr_get_reg] and its output byte *)

(** The five ways [xr_get_reg] ends. *)
Lemma xr_get_reg_cases (env : kernel_env) (p : xr_port_private)
    (block reg val : Z) (h : list event) :
  (kmalloc env h = false /\
   xr_get_reg env p block reg val h = ((- ENOMEM, val), [EvKmalloc false]))
  \/
  (kmalloc env h = true /\ model p = MAX_XR_MODELS /\
   xr_get_reg env p block reg val h = ((- EINVAL, val), [EvKmalloc true]))
  \/
  (exists r st b0,
     kmalloc env h = true /\
     xr_mangle_reg p (u8 reg) = Some r /\
     usb_control_msg env (h ++ [EvKmalloc true]) (get_reg_msg p block r)
     = (st, b0) /\
     ((st = 1 /\
       xr_get_reg env p block reg val h
       = ((0, u8 b0),
          [EvKmalloc true; EvCtrl (get_reg_msg p block r) st b0]))
      \/
      (st < 0 /\
       xr_get_reg env p block reg val h
       = ((st, val),
          [EvKmalloc true; EvCtrl (get_reg_msg p block r) st b0]))
      \/
      (0 <= st /\ st <> 1 /\
       xr_get_reg env p block reg val h
       = ((- EIO, val),
          [EvKmalloc true; EvCtrl (get_reg_msg p block r) st b0])))).
Proof.
  unfold xr_get_reg. rewrite bind_run. unfold do_kmalloc. cbn [fst snd].
  destruct (kmalloc env h) eqn:Hk; cbn [negb].
  - destruct (xr_mangle_reg p (u8 reg)) as [r|] eqn:Hm.
    + right. right.
      change (Z.lor (Z.lor USB_DIR_IN USB_TYPE_VENDOR) USB_RECIP_DEVICE)
        with 0xC0.
      fold (get_reg_msg p block r).
      destruct (usb_control_msg env (h ++ [EvKmalloc true])
                  (get_reg_msg p block r)) as [st b0] eqn:Hu.
      exists r, st, b0.
      split; [reflexivity|]. split; [reflexivity|]. split; [exact Hu|].
      rewrite bind_run. unfold do_usb. cbn [fst snd]. rewrite Hu.
      cbn [fst snd].
      destruct (st =? 1) eqn:E1.
      * apply Z.eqb_eq in E1. left. split; [exact E1|]. reflexivity.
      * apply Z.eqb_neq in E1. right.
        destruct (st >=? 0) eqn:E0.
        -- right. rewrite Z.geb_leb in E0. apply Z.leb_le in E0.
           repeat split; [exact E0 | exact E1].
        -- left. rewrite Z.geb_leb in E0. apply Z.leb_gt in E0.
           split; [exact E0 | reflexivity].
    + right. left. repeat split.
      now apply (xr_mangle_reg_none p (u8 reg)).
  - left. split; reflexivity.
Qed.

(** C8. Whenever [xr_get_reg] returns an error (allocation failure -ENOMEM,
    unsupported model -EINVAL, a negative transfer status, or a short read
    -EIO) the caller's byte [*val] is what it was at the call; a changed
    [*val] therefore comes only with the return value 0. *)
Theorem xr_get_reg_error_keeps_val (env : kernel_env) (p : xr_port_private)
    (block reg val : Z) (h : list event) :
  fst (result (xr_get_reg env p block reg val) h) <> 0 ->
  snd (result (xr_get_reg env p block reg val) h) = val /\
  (fst (result (xr_get_reg env p block reg val) h) = - ENOMEM \/
   fst (result (xr_get_reg env p block reg val) h) = - EINVAL \/
   fst (result (xr_get_reg env p block reg val) h) = - EIO \/
   fst (result (xr_get_reg env p block reg val) h) < 0).
Proof.
  unfold result.
  destruct (xr_get_reg_cases env p block reg val h)
    as [[_ E] | [(_ & _ & E) | (r & st & b0 & _ & _ & _ & C)]].
  - rewrite E. cbn. auto.
  - rewrite E. cbn. auto.
  - destruct C as [[_ E] | [[Hs E] | (_ & _ & E)]]; rewrite E; cbn.
    + intros H. now elim H.
    + auto.
    + auto.
Qed.

(** A successful [xr_get_reg] stores the byte the device returned. *)
Lemma xr_get_reg_success (env : kernel_env) (p : xr_port_private)
    (block reg val : Z) (h : list event) :
  fst (result (xr_get_reg env p block reg val) h) = 0 ->
  exists m b0,
    emitted (xr_get_reg env p block reg val) h
    = [EvKmalloc true; EvCtrl m 1 b0] /\
    snd (result (xr_get_reg env p block reg val) h) = u8 b0.
Proof.
  unfold result, emitted.
  destruct (xr_get_reg_cases env p block reg val h)
    as [[_ E] | [(_ & _ & E) | (r & st & b0 & _ & _ & _ & C)]].
  - rewrite E. cbn. discriminate.
  - rewrite E. cbn. discriminate.
  - destruct C as [[Hs E] | [[Hs E] | (_ & _ & E)]]; rewrite E; cbn.
    + subst st. intros _. eexists _, _. split; reflexivity.
    + lia.
    + discriminate.
Qed.

(** A short read (status 0) on XR21V141X: -EIO, and the caller's 0x5a
    stays. *)
Lemma xr_get_reg_error_keeps_val_witness :
  fst (result (xr_get_reg
                 (mk_env (fun _ _ => (0, 0x77)) (fun _ => true)
                    (fun _ _ => 0) c_ospeed encode_baud)
                 (mk_port XR21V141X 1 0) UART_REG_BLOCK 0x1a 0x5a) [])
  = - EIO /\
  snd (result (xr_get_reg
                 (mk_env (fun _ _ => (0, 0x77)) (fun _ => true)
                    (fun _ _ => 0) c_ospeed encode_baud)
                 (mk_port XR21V141X 1 0) UART_REG_BLOCK 0x1a 0x5a) [])
  = 0x5a.
Proof.
  split; [reflexivity|].
  apply (xr_get_reg_error_keeps_val
           (mk_env (fun _ _ => (0, 0x77)) (fun _ => true)
              (fun _ _ => 0) c_ospeed encode_baud)
           (mk_port XR21V141X 1 0) UART_REG_BLOCK 0x1a 0x5a []).
  vm_compute. discriminate.
Defined.

(** ** C4: break signaling *)

(** On XR21V141X the break state is written to TX_BREAK (register 0x14 of
    the UART block) by a vendor request: 0x00 to release, 0xff to assert. *)
Lemma xr_break_ctl_XR21V141X (env : kernel_env) (c ifn break_state : Z)
    (h : list event) :
  exists m st b0,
    emitted (xr_break_ctl env (mk_port XR21V141X c ifn) break_state) h
    = [EvCtrl m st b0] /\
    pipe_in m = false /\ bmRequestType m = 0x40 /\ bRequest m = 0 /\
    wIndex m = 0x14 /\
    wValue m = (if break_state =? 0 then 0x00 else 0xff).
Proof.
  set (p := mk_port XR21V141X c ifn).
  assert (Hm : xr_mangle_reg p (u8 (xr_hal_table (model p) REG_TX_BREAK))
               = Some 0x14)
    by (apply xr_mangle_reg_XR21V141X; [reflexivity | cbn; lia]).
  unfold xr_break_ctl. cbn [model p xr_model_eqb negb].
  rewrite emitted_bind. unfold xr_set_reg_uart, emitted at 1.
  fold p. rewrite (xr_set_reg_run env p _ _ _ _ h Hm). cbn [snd].
  eexists _, _, _. split; [reflexivity|].
  repeat split. cbn [wValue set_reg_msg].
  destruct (break_state =? 0); reflexivity.
Qed.

(** C4. On XR21B1411 [xr_break_ctl] issues the class request SEND_BREAK
    (0x23) with [wIndex] the control interface number and [wLength] 0, but
    its [wValue] is the indeterminate content of the uninitialised [state],
    whatever [break_state] is: with 0x5a there, a release ([break_state] 0)
    goes out with [wValue = 0x5a], not 0. *)
Theorem xr_break_ctl_class_wValue_uninit (env : kernel_env) (c ifn : Z)
    (break_state : Z) (h : list event) :
  (exists m st b0,
     emitted (xr_break_ctl env (mk_port XR21B1411 c ifn) break_state) h
     = [EvCtrl m st b0] /\
     bmRequestType m = 0x21 /\ bRequest m = USB_CDC_REQ_SEND_BREAK /\
     wIndex m = u16 ifn /\ wLength m = 0 /\
     wValue m = u8 (uninit env L_break_state h)) /\
  (exists m st b0,
     emitted (xr_break_ctl (env_garbage 0x5a) (mk_port XR21B1411 1 0) 0) []
     = [EvCtrl m st b0] /\
     wValue m = 0x5a /\ wValue m <> 0).
Proof.
  split.
  - unfold xr_break_ctl. cbn [model xr_model_eqb negb].
    rewrite !emitted_bind.
    unfold read_uninit at 1. unfold emitted at 1. cbn [snd].
    unfold result at 1. unfold read_uninit at 1. cbn [fst].
    unfold xr_usb_serial_ctrl_msg. cbn [Z.eqb].
    rewrite !emitted_bind. cbn [app].
    unfold emitted at 1. unfold do_usb at 1. cbn [snd].
    rewrite app_nil_r.
    match goal with
    | |- context [emitted (if ?b then _ else _) _] => destruct b
    end; cbn [emitted ret snd app];
    eexists _, _, _; (split; [reflexivity|]);
    repeat split; cbn [wValue]; apply u16_small;
    pose proof (u8_range (uninit env L_break_state h)); lia.
  - eexists _, _, _. split; [reflexivity|]. split; [reflexivity|].
    intros H. discriminate H.
Qed.

(** ** C5: the baud-rate engine *)

Lemma bind_ext {A B} (m : M A) (f g : A -> M B) (h : list event) :
  (forall a h', f a h' = g a h') -> bind m f h = bind m g h.
Proof. intros H. unfold bind. destruct (m h) as [a e]. now rewrite H. Qed.

Lemma bind_assoc {A B C} (m : M A) (f : A -> M B) (g : B -> M C)
    (h : list event) :
  bind (bind m f) g h = bind m (fun a => bind (f a) g) h.
Proof.
  unfold bind. destruct (m h) as [a e1].
  destruct (f a (h ++ e1)) as [b e2].
  rewrite <- app_assoc.
  destruct (g b (h ++ e1 ++ e2)) as [c e3].
  now rewrite app_assoc.
Qed.

Lemma bind_ret_l {A B} (a : A) (f : A -> M B) (h : list event) :
  bind (ret a) f h = f a h.
Proof.
  unfold bind, ret. rewrite app_nil_r. now destruct (f a h).
Qed.

(** One step of [write_in_order] under a continuation. *)
Lemma write_in_order_step {B} (env : kernel_env) (p : xr_port_private)
    (reg val : Z) (ws : list (Z * Z)) (k : Z -> M B) (h : list event) :
  bind (write_in_order env p ((reg, val) :: ws)) k h
  = bind (xr_set_reg_uart env p reg val)
      (fun r => if r =? 0 then bind (write_in_order env p ws) k else k r) h.
Proof.
  cbn [write_in_order]. rewrite bind_assoc. apply bind_ext.
  intros r h'. destruct (r =? 0); [reflexivity|]. apply bind_ret_l.
Qed.

Lemma land_0xff (x : Z) : Z.land x 0xff = x mod 256.
Proof. change 0xff with (Z.ones 8). now rewrite Z.land_ones by lia. Qed.

Lemma shiftr_8 (x : Z) : Z.shiftr x 8 = x / 256.
Proof. now rewrite Z.shiftr_div_pow2 by lia. Qed.

Lemma shiftr_16 (x : Z) : Z.shiftr x 16 = x / 65536.
Proof. now rewrite Z.shiftr_div_pow2 by lia. Qed.

Lemma land_1_odd (d : Z) : negb (Z.land d 0x01 =? 0) = Z.odd d.
Proof.
  change 0x01 with (Z.ones 1). rewrite Z.land_ones by lia.
  change (2 ^ 1) with 2. rewrite <- Z.bit0_mod, Z.bit0_odd.
  now destruct (Z.odd d).
Qed.

(** Every entry of the clock-mask table holds 12-bit masks. *)
Lemma clk_mask_at_bounds (idx : Z) :
  0 <= tx (clk_mask_at idx) < 4096 /\
  0 <= rx0 (clk_mask_at idx) < 4096 /\
  0 <= rx1 (clk_mask_at idx) < 4096.
Proof.
  unfold clk_mask_at. generalize (Z.to_nat idx) as n. intros n.
  do 33 (destruct n as [|n]; [cbn; lia|]).
  cbn. lia.
Qed.

(** The driver's engine, with its fixed-width conversions, computes what
    the specification's engine computes on unbounded integers. *)
Lemma xr_set_baudrate_eq_spec (env : kernel_env) (tty : ktermios)
    (p : xr_port_private) (h : list event) :
  xr_set_baudrate env tty p h = spec_set_baudrate env tty p h.
Proof.
  unfold xr_set_baudrate, spec_set_baudrate, spec_baud_writes.
  destruct (c_ospeed tty =? 0); [reflexivity|].
  cbv zeta.
  pose proof (xr_clamp_baud_range (c_ospeed tty)) as Hb.
  rewrite xr_clamp_baud_spec in *.
  revert Hb.
  generalize (Z.min (Z.max (c_ospeed tty) 46) 48000000).
  intros b Hb.
  assert (Hb1 : 1 <= b) by (unfold MIN_SPEED in Hb; lia).
  rewrite (xr_divisor_exact b Hb1), (xr_clk_idx_exact b Hb1).
  destruct (clk_mask_at_bounds (spec_clk_idx b)) as (Ht & Hr0 & Hr1).
  rewrite !u16_small by lia.
  rewrite land_1_odd, !land_0xff, !shiftr_8, shiftr_16.
  unfold CLOCK_DIVISOR_0, CLOCK_DIVISOR_1, CLOCK_DIVISOR_2,
    TX_CLOCK_MASK_0, TX_CLOCK_MASK_1, RX_CLOCK_MASK_0, RX_CLOCK_MASK_1.
  symmetry.
  do 7 (rewrite write_in_order_step; apply bind_ext; intros ? ?;
        cbv beta;
        match goal with
        | |- context [negb (?r =? 0)] =>
            destruct (r =? 0) eqn:?; cbn [negb]
        end;
        [| reflexivity]).
  cbn [write_in_order]. rewrite bind_ret_l. reflexivity.
Qed.

(** On the models whose register number the access layer leaves alone, a
    UART-block write is the transfer the specification describes. *)
Lemma xr_set_reg_uart_spec_msg (env : kernel_env) (p : xr_port_private)
    (reg val : Z) (h : list event) :
  model p = XR2280X \/ model p = XR21B1411 \/ model p = XR21V141X ->
  0 <= reg < 256 -> 0 <= val < 256 ->
  xr_set_reg_uart env p reg val h
  = bind (do_usb env
            (spec_write_msg (u8 (xr_hal_table (model p) REQ_SET)) 0 reg val))
      (fun r => if fst r <? 0 then ret (fst r) else ret 0) h.
Proof.
  intros Hm Hreg Hval.
  assert (Hr : xr_mangle_reg p (u8 reg) = Some reg).
  { rewrite (u8_small reg Hreg).
    destruct Hm as [Hm | [Hm | Hm]].
    - apply xr_mangle_reg_direct. now left.
    - apply xr_mangle_reg_direct. now right.
    - now apply xr_mangle_reg_XR21V141X. }
  unfold xr_set_reg_uart, xr_set_reg. rewrite Hr. cbv zeta.
  rewrite (u8_small val Hval).
  change (Z.shiftl (u8 UART_REG_BLOCK) 8) with 0.
  rewrite (Z.lor_0_r reg), (u16_small reg) by lia.
  reflexivity.
Qed.

Lemma bind_cong_l {A B} (m m' : M A) (f : A -> M B) (h : list event) :
  m h = m' h -> bind m f h = bind m' f h.
Proof. intros E. unfold bind. now rewrite E. Qed.

Lemma write_in_order_on_wire (env : kernel_env) (p : xr_port_private)
    (ws : list (Z * Z)) (h : list event) :
  model p = XR2280X \/ model p = XR21B1411 \/ model p = XR21V141X ->
  Forall (fun w => 0 <= fst w < 256 /\ 0 <= snd w < 256) ws ->
  write_in_order env p ws h
  = wire_write_in_order env (u8 (xr_hal_table (model p) REQ_SET)) ws h.
Proof.
  intros Hm Hws. revert h.
  induction Hws as [|[reg val] ws [Hreg Hval] Hws IH]; intros h;
    cbn [write_in_order wire_write_in_order]; [reflexivity|].
  cbn [fst snd] in Hreg, Hval.
  rewrite (bind_cong_l _ _ _ h
             (xr_set_reg_uart_spec_msg env p reg val h Hm Hreg Hval)).
  rewrite bind_assoc. apply bind_ext. intros r h'.
  destruct (fst r <? 0) eqn:Hst; rewrite bind_ret_l.
  - apply Z.ltb_lt in Hst.
    destruct (fst r =? 0) eqn:Hz; [apply Z.eqb_eq in Hz; lia | reflexivity].
  - cbn [Z.eqb]. apply IH.
Qed.

Lemma spec_baud_writes_bytes (baud : Z) :
  Forall (fun w => 0 <= fst w < 256 /\ 0 <= snd w < 256)
    (spec_baud_writes baud).
Proof.
  unfold spec_baud_writes. cbv zeta.
  repeat constructor; cbn [fst snd]; try lia;
    apply Z.mod_pos_bound; lia.
Qed.

(** C5. The baud-rate engine is the engine of the specification: a requested
    baud of 0 returns 0 without a transfer; any other baud is clamped to
    [46, 48_000_000], divisor, index and masks are computed as specified
    (rx mask from [rx1] for an odd divisor, from [rx0] otherwise), and the
    seven bytes DIV0, DIV1, DIV2, TX0, TX1, RX0, RX1 are written low byte
    first to UART registers 0x04 to 0x0a through the register access layer,
    in that order, stopping at the first write that fails and returning its
    error.  On XR2280X, XR21B1411 and XR21V141X the seven writes are the
    vendor transfers with [wIndex] 0x04 to 0x0a and the seven bytes as
    [wValue]. *)
Theorem xr_set_baudrate_refines_spec (env : kernel_env) (tty : ktermios)
    (p : xr_port_private) (h : list event) :
  xr_set_baudrate env tty p h = spec_set_baudrate env tty p h /\
  (c_ospeed tty = 0 -> xr_set_baudrate env tty p h = ((0, tty), [])) /\
  (model p = XR2280X \/ model p = XR21B1411 \/ model p = XR21V141X ->
   write_in_order env p (spec_baud_writes (c_ospeed tty)) h
   = wire_write_in_order env (u8 (xr_hal_table (model p) REQ_SET))
       (spec_baud_writes (c_ospeed tty)) h).
Proof.
  split; [apply xr_set_baudrate_eq_spec|]. split.
  - intros H0. unfold xr_set_baudrate. rewrite H0. reflexivity.
  - intros Hm. apply write_in_order_on_wire; [exact Hm|].
    apply spec_baud_writes_bytes.
Qed.

(** 115200 baud on XR21V141X, every transfer succeeding: seven vendor
    transfers, then the baud is echoed to the line state. *)
Lemma xr_set_baudrate_refines_spec_witness :
  xr_set_baudrate env_ok (mk_termios 0 0 [] 0 115200)
    (mk_port XR21V141X 1 0) []
  = ((0, mk_termios 0 0 [] 115200 115200),
     [EvCtrl (spec_write_msg 0 0 0x04 0xa0) 0 0;
      EvCtrl (spec_write_msg 0 0 0x05 0x01) 0 0;
      EvCtrl (spec_write_msg 0 0 0x06 0x00) 0 0;
      EvCtrl (spec_write_msg 0 0 0x07 0x6d) 0 0;
      EvCtrl (spec_write_msg 0 0 0x08 0x0b) 0 0;
      EvCtrl (spec_write_msg 0 0 0x09 0x6a) 0 0;
      EvCtrl (spec_write_msg 0 0 0x0a 0x0b) 0 0]).
Proof.
  destruct (xr_set_baudrate_refines_spec env_ok
              (mk_termios 0 0 [] 0 115200) (mk_port XR21V141X 1 0) [])
    as (E & _ & W).
  rewrite E. unfold spec_set_baudrate. cbn [c_ospeed Z.eqb].
  rewrite bind_run. cbn [c_ospeed] in W.
  rewrite W by (right; right; reflexivity).
  vm_compute. reflexivity.
Defined.

(** The engine's traffic for 115200 baud on XR21V141X, channel 1:
    divisor 416 = 0x1a0, index 21, tx mask 0xb6d, rx mask [rx0] = 0xb6a. *)
Example xr_set_baudrate_115200 :
  map (fun e => match e with
                | EvCtrl m _ _ => (wIndex m, wValue m)
                | EvKmalloc _ => (-1, -1)
                end)
      (emitted (xr_set_baudrate env_ok
                  (mk_termios 0 0 [] 115200 115200) (mk_port XR21V141X 1 0))
         [])
  = [(0x04, 0xa0); (0x05, 0x01); (0x06, 0x00);
     (0x07, 0x6d); (0x08, 0x0b); (0x09, 0x6a); (0x0a, 0x0b)].
Proof. vm_compute. reflexivity. Qed.

(** With every transfer failing the engine stops after DIV0 and returns the
    error. *)
Example xr_set_baudrate_aborts :
  xr_set_baudrate env_usb_fails
    (mk_termios 0 0 [] 115200 115200) (mk_port XR21V141X 1 0) []
  = ((-71, mk_termios 0 0 [] 115200 115200),
     [EvCtrl (set_reg_msg (mk_port XR21V141X 1 0) 0 0x04 0xa0) (-71) 0]).
Proof. vm_compute. reflexivity. Qed.

(** ** A small logic of traces *)

Lemma emits_only_ret {A} (P : event -> Prop) (a : A) : emits_only P (ret a).
Proof. intros h. constructor. Qed.

Lemma emits_only_bind {A B} (P : event -> Prop) (m : M A) (f : A -> M B) :
  emits_only P m -> (forall a, emits_only P (f a)) ->
  emits_only P (bind m f).
Proof.
  intros Hm Hf h. rewrite emitted_bind. apply Forall_app. split.
  - apply Hm.
  - apply Hf.
Qed.

Lemma emits_only_if {A} (P : event -> Prop) (b : bool) (m1 m2 : M A) :
  emits_only P m1 -> emits_only P m2 ->
  emits_only P (if b then m1 else m2).
Proof. now destruct b. Qed.

Lemma emits_only_weaken {A} (P Q : event -> Prop) (m : M A) :
  (forall e, P e -> Q e) -> emits_only P m -> emits_only Q m.
Proof.
  intros HPQ Hm h. eapply Forall_impl; [exact HPQ | apply Hm].
Qed.

Lemma emits_only_read_uninit (P : event -> Prop) (env : kernel_env)
    (x : local_var) : emits_only P (read_uninit env x).
Proof. intros h. constructor. Qed.

Lemma set_reg_msg_is_vendor_write (p : xr_port_private) (block r val : Z)
    (st b0 : Z) : is_vendor_write (EvCtrl (set_reg_msg p block r val) st b0).
Proof. split; reflexivity. Qed.

Lemma xr_set_reg_emits_writes (env : kernel_env) (p : xr_port_private)
    (block reg val : Z) :
  emits_only is_vendor_write (xr_set_reg env p block reg val).
Proof.
  intros h. unfold emitted.
  destruct (xr_set_reg_cases env p block reg val h)
    as [[_ E] | (r & st & b0 & _ & _ & E)]; rewrite E; cbn [snd].
  - constructor.
  - constructor; [apply set_reg_msg_is_vendor_write | constructor].
Qed.

Lemma xr_set_reg_uart_emits_writes (env : kernel_env) (p : xr_port_private)
    (reg val : Z) :
  emits_only is_vendor_write (xr_set_reg_uart env p reg val).
Proof. apply xr_set_reg_emits_writes. Qed.

Lemma xr_set_reg_um_emits_writes (env : kernel_env) (p : xr_port_private)
    (reg val : Z) :
  emits_only is_vendor_write (xr_set_reg_um env p reg val).
Proof. apply xr_set_reg_emits_writes. Qed.

Create HintDb xr_trace.
#[local] Hint Resolve emits_only_ret emits_only_read_uninit
  xr_set_reg_emits_writes xr_set_reg_uart_emits_writes
  xr_set_reg_um_emits_writes : xr_trace.

(** Breaks a goal [emits_only P m] along the binds and conditionals of
    [m]. *)
Ltac emits_step :=
  match goal with
  | |- emits_only _ (bind _ _) => apply emits_only_bind; [|intros ?]
  | |- emits_only _ (if _ then _ else _) => apply emits_only_if
  | |- emits_only _ (match ?x with Some _ => _ | None => _ end) =>
      destruct x
  | |- emits_only _ (let (_, _) := ?x in _) => destruct x
  | |- emits_only _ _ => solve [auto with xr_trace]
  end.

Lemma xr_uart_enable_emits_writes (env : kernel_env) (p : xr_port_private) :
  emits_only is_vendor_write (xr_uart_enable env p).
Proof. unfold xr_uart_enable. repeat emits_step. Qed.

Lemma xr_uart_disable_emits_writes (env : kernel_env) (p : xr_port_private) :
  emits_only is_vendor_write (xr_uart_disable env p).
Proof. unfold xr_uart_disable. repeat emits_step. Qed.

Lemma xr_tiocmset_port_emits_writes (env : kernel_env) (p : xr_port_private)
    (set clear : Z) :
  emits_only is_vendor_write (xr_tiocmset_port env p set clear).
Proof. unfold xr_tiocmset_port. cbv zeta. repeat emits_step. Qed.

Lemma xr_dtr_rts_emits_writes (env : kernel_env) (p : xr_port_private)
    (on : Z) :
  emits_only is_vendor_write (xr_dtr_rts env p on).
Proof.
  unfold xr_dtr_rts.
  repeat (emits_step || apply xr_tiocmset_port_emits_writes).
Qed.

Lemma write_in_order_emits_writes (env : kernel_env) (p : xr_port_private)
    (ws : list (Z * Z)) :
  emits_only is_vendor_write (write_in_order env p ws).
Proof.
  induction ws as [|[reg val] ws IH]; cbn [write_in_order].
  - apply emits_only_ret.
  - repeat emits_step.
Qed.

Lemma xr_set_baudrate_emits_writes (env : kernel_env) (tty : ktermios)
    (p : xr_port_private) :
  emits_only is_vendor_write (xr_set_baudrate env tty p).
Proof.
  intros h. unfold emitted. rewrite xr_set_baudrate_eq_spec.
  revert h. change (emits_only is_vendor_write (spec_set_baudrate env tty p)).
  unfold spec_set_baudrate. cbv zeta.
  repeat (emits_step || apply write_in_order_emits_writes).
Qed.

(** ** C6 and C3: the flow-mode setting *)

Lemma xr_set_reg_emits_one (env : kernel_env) (p : xr_port_private)
    (block reg val : Z) (h : list event) :
  model p <> MAX_XR_MODELS ->
  exists n st b0,
    xr_mangle_reg p (u8 reg) = Some n /\
    xr_set_reg env p block reg val h
    = (set_status st, [EvCtrl (set_reg_msg p block n val) st b0]).
Proof.
  intros Hm.
  destruct (xr_set_reg_cases env p block reg val h)
    as [[E _] | (r & st & b0 & Hr & _ & E)].
  - contradiction.
  - exists r, st, b0. split; assumption.
Qed.

Lemma xr_set_reg_uart_is_reg_write (env : kernel_env) (p : xr_port_private)
    (r : xr_hal_type) (val : Z) :
  emits_only (is_reg_write p r)
    (xr_set_reg_uart env p (xr_hal_table (model p) r) val).
Proof.
  intros h. unfold emitted, xr_set_reg_uart.
  destruct (xr_set_reg_cases env p UART_REG_BLOCK
              (xr_hal_table (model p) r) val h)
    as [[_ E] | (n & st & b0 & Hn & _ & E)]; rewrite E; cbn [snd].
  - constructor.
  - constructor; [|constructor]. exists n, val, st, b0. split; trivial.
Qed.

Lemma xr_get_reg_emits_no_write (env : kernel_env) (p : xr_port_private)
    (block reg val : Z) :
  emits_only (fun e => ~ is_vendor_write e) (xr_get_reg env p block reg val).
Proof.
  intros h. unfold emitted.
  destruct (xr_get_reg_cases env p block reg val h)
    as [[_ E] | [(_ & _ & E) | (r & st & b0 & _ & _ & _ & C)]].
  - rewrite E. cbn [snd]. repeat (apply Forall_cons || apply Forall_nil).
    intros [].
  - rewrite E. cbn [snd]. repeat (apply Forall_cons || apply Forall_nil).
    intros [].
  - destruct C as [[_ E] | [[_ E] | (_ & _ & E)]]; rewrite E; cbn [snd];
      repeat (apply Forall_cons || apply Forall_nil);
      cbn [is_vendor_write get_reg_msg pipe_in]; intros H;
      try (destruct H as [H _]; discriminate H); destruct H.
Qed.

Lemma xr_get_reg_ok_model (env : kernel_env) (p : xr_port_private)
    (block reg val : Z) (h : list event) :
  fst (result (xr_get_reg env p block reg val) h) = 0 ->
  model p <> MAX_XR_MODELS.
Proof.
  unfold result.
  destruct (xr_get_reg_cases env p block reg val h)
    as [[_ E] | [(_ & _ & E) | (r & st & b0 & _ & Hr & _ & C)]].
  - rewrite E. cbn. discriminate.
  - rewrite E. cbn. discriminate.
  - intros _ Hm. apply (xr_mangle_reg_none p (u8 reg)) in Hm. congruence.
Qed.

Lemma xr_uart_disable_emits_some (env : kernel_env) (p : xr_port_private)
    (h : list event) :
  model p <> MAX_XR_MODELS -> emitted (xr_uart_disable env p) h <> [].
Proof.
  intros Hm. unfold xr_uart_disable. rewrite emitted_bind.
  unfold xr_set_reg_uart at 1. unfold emitted at 1.
  destruct (xr_set_reg_emits_one env p UART_REG_BLOCK
              (xr_hal_table (model p) REG_ENABLE) 0 h Hm)
    as (n & st & b0 & _ & E).
  rewrite E. cbn [snd app]. discriminate.
Qed.

Lemma xr_uart_enable_emits_some (env : kernel_env) (p : xr_port_private)
    (h : list event) :
  model p <> MAX_XR_MODELS -> emitted (xr_uart_enable env p) h <> [].
Proof.
  intros Hm. unfold xr_uart_enable.
  destruct (negb (xr_model_eqb (model p) XR21V141X)).
  - unfold xr_set_reg_uart, emitted.
    destruct (xr_set_reg_emits_one env p UART_REG_BLOCK
                (xr_hal_table (model p) REG_ENABLE)
                (Z.lor UART_ENABLE_TX UART_ENABLE_RX) h Hm)
      as (n & st & b0 & _ & E).
    rewrite E. cbn [snd]. discriminate.
  - rewrite emitted_bind. unfold xr_set_reg_um at 1. unfold emitted at 1.
    destruct (xr_set_reg_emits_one env p UM_REG_BLOCK
                UM_FIFO_ENABLE_REG UM_ENABLE_TX_FIFO h Hm)
      as (n & st & b0 & _ & E).
    rewrite E. cbn [snd app]. discriminate.
Qed.

Lemma xr_tiocmset_port_is_reg_write (env : kernel_env)
    (p : xr_port_private) (set clear : Z) :
  emits_only (fun e => is_reg_write p REG_GPIO_CLR e \/
                       is_reg_write p REG_GPIO_SET e)
    (xr_tiocmset_port env p set clear).
Proof.
  unfold xr_tiocmset_port. cbv zeta.
  apply emits_only_bind; [|intros r]; apply emits_only_if;
    try apply emits_only_ret.
  - eapply emits_only_weaken; [|apply xr_set_reg_uart_is_reg_write].
    intros e He. left. exact He.
  - eapply emits_only_weaken; [|apply xr_set_reg_uart_is_reg_write].
    intros e He. right. exact He.
Qed.

Lemma xr_dtr_rts_is_reg_write (env : kernel_env) (p : xr_port_private)
    (on : Z) :
  emits_only (fun e => is_reg_write p REG_GPIO_CLR e \/
                       is_reg_write p REG_GPIO_SET e)
    (xr_dtr_rts env p on).
Proof.
  unfold xr_dtr_rts.
  repeat (emits_step || apply xr_tiocmset_port_is_reg_write).
Qed.

(** The trace of one [xr_set_flow_mode] call.  Either the GPIO_MODE read
    fails and the call ends there, having written nothing; or the trace is
    the read, the XON/XOFF writes of software flow control if any, the
    transfers of [xr_uart_disable], the FLOW_CTRL write, the transfers of
    [xr_uart_enable], and then the GPIO_MODE and DTR/RTS writes. *)
Lemma xr_set_flow_mode_trace (env : kernel_env) (tty : ktermios)
    (p : xr_port_private) (old_termios : option ktermios) (h : list event) :
  let rd := xr_get_reg_uart env p (xr_hal_table (model p) REG_GPIO_MODE)
              (uninit env L_flow_gpio_mode h) in
  let R := emitted rd h in
  let evs := emitted (xr_set_flow_mode env tty p old_termios) h in
  (fst (result rd h) <> 0 /\ evs = R /\
   Forall (fun e => ~ is_vendor_write e) evs)
  \/
  (fst (result rd h) = 0 /\
   exists pre post n st b0,
     let D := emitted (xr_uart_disable env p) ((h ++ R) ++ pre) in
     let F := EvCtrl (set_reg_msg p UART_REG_BLOCK n (flow_of tty)) st b0 in
     let E := emitted (xr_uart_enable env p)
                ((((h ++ R) ++ pre) ++ D) ++ [F]) in
     evs = R ++ pre ++ D ++ [F] ++ E ++ post /\
     D <> [] /\ E <> [] /\
     xr_mangle_reg p (u8 (xr_hal_table (model p) REG_FLOW_CTRL)) = Some n /\
     Forall (fun e => is_reg_write p REG_XON_CHAR e \/
                      is_reg_write p REG_XOFF_CHAR e) pre /\
     Forall (fun e => is_reg_write p REG_GPIO_MODE e \/
                      is_reg_write p REG_GPIO_CLR e \/
                      is_reg_write p REG_GPIO_SET e) post).
Proof.
  intros rd R evs. subst evs. unfold xr_set_flow_mode.
  rewrite emitted_bind.
  change (emitted (read_uninit env L_flow_gpio_mode) h) with (@nil event).
  change (result (read_uninit env L_flow_gpio_mode) h)
    with (uninit env L_flow_gpio_mode h).
  rewrite app_nil_r. cbn [app]. fold rd.
  rewrite emitted_bind. fold R.
  pose proof (xr_get_reg_emits_no_write env p UART_REG_BLOCK
                (xr_hal_table (model p) REG_GPIO_MODE)
                (uninit env L_flow_gpio_mode h) h) as HR.
  change (Forall (fun e => ~ is_vendor_write e) R) in HR.
  pose proof (xr_get_reg_ok_model env p UART_REG_BLOCK
                (xr_hal_table (model p) REG_GPIO_MODE)
                (uninit env L_flow_gpio_mode h) h) as Hmodel.
  change (fst (result rd h) = 0 -> model p <> MAX_XR_MODELS) in Hmodel.
  destruct (result rd h) as [rc gpio_mode]. cbn [fst] in *.
  destruct (rc =? 0) eqn:Hrc; cbn [negb].
  - apply Z.eqb_eq in Hrc. right. split; [exact Hrc|].
    specialize (Hmodel Hrc).
    match goal with
    | |- context [emitted (bind ?m _) (h ++ R)] => set (BR := m)
    end.
    rewrite emitted_bind.
    assert (Hflow : snd (result BR (h ++ R)) = flow_of tty).
    { unfold BR, flow_of.
      destruct (negb (C_CRTSCTS tty =? 0) && negb (C_BAUD tty =? B0));
        [reflexivity|].
      destruct (negb (I_IXON tty =? 0)); [|reflexivity].
      rewrite !result_bind. reflexivity. }
    assert (Hpre : Forall (fun e => is_reg_write p REG_XON_CHAR e \/
                                    is_reg_write p REG_XOFF_CHAR e)
                     (emitted BR (h ++ R))).
    { unfold BR.
      destruct (negb (C_CRTSCTS tty =? 0) && negb (C_BAUD tty =? B0));
        [constructor|].
      destruct (negb (I_IXON tty =? 0)); [|constructor].
      match goal with
      | |- Forall ?P (emitted ?m ?hh) =>
          generalize hh; change (emits_only P m)
      end.
      apply emits_only_bind; [|intros _; apply emits_only_bind;
                                [|intros _; apply emits_only_ret]].
      - eapply emits_only_weaken; [|apply xr_set_reg_uart_is_reg_write].
        intros e He. left. exact He.
      - eapply emits_only_weaken; [|apply xr_set_reg_uart_is_reg_write].
        intros e He. right. exact He. }
    destruct (result BR (h ++ R)) as [gm flow]. cbn [snd] in Hflow.
    subst flow.
    set (pre := emitted BR (h ++ R)) in *.
    rewrite emitted_bind.
    set (D := emitted (xr_uart_disable env p) ((h ++ R) ++ pre)).
    rewrite emitted_bind.
    destruct (xr_set_reg_emits_one env p UART_REG_BLOCK
                (xr_hal_table (model p) REG_FLOW_CTRL) (flow_of tty)
                (((h ++ R) ++ pre) ++ D) Hmodel)
      as (n & st & b0 & Hn & EF).
    assert (EF' : emitted (xr_set_reg_uart env p
                             (xr_hal_table (model p) REG_FLOW_CTRL)
                             (flow_of tty)) (((h ++ R) ++ pre) ++ D)
                  = [EvCtrl (set_reg_msg p UART_REG_BLOCK n (flow_of tty))
                       st b0]).
    { unfold emitted, xr_set_reg_uart. rewrite EF. reflexivity. }
    rewrite EF'. rewrite emitted_bind.
    match goal with
    | |- context [emitted (xr_uart_enable env p) ?hh ++ ?rest] =>
        exists pre, rest, n, st, b0
    end.
    split; [reflexivity|].
    split; [now apply xr_uart_disable_emits_some|].
    split; [now apply xr_uart_enable_emits_some|].
    split; [exact Hn|]. split; [exact Hpre|].
    match goal with
    | |- Forall ?P (emitted ?m ?hh) =>
        generalize hh; change (emits_only P m)
    end.
    apply emits_only_bind; [|intros _].
    + eapply emits_only_weaken; [|apply xr_set_reg_uart_is_reg_write].
      intros e He. left. exact He.
    + assert (Hd : forall on,
                 emits_only
                   (fun e => is_reg_write p REG_GPIO_MODE e \/
                             is_reg_write p REG_GPIO_CLR e \/
                             is_reg_write p REG_GPIO_SET e)
                   (xr_dtr_rts env p on)).
      { intros on. eapply emits_only_weaken;
          [|apply xr_dtr_rts_is_reg_write].
        intros e He. right. exact He. }
      destruct (C_BAUD tty =? B0); [apply Hd|].
      destruct old_termios as [old|]; [|apply emits_only_ret].
      destruct (Z.land (c_cflag old) CBAUD =? B0);
        [apply Hd | apply emits_only_ret].
  - apply Z.eqb_neq in Hrc. left. split; [exact Hrc|].
    change (emitted (ret tt) (h ++ R)) with (@nil event).
    rewrite app_nil_r. split; [reflexivity | exact HR].
Qed.

(** *** After a failed read *)

Lemma vendor_write_not_failed_read (e : event) :
  is_vendor_write e -> ~ is_failed_read e.
Proof.
  destruct e as [ok | m st b0]; cbn; [intros []|].
  intros [Hp _] [Hq _]. congruence.
Qed.

Lemma settles_quiet (l : list event) :
  settles l -> quiet_after_failed_read l.
Proof.
  intros (A & B & -> & HA & HB). induction A as [|a A IH].
  - intros l1 e l2 E _. cbn [app] in E. rewrite E in HB.
    apply Forall_app in HB. destruct HB as [_ HB].
    now inversion HB.
  - intros l1 e l2 E He. inversion HA as [|? ? Ha HA']; subst.
    destruct l1 as [|x l1]; cbn [app] in E; injection E as -> E.
    + contradiction.
    + exact (IH HA' l1 e l2 E He).
Qed.

Lemma settling_no_failed {A} (m : M A) :
  emits_only (fun e => ~ is_failed_read e) m -> settling m.
Proof.
  intros H h. exists (emitted m h), []. rewrite app_nil_r.
  repeat split; [apply H | constructor].
Qed.

Lemma settling_no_write {A} (m : M A) :
  emits_only (fun e => ~ is_vendor_write e) m -> settling m.
Proof.
  intros H h. exists [], (emitted m h).
  repeat split; [constructor | apply H].
Qed.

Lemma settling_bind_l {A B} (m : M A) (f : A -> M B) :
  emits_only (fun e => ~ is_failed_read e) m ->
  (forall a, settling (f a)) -> settling (bind m f).
Proof.
  intros Hm Hf h. rewrite emitted_bind.
  destruct (Hf (result m h) (h ++ emitted m h)) as (A' & B' & E & HA & HB).
  exists (emitted m h ++ A'), B'. rewrite E, app_assoc.
  repeat split; [|exact HB]. apply Forall_app. split; [apply Hm | exact HA].
Qed.

Lemma settling_bind_r {A B} (m : M A) (f : A -> M B) :
  settling m ->
  (forall a, emits_only (fun e => ~ is_vendor_write e) (f a)) ->
  settling (bind m f).
Proof.
  intros Hm Hf h. rewrite emitted_bind.
  destruct (Hm h) as (A' & B' & E & HA & HB).
  exists A', (B' ++ emitted (f (result m h)) (h ++ emitted m h)).
  rewrite E at 1. rewrite <- app_assoc.
  repeat split; [exact HA|]. apply Forall_app. split; [exact HB | apply Hf].
Qed.

Lemma writes_not_failed {A} (m : M A) :
  emits_only is_vendor_write m ->
  emits_only (fun e => ~ is_failed_read e) m.
Proof. apply emits_only_weaken, vendor_write_not_failed_read. Qed.

(** A successful read leaves no failed-read event. *)
Lemma xr_get_reg_ok_no_failed (env : kernel_env) (p : xr_port_private)
    (block reg val : Z) (h : list event) :
  fst (result (xr_get_reg env p block reg val) h) = 0 ->
  Forall (fun e => ~ is_failed_read e)
    (emitted (xr_get_reg env p block reg val) h).
Proof.
  intros H0.
  destruct (xr_get_reg_success env p block reg val h H0) as (m & b0 & E & _).
  rewrite E. repeat (apply Forall_cons || apply Forall_nil); cbn.
  - discriminate.
  - intros (_ & _ & Hst). now apply Hst.
Qed.

Lemma xr_set_flow_mode_settling (env : kernel_env) (tty : ktermios)
    (p : xr_port_private) (old_termios : option ktermios) :
  settling (xr_set_flow_mode env tty p old_termios).
Proof.
  intros h.
  destruct (xr_set_flow_mode_trace env tty p old_termios h)
    as [(_ & _ & Hnw) | (H0 & pre & post & n & st & b0 & E & _ & _ & _
                          & Hpre & Hpost)].
  - exists [], (emitted (xr_set_flow_mode env tty p old_termios) h).
    repeat split; [constructor | exact Hnw].
  - exists (emitted (xr_set_flow_mode env tty p old_termios) h), [].
    rewrite app_nil_r. repeat split; [|constructor].
    cbv zeta in E. rewrite E.
    assert (Hw : forall r e, is_reg_write p r e -> ~ is_failed_read e).
    { intros r e (k & val & st' & b' & _ & ->).
      apply vendor_write_not_failed_read, set_reg_msg_is_vendor_write. }
    repeat (apply Forall_app; split).
    + now apply xr_get_reg_ok_no_failed.
    + eapply Forall_impl; [|exact Hpre]. intros e [He|He]; eapply Hw, He.
    + apply (writes_not_failed _ (xr_uart_disable_emits_writes env p)).
    + repeat constructor.
      apply vendor_write_not_failed_read, set_reg_msg_is_vendor_write.
    + apply (writes_not_failed _ (xr_uart_enable_emits_writes env p)).
    + eapply Forall_impl; [|exact Hpost].
      intros e [He|[He|He]]; eapply Hw, He.
Qed.

Lemma xr_usb_serial_ctrl_msg_emits_no_write (env : kernel_env)
    (p : xr_port_private) (request val : Z) (buf : list Z) (len : Z) :
  emits_only (fun e => ~ is_vendor_write e)
    (xr_usb_serial_ctrl_msg env p request val buf len).
Proof.
  assert (Hk : emits_only (fun e => ~ is_vendor_write e) (do_kmalloc env)).
  { intros h. repeat constructor. intros []. }
  assert (Hu : forall m, pipe_in m = true ->
                 emits_only (fun e => ~ is_vendor_write e) (do_usb env m)).
  { intros m Hm h. repeat constructor. cbn. intros [Hf _]. congruence. }
  unfold xr_usb_serial_ctrl_msg. cbv zeta.
  repeat (emits_step || apply Hk || (apply Hu; reflexivity)).
Qed.

(** The outcomes of [xr_usb_serial_ctrl_msg]. *)
Lemma xr_usb_serial_ctrl_msg_cases (env : kernel_env)
    (p : xr_port_private) (request val : Z) (buf : list Z) (len : Z)
    (h : list event) :
  let m := {| pipe_in := true; bRequest := u8 request;
              bmRequestType := 0x21; wValue := u16 val;
              wIndex := u16 (control_if p); wLength := u16 len;
              payload := buf |} in
  result (xr_usb_serial_ctrl_msg env p request val buf len) h <= 0 /\
  (len = 0 ->
   exists st b0,
     xr_usb_serial_ctrl_msg env p request val buf len h
     = (set_status st, [EvCtrl m st b0])) /\
  (len <> 0 ->
   xr_usb_serial_ctrl_msg env p request val buf len h
   = (- ENOMEM, [EvKmalloc false])
   \/
   exists st b0,
     xr_usb_serial_ctrl_msg env p request val buf len h
     = (set_status st, [EvKmalloc true; EvCtrl m st b0])).
Proof.
  intros m.
  assert (Hsend : forall hh,
             exists st b0,
               bind (do_usb env m)
                 (fun r => if fst r <? 0 then ret (fst r) else ret 0) hh
               = (set_status st, [EvCtrl m st b0])).
  { intros hh. rewrite bind_run. unfold do_usb. cbn [fst snd].
    destruct (usb_control_msg env hh m) as [st b0]. cbn [fst snd].
    exists st, b0. unfold set_status. destruct (st <? 0); reflexivity. }
  assert (Hle : forall st, set_status st <= 0).
  { intros st. unfold set_status. destruct (st <? 0) eqn:E; [|lia].
    apply Z.ltb_lt in E. lia. }
  unfold xr_usb_serial_ctrl_msg, result. cbv zeta.
  change (Z.lor USB_TYPE_CLASS USB_RECIP_INTERFACE) with 0x21. fold m.
  destruct (len =? 0) eqn:Hlen.
  - apply Z.eqb_eq in Hlen.
    destruct (Hsend h) as (st & b0 & E). rewrite E. cbn [fst].
    split; [apply Hle|]. split; [|intros H; contradiction].
    intros _. exists st, b0. reflexivity.
  - apply Z.eqb_neq in Hlen. rewrite bind_run. unfold do_kmalloc.
    cbn [fst snd]. destruct (kmalloc env h); cbn [negb].
    + destruct (Hsend (h ++ [EvKmalloc true])) as (st & b0 & E).
      rewrite E. cbn [fst snd app].
      split; [apply Hle|]. split; [intros H; contradiction|].
      intros _. right. exists st, b0. reflexivity.
    + cbn [ret fst snd app].
      split; [unfold ENOMEM; lia|]. split; [intros H; contradiction|].
      intros _. left. reflexivity.
Qed.

Lemma xr_set_termios_cdc_settling (env : kernel_env) (tty : ktermios)
    (p : xr_port_private) (old_termios : option ktermios) :
  settling (xr_set_termios_cdc env tty p old_termios).
Proof.
  unfold xr_set_termios_cdc. cbv zeta.
  apply settling_bind_l; [apply emits_only_read_uninit | intros set0].
  apply settling_bind_l; [apply emits_only_read_uninit | intros clear0].
  destruct (u32 (tty_get_baud_rate env tty) =? 0).
  all: apply settling_bind_l;
    [ apply writes_not_failed;
      repeat (emits_step || apply xr_tiocmset_port_emits_writes)
    | intros _ ].
  all: apply settling_bind_r; [apply xr_set_flow_mode_settling | intros _].
  all: repeat (emits_step || apply xr_usb_serial_ctrl_msg_emits_no_write).
Qed.

Lemma xr_set_termios_format_reg_settling (env : kernel_env) (tty : ktermios)
    (p : xr_port_private) (old_termios : option ktermios) :
  settling (xr_set_termios_format_reg env tty p old_termios).
Proof.
  unfold xr_set_termios_format_reg. cbv zeta.
  apply settling_bind_l.
  - apply writes_not_failed.
    repeat (emits_step || apply xr_set_baudrate_emits_writes).
  - intros tty1.
    assert (H : forall t bits,
               settling
                 (xr_set_reg_uart env p (xr_hal_table (model p) REG_FORMAT)
                    bits ;;;
                  xr_set_flow_mode env t p old_termios ;;; ret t)).
    { intros t bits. apply settling_bind_l.
      - apply writes_not_failed, xr_set_reg_uart_emits_writes.
      - intros _. apply settling_bind_r.
        + apply xr_set_flow_mode_settling.
        + intros _. apply emits_only_ret. }
    destruct ((C_CSIZE tty1 =? CS5) || (C_CSIZE tty1 =? CS6)).
    + destruct old_termios as [old|]; apply H.
    + destruct (C_CSIZE tty1 =? CS7); apply H.
Qed.

Lemma xr_set_termios_settling (env : kernel_env) (tty : ktermios)
    (p : xr_port_private) (old_termios : option ktermios) :
  settling (xr_set_termios env tty p old_termios).
Proof.
  unfold xr_set_termios.
  destruct (xr_hal_table (model p) REG_FORMAT =? VIA_CDC_REGISTER).
  - apply xr_set_termios_cdc_settling.
  - apply xr_set_termios_format_reg_settling.
Qed.

Lemma reg_write_is_vendor_write (p : xr_port_private) (r : xr_hal_type)
    (e : event) : is_reg_write p r e -> is_vendor_write e.
Proof.
  intros (n & val & st & b0 & _ & ->). apply set_reg_msg_is_vendor_write.
Qed.

Lemma no_write_no_flow_ctrl (p : xr_port_private) (l : list event) :
  Forall (fun x => ~ is_vendor_write x) l ->
  ~ Exists (is_reg_write p REG_FLOW_CTRL) l.
Proof.
  intros Hnw Hex. apply Exists_exists in Hex. destruct Hex as (x & Hin & Hx).
  rewrite Forall_forall in Hnw.
  exact (Hnw x Hin (reg_write_is_vendor_write p REG_FLOW_CTRL x Hx)).
Qed.

(** When the GPIO_MODE read fails, [xr_set_flow_mode] is over: its trace is
    the trace of the read. *)
Lemma xr_set_flow_mode_read_failure (env : kernel_env) (tty : ktermios)
    (p : xr_port_private) (old_termios : option ktermios) (h : list event) :
  fst (result (xr_get_reg_uart env p (xr_hal_table (model p) REG_GPIO_MODE)
                 (uninit env L_flow_gpio_mode h)) h) <> 0 ->
  emitted (xr_set_flow_mode env tty p old_termios) h
  = emitted (xr_get_reg_uart env p (xr_hal_table (model p) REG_GPIO_MODE)
               (uninit env L_flow_gpio_mode h)) h /\
  Forall (fun e => ~ is_vendor_write e)
    (emitted (xr_set_flow_mode env tty p old_termios) h).
Proof.
  intros Hne.
  destruct (xr_set_flow_mode_trace env tty p old_termios h)
    as [(_ & E & Hnw) | (H0 & _)].
  - split; assumption.
  - contradiction.
Qed.

(** C3, as stated, fails.  XR21V141X, channel 1, 9600 baud with hardware
    flow control, every vendor read failing with -EPROTO: the termios call
    writes the seven baud registers and FORMAT, the GPIO_MODE read fails, and
    the call ends; no FLOW_CTRL write follows the failed read, nor is there
    one anywhere in the trace. *)
Lemma xr_set_termios_no_flow_ctrl_after_failed_read :
  map (fun e => match e with
                | EvCtrl m st _ => (pipe_in m, wIndex m, wValue m, st)
                | EvKmalloc _ => (true, -1, -1, 0)
                end)
      (emitted (xr_set_termios env_read_fails tty_9600_crtscts
                  (mk_port XR21V141X 1 0) None) [])
  = [(false, 0x04, 0x88, 0); (false, 0x05, 0x13, 0); (false, 0x06, 0, 0);
     (false, 0x07, 0, 0); (false, 0x08, 0, 0); (false, 0x09, 0, 0);
     (false, 0x0a, 0, 0); (false, 0x0b, 0x08, 0);
     (true, -1, -1, 0); (true, 0x1a, 0, -71)] /\
  Exists is_failed_read
    (emitted (xr_set_termios env_read_fails tty_9600_crtscts
                (mk_port XR21V141X 1 0) None) []) /\
  ~ flow_ctrl_written_after_failed_read (mk_port XR21V141X 1 0)
      (emitted (xr_set_termios env_read_fails tty_9600_crtscts
                  (mk_port XR21V141X 1 0) None) []).
Proof.
  split; [vm_compute; reflexivity|]. split.
  - apply Exists_exists.
    exists (EvCtrl (get_reg_msg (mk_port XR21V141X 1 0) 0 0x1a) (-71) 0).
    split.
    + vm_compute. do 9 right. left. reflexivity.
    + cbn. repeat split. discriminate.
  - intros (l1 & e & l2 & E & He & Hex).
    pose proof (settles_quiet _
                  (xr_set_termios_settling env_read_fails tty_9600_crtscts
                     (mk_port XR21V141X 1 0) None []) l1 e l2 E He) as Hq.
    exact (no_write_no_flow_ctrl _ _ Hq Hex).
Qed.

(** The termios call around its flow-mode setting: vendor writes before
    it, and after it nothing on the models with a FORMAT register, the
    SET_LINE_CODING step on the others. *)
Lemma xr_set_termios_cdc_around_flow_mode (env : kernel_env)
    (tty : ktermios) (p : xr_port_private) (old_termios : option ktermios)
    (h : list event) :
  exists before buf,
    Forall is_vendor_write before /\
    emitted (xr_set_termios_cdc env tty p old_termios) h
    = before
      ++ emitted (xr_set_flow_mode env tty p old_termios) (h ++ before)
      ++ emitted (xr_usb_serial_ctrl_msg env p USB_CDC_REQ_SET_LINE_CODING 0
                    buf 7)
           ((h ++ before)
            ++ emitted (xr_set_flow_mode env tty p old_termios)
                 (h ++ before)).
Proof.
  unfold xr_set_termios_cdc. cbv zeta.
  rewrite emitted_bind.
  change (emitted (read_uninit env L_cdc_set) h) with (@nil event).
  rewrite app_nil_r. cbn [app].
  rewrite emitted_bind.
  change (emitted (read_uninit env L_cdc_clear) h) with (@nil event).
  rewrite app_nil_r. cbn [app].
  destruct (u32 (tty_get_baud_rate env tty) =? 0);
    rewrite emitted_bind;
    match goal with
    | |- context [emitted ?m h ++ _] =>
        exists (emitted m h);
        assert (Hw : Forall is_vendor_write (emitted m h))
          by (refine ((_ : emits_only is_vendor_write m) h);
              repeat (emits_step || apply xr_tiocmset_port_emits_writes))
    end;
    eexists; (split; [exact Hw|]);
    rewrite !emitted_bind; cbn [emitted ret snd];
    rewrite !app_nil_r; reflexivity.
Qed.

Lemma xr_set_termios_format_reg_around_flow_mode (env : kernel_env)
    (tty : ktermios) (p : xr_port_private) (old_termios : option ktermios)
    (h : list event) :
  exists before tty',
    Forall is_vendor_write before /\
    emitted (xr_set_termios_format_reg env tty p old_termios) h
    = before
      ++ emitted (xr_set_flow_mode env tty' p old_termios) (h ++ before).
Proof.
  unfold xr_set_termios_format_reg. cbv zeta.
  rewrite emitted_bind.
  match goal with
  | |- context [emitted ?m h ++ _] =>
      set (B := emitted m h);
      assert (HB : Forall is_vendor_write B)
        by (subst B; refine ((_ : emits_only is_vendor_write m) h);
            destruct old_termios;
            repeat (emits_step || apply xr_set_baudrate_emits_writes));
      generalize (result m h)
  end.
  intros tty1.
  assert (H : forall t bits,
             exists before,
               Forall is_vendor_write before /\
               B ++ emitted
                      (xr_set_reg_uart env p
                         (xr_hal_table (model p) REG_FORMAT) bits ;;;
                       xr_set_flow_mode env t p old_termios ;;; ret t)
                      (h ++ B)
               = before
                 ++ emitted (xr_set_flow_mode env t p old_termios)
                      (h ++ before)).
  { intros t bits. rewrite !emitted_bind. cbn [emitted ret snd].
    rewrite app_nil_r.
    exists (B ++ emitted (xr_set_reg_uart env p
                            (xr_hal_table (model p) REG_FORMAT) bits)
                   (h ++ B)).
    split.
    - apply Forall_app. split; [exact HB|].
      apply xr_set_reg_uart_emits_writes.
    - now rewrite <- !app_assoc. }
  destruct ((C_CSIZE tty1 =? CS5) || (C_CSIZE tty1 =? CS6));
    [destruct old_termios as [old|] | destruct (C_CSIZE tty1 =? CS7)];
    cbv iota beta;
    match goal with
    | |- context [xr_set_flow_mode env ?t p ?o ;;; ret _] =>
        match goal with
        | |- context [xr_set_reg_uart env p _ ?bits ;;; _] =>
            destruct (H t bits) as (before & Hw & E);
            exists before, t; split; [exact Hw | exact E]
        end
    end.
Qed.

(** C3, amended.  A failed GPIO_MODE read ends [xr_set_flow_mode]: the call
    emits the read's events and nothing else, no write at all.  In the trace
    of a whole termios call, after the event of a failed read no vendor
    register write follows, so no FLOW_CTRL write and none of its
    disable/enable bracket.  The rest of the termios call is as it is
    without the failure: the trace is the vendor writes made before the
    flow-mode setting, the events of the failed read, and what the call does
    after the flow-mode setting.  That is nothing on the models with a
    FORMAT register; on the CDC path it is the SET_LINE_CODING step, which
    allocates its buffer and, when the allocation succeeds, sends the class
    request. *)
Theorem xr_set_termios_failed_read_ends_flow_mode (env : kernel_env)
    (tty : ktermios) (p : xr_port_private) (old_termios : option ktermios)
    (h : list event) :
  (fst (result (xr_get_reg_uart env p (xr_hal_table (model p) REG_GPIO_MODE)
                  (uninit env L_flow_gpio_mode h)) h) <> 0 ->
   emitted (xr_set_flow_mode env tty p old_termios) h
   = emitted (xr_get_reg_uart env p (xr_hal_table (model p) REG_GPIO_MODE)
                (uninit env L_flow_gpio_mode h)) h /\
   Forall (fun e => ~ is_vendor_write e)
     (emitted (xr_set_flow_mode env tty p old_termios) h)) /\
  (forall l1 e l2,
     emitted (xr_set_termios env tty p old_termios) h = l1 ++ e :: l2 ->
     is_failed_read e ->
     Forall (fun x => ~ is_vendor_write x) l2 /\
     ~ Exists (is_reg_write p REG_FLOW_CTRL) l2) /\
  (exists before after,
     Forall is_vendor_write before /\
     (exists tty',
        emitted (xr_set_termios env tty p old_termios) h
        = before
          ++ emitted (xr_set_flow_mode env tty' p old_termios) (h ++ before)
          ++ after) /\
     (fst (result (xr_get_reg_uart env p
                     (xr_hal_table (model p) REG_GPIO_MODE)
                     (uninit env L_flow_gpio_mode (h ++ before)))
             (h ++ before)) <> 0 ->
      emitted (xr_set_termios env tty p old_termios) h
      = before
        ++ emitted (xr_get_reg_uart env p
                      (xr_hal_table (model p) REG_GPIO_MODE)
                      (uninit env L_flow_gpio_mode (h ++ before)))
             (h ++ before)
        ++ after) /\
     (xr_hal_table (model p) REG_FORMAT <> VIA_CDC_REGISTER -> after = []) /\
     (xr_hal_table (model p) REG_FORMAT = VIA_CDC_REGISTER ->
      after = [EvKmalloc false]
      \/
      exists m st b0,
        after = [EvKmalloc true; EvCtrl m st b0] /\
        pipe_in m = true /\ bmRequestType m = 0x21 /\ bRequest m = 0x20 /\
        wIndex m = u16 (control_if p) /\ wLength m = 7)).
Proof.
  split; [apply xr_set_flow_mode_read_failure|]. split.
  - intros l1 e l2 E He.
    pose proof (settles_quiet _
                  (xr_set_termios_settling env tty p old_termios h)
                  l1 e l2 E He) as Hq.
    split; [exact Hq | exact (no_write_no_flow_ctrl p l2 Hq)].
  - unfold xr_set_termios.
    destruct (Z.eqb_spec (xr_hal_table (model p) REG_FORMAT)
                VIA_CDC_REGISTER) as [Hf|Hf].
    + destruct (xr_set_termios_cdc_around_flow_mode env tty p old_termios h)
        as (before & buf & Hw & E).
      exists before. eexists. split; [exact Hw|].
      split; [exists tty; exact E|]. split; [|split].
      * intros Hrd. rewrite E.
        destruct (xr_set_flow_mode_read_failure env tty p old_termios
                    (h ++ before) Hrd) as [-> _].
        reflexivity.
      * intros Hn. contradiction.
      * intros _.
        match goal with
        | |- context [emitted (xr_usb_serial_ctrl_msg env p ?r ?v buf 7) ?hh]
          => destruct (xr_usb_serial_ctrl_msg_cases env p r v buf 7 hh)
               as (_ & _ & Hc)
        end.
        unfold emitted at 1 3.
        destruct (Hc ltac:(lia)) as [Ec | (st & b0 & Ec)]; rewrite Ec;
          cbn [snd]; [left; reflexivity|].
        right. eexists _, st, b0. split; [reflexivity|].
        cbn. repeat split; reflexivity.
    + destruct (xr_set_termios_format_reg_around_flow_mode env tty p
                  old_termios h) as (before & tty' & Hw & E).
      exists before, []. split; [exact Hw|].
      split; [exists tty'; rewrite app_nil_r; exact E|]. split; [|split].
      * intros Hrd. rewrite E, app_nil_r.
        destruct (xr_set_flow_mode_read_failure env tty' p old_termios
                    (h ++ before) Hrd) as [-> _].
        reflexivity.
      * reflexivity.
      * intros Hn. contradiction.
Qed.

(** XR21B1411 (CDC path) with every vendor read failing: the termios call
    is the allocation and the failed read of the flow-mode setting, then the
    allocation and the class request of SET_LINE_CODING; nothing is
    written. *)
Lemma xr_set_termios_failed_read_ends_flow_mode_witness :
  emitted (xr_set_termios env_read_fails tty_9600_crtscts
             (mk_port XR21B1411 1 0) None) []
  = [EvKmalloc true;
     EvCtrl (get_reg_msg (mk_port XR21B1411 1 0) 0 0x0c) (-71) 0;
     EvKmalloc true;
     EvCtrl (mk_msg true 0x20 0x21 0 0 7 [0x80; 0x25; 0; 0; 0; 0; 8]) 7 0] /\
  Forall (fun x => ~ is_vendor_write x)
    (skipn 2 (emitted (xr_set_termios env_read_fails tty_9600_crtscts
                         (mk_port XR21B1411 1 0) None) [])) /\
  exists after,
    emitted (xr_set_termios env_read_fails tty_9600_crtscts
               (mk_port XR21B1411 1 0) None) []
    = emitted (xr_get_reg_uart env_read_fails (mk_port XR21B1411 1 0)
                 0x0c 0) [] ++ after /\
    (after = [EvKmalloc false]
     \/
     exists m st b0,
       after = [EvKmalloc true; EvCtrl m st b0] /\
       bmRequestType m = 0x21 /\ bRequest m = 0x20).
Proof.
  destruct (xr_set_termios_failed_read_ends_flow_mode env_read_fails
              tty_9600_crtscts (mk_port XR21B1411 1 0) None [])
    as (_ & Hterm & before & after & Hw & (tty' & Hdec) & Hfail & _ & Hcdc).
  split; [vm_compute; reflexivity|]. split.
  - apply (Hterm [EvKmalloc true]
             (EvCtrl (get_reg_msg (mk_port XR21B1411 1 0) 0 0x0c) (-71) 0)).
    + vm_compute. reflexivity.
    + cbn. repeat split. discriminate.
  - assert (Hb : before = []).
    { destruct before as [|e before']; [reflexivity|exfalso].
      assert (He : hd_error
                     (emitted (xr_set_termios env_read_fails tty_9600_crtscts
                                 (mk_port XR21B1411 1 0) None) [])
                   = Some e) by (rewrite Hdec; reflexivity).
      vm_compute in He. injection He as <-.
      exact (Forall_inv Hw). }
    subst before. exists after. split.
    + apply Hfail. vm_compute. discriminate.
    + destruct (Hcdc eq_refl) as [Ha | (m & st & b0 & Ha & _ & Ht & Hr & _)];
        [left; exact Ha|].
      right. exists m, st, b0. repeat split; assumption.
Defined.

(** The same call when the buffer of the class request cannot be
    allocated: the request is not sent, and the failed read is followed by
    the failed allocation alone. *)
Example xr_set_termios_line_coding_allocation_fails :
  emitted (xr_set_termios env_read_and_alloc_fail tty_9600_crtscts
             (mk_port XR21B1411 1 0) None) []
  = [EvKmalloc true;
     EvCtrl (get_reg_msg (mk_port XR21B1411 1 0) 0 0x0c) (-71) 0;
     EvKmalloc false].
Proof. vm_compute. reflexivity. Qed.

(** ** C6 on the wire *)

Lemma xr_mangle_reg_range (p : xr_port_private) (reg n : Z) :
  0 <= reg < 256 -> xr_mangle_reg p reg = Some n -> 0 <= n < 256.
Proof.
  intros Hr. unfold xr_mangle_reg.
  destruct (model p); try destruct (channel p =? 0);
    intros E; try discriminate E; injection E as <-;
    try exact Hr; apply u8_range.
Qed.

Lemma uart_wIndex_small (p : xr_port_private) (r : xr_hal_type) (a : Z) :
  uart_wIndex p r = Some a -> 0 <= a < 256.
Proof.
  unfold uart_wIndex.
  destruct (xr_mangle_reg p (u8 (xr_hal_table (model p) r))) as [n|] eqn:Hn;
    [|discriminate].
  intros E. injection E as <-.
  apply (xr_mangle_reg_range p _ n (u8_range _)) in Hn.
  cbn [set_reg_msg wIndex].
  change (Z.shiftl (u8 UART_REG_BLOCK) 8) with 0. rewrite Z.lor_0_r.
  rewrite u16_small; lia.
Qed.

Lemma reg_write_other_address (p : xr_port_private) (r : xr_hal_type)
    (a : Z) (e : event) :
  uart_wIndex p r <> Some a -> is_reg_write p r e -> ~ writes_wIndex a e.
Proof.
  intros Hne (n & val & st & b0 & Hn & ->) [_ Hw].
  apply Hne. unfold uart_wIndex. rewrite Hn. f_equal. exact Hw.
Qed.

Lemma um_write_other_address (p : xr_port_private) (a : Z) (e : event) :
  0 <= a < 256 -> is_um_write p e -> ~ writes_wIndex a e.
Proof.
  intros Ha (n & val & st & b0 & Hn & ->) [_ Hw].
  cbn [set_reg_msg wIndex] in Hw.
  assert (Hs : Z.shiftr (Z.lor n (Z.shiftl (u8 UM_REG_BLOCK) 8)) 8 = 4)
    by (apply lor_shiftl_8_high; [cbn; lia | exact Hn]).
  assert (Hlo : 0 <= Z.lor n (Z.shiftl (u8 UM_REG_BLOCK) 8)).
  { apply Z.lor_nonneg. split; [lia | cbn; lia]. }
  rewrite Z.shiftr_div_pow2 in Hs by lia. change (2 ^ 8) with 256 in Hs.
  pose proof (Z.div_mod (Z.lor n (Z.shiftl (u8 UM_REG_BLOCK) 8)) 256
                ltac:(lia)) as Hdm.
  pose proof (Z.mod_pos_bound (Z.lor n (Z.shiftl (u8 UM_REG_BLOCK) 8)) 256
                ltac:(lia)) as Hmb.
  rewrite u16_small in Hw by lia. lia.
Qed.

Lemma xr_set_reg_um_is_um_write (env : kernel_env) (p : xr_port_private)
    (reg val : Z) :
  emits_only (is_um_write p) (xr_set_reg_um env p reg val).
Proof.
  intros h. unfold emitted, xr_set_reg_um.
  destruct (xr_set_reg_cases env p UM_REG_BLOCK reg val h)
    as [[_ E] | (n & st & b0 & Hn & _ & E)]; rewrite E; cbn [snd].
  - constructor.
  - constructor; [|constructor]. exists n, val, st, b0. split; [|reflexivity].
    exact (xr_mangle_reg_range p _ n (u8_range reg) Hn).
Qed.

Lemma xr_uart_disable_registers (env : kernel_env) (p : xr_port_private) :
  emits_only (fun e => is_reg_write p REG_ENABLE e \/ is_um_write p e)
    (xr_uart_disable env p).
Proof.
  unfold xr_uart_disable.
  apply emits_only_bind; [|intros r; repeat apply emits_only_if;
                           try apply emits_only_ret].
  - eapply emits_only_weaken; [|apply xr_set_reg_uart_is_reg_write].
    intros e He. left. exact He.
  - eapply emits_only_weaken; [|apply xr_set_reg_um_is_um_write].
    intros e He. right. exact He.
Qed.

Lemma xr_uart_enable_registers (env : kernel_env) (p : xr_port_private) :
  emits_only (fun e => is_reg_write p REG_ENABLE e \/ is_um_write p e)
    (xr_uart_enable env p).
Proof.
  assert (Hu : forall val,
             emits_only
               (fun e => is_reg_write p REG_ENABLE e \/ is_um_write p e)
               (xr_set_reg_uart env p (xr_hal_table (model p) REG_ENABLE)
                  val)).
  { intros val.
    eapply emits_only_weaken; [|apply xr_set_reg_uart_is_reg_write].
    intros e He. left. exact He. }
  assert (Hm : forall reg val,
             emits_only
               (fun e => is_reg_write p REG_ENABLE e \/ is_um_write p e)
               (xr_set_reg_um env p reg val)).
  { intros reg val.
    eapply emits_only_weaken; [|apply xr_set_reg_um_is_um_write].
    intros e He. right. exact He. }
  unfold xr_uart_enable.
  repeat (apply emits_only_if || apply emits_only_ret || apply Hu
          || apply Hm || (apply emits_only_bind; [|intros ?])).
Qed.

(** A list splits in one way only around the single element satisfying
    [P]. *)
Lemma split_at_unique {X} (P : X -> Prop) (A B l1 l2 : list X) (x e : X) :
  A ++ x :: B = l1 ++ e :: l2 ->
  Forall (fun y => ~ P y) A -> Forall (fun y => ~ P y) B -> P e ->
  l1 = A /\ e = x /\ l2 = B.
Proof.
  revert l1. induction A as [|a A IH]; intros l1 E HA HB He.
  - destruct l1 as [|y l1]; cbn [app] in E; injection E as -> E.
    + auto.
    + exfalso. rewrite E in HB. apply Forall_app in HB.
      destruct HB as [_ HB]. inversion HB as [|? ? Hn _]; subst.
      exact (Hn He).
  - inversion HA as [|? ? Ha HA']; subst.
    destruct l1 as [|y l1]; cbn [app] in E; injection E as -> E.
    + contradiction.
    + destruct (IH l1 E HA' HB He) as (-> & -> & ->). auto.
Qed.

(** On a port where FLOW_CTRL has a wire address of its own, whatever in the
    trace of [xr_set_flow_mode] writes that address comes immediately after
    the transfers of an [xr_uart_disable] call and immediately before the
    transfers of an [xr_uart_enable] call. *)
Lemma xr_set_flow_mode_bracket_on_wire (env : kernel_env) (tty : ktermios)
    (p : xr_port_private) (old_termios : option ktermios) (h : list event)
    (a : Z) (l1 l2 : list event) (e : event) :
  flow_ctrl_unaliased p ->
  uart_wIndex p REG_FLOW_CTRL = Some a ->
  emitted (xr_set_flow_mode env tty p old_termios) h = l1 ++ e :: l2 ->
  writes_wIndex a e ->
  exists l0 l3,
    l1 = l0 ++ emitted (xr_uart_disable env p) (h ++ l0) /\
    l2 = emitted (xr_uart_enable env p) ((h ++ l1) ++ [e]) ++ l3 /\
    emitted (xr_uart_disable env p) (h ++ l0) <> [] /\
    emitted (xr_uart_enable env p) ((h ++ l1) ++ [e]) <> [].
Proof.
  intros (a' & Ha' & Hall) Ha Hevs He.
  rewrite Ha in Ha'. injection Ha' as <-.
  pose proof (uart_wIndex_small p REG_FLOW_CTRL a Ha) as Ha256.
  inversion Hall as [|? ? Hen Hall1]; subst.
  inversion Hall1 as [|? ? Hxon Hall2]; subst.
  inversion Hall2 as [|? ? Hxoff Hall3]; subst.
  inversion Hall3 as [|? ? Hgm Hall4]; subst.
  inversion Hall4 as [|? ? Hgs Hall5]; subst.
  inversion Hall5 as [|? ? Hgc _]; subst.
  destruct (xr_set_flow_mode_trace env tty p old_termios h)
    as [(_ & _ & Hnw) | (_ & pre & post & n & st & b0 & E & HD & HE & Hn
                          & Hpre & Hpost)].
  - exfalso. rewrite Hevs in Hnw. apply Forall_app in Hnw.
    destruct Hnw as [_ Hnw]. inversion Hnw as [|? ? Hx _]; subst.
    exact (Hx (proj1 He)).
  - cbv zeta in E, HD, HE.
    set (R := emitted (xr_get_reg_uart env p
                         (xr_hal_table (model p) REG_GPIO_MODE)
                         (uninit env L_flow_gpio_mode h)) h) in *.
    set (D := emitted (xr_uart_disable env p) ((h ++ R) ++ pre)) in *.
    set (F := EvCtrl (set_reg_msg p UART_REG_BLOCK n (flow_of tty)) st b0)
      in *.
    set (En := emitted (xr_uart_enable env p)
                 ((((h ++ R) ++ pre) ++ D) ++ [F])) in *.
    assert (HR : Forall (fun y => ~ writes_wIndex a y) R).
    { eapply Forall_impl;
        [|apply (xr_get_reg_emits_no_write env p UART_REG_BLOCK)].
      intros y Hy [Hw _]. exact (Hy Hw). }
    assert (Hpre' : Forall (fun y => ~ writes_wIndex a y) pre).
    { eapply Forall_impl; [|exact Hpre].
      intros y [Hy|Hy];
        (eapply reg_write_other_address; [|exact Hy]; assumption). }
    assert (Hpost' : Forall (fun y => ~ writes_wIndex a y) post).
    { eapply Forall_impl; [|exact Hpost].
      intros y [Hy|[Hy|Hy]];
        (eapply reg_write_other_address; [|exact Hy]; assumption). }
    assert (Hde : forall y,
               is_reg_write p REG_ENABLE y \/ is_um_write p y ->
               ~ writes_wIndex a y).
    { intros y [Hy|Hy].
      - eapply reg_write_other_address; [|exact Hy]; assumption.
      - eapply um_write_other_address; eassumption. }
    assert (HD' : Forall (fun y => ~ writes_wIndex a y) D).
    { eapply Forall_impl; [exact Hde | apply xr_uart_disable_registers]. }
    assert (HE' : Forall (fun y => ~ writes_wIndex a y) En).
    { eapply Forall_impl; [exact Hde | apply xr_uart_enable_registers]. }
    assert (Esplit : (R ++ pre ++ D) ++ F :: (En ++ post) = l1 ++ e :: l2).
    { rewrite <- Hevs, E. rewrite <- !app_assoc. reflexivity. }
    destruct (split_at_unique (writes_wIndex a) _ _ _ _ _ _ Esplit)
      as (-> & -> & ->).
    + repeat (apply Forall_app; split); assumption.
    + apply Forall_app; split; assumption.
    + exact He.
    + exists (R ++ pre), post.
      rewrite !app_assoc. fold D.
      replace ((((h ++ R) ++ pre) ++ D) ++ [F]) with
        ((((h ++ R) ++ pre) ++ D) ++ [F]) by reflexivity.
      fold En. repeat split; assumption.
Qed.

(** FLOW_CTRL has a wire address of its own on every XR2280X, XR21B1411 and
    XR21V141X port and on channels 4 to 6 of XR21B142X. *)
Lemma flow_ctrl_unaliased_ports (p : xr_port_private) :
  model p = XR2280X \/ model p = XR21B1411 \/ model p = XR21V141X \/
  (model p = XR21B142X /\ 4 <= channel p <= 6) ->
  flow_ctrl_unaliased p.
Proof.
  destruct p as [m c i]. cbn [model channel].
  intros [-> | [-> | [-> | [-> Hc]]]].
  - eexists. split; [reflexivity|].
    repeat constructor; intros H; discriminate H.
  - eexists. split; [reflexivity|].
    repeat constructor; intros H; discriminate H.
  - assert (Hw : forall r,
               0 <= xr_hal_table XR21V141X r < 256 ->
               uart_wIndex (mk_port XR21V141X c i) r
               = Some (xr_hal_table XR21V141X r)).
    { intros r Hr. unfold uart_wIndex. cbn [model].
      rewrite (u8_small _ Hr).
      rewrite xr_mangle_reg_XR21V141X by (trivial; exact Hr).
      f_equal. cbn [set_reg_msg wIndex].
      change (Z.shiftl (u8 UART_REG_BLOCK) 8) with 0. rewrite Z.lor_0_r.
      apply u16_small. lia. }
    exists (xr_hal_table XR21V141X REG_FLOW_CTRL).
    split; [apply Hw; cbn; lia|].
    repeat constructor; rewrite Hw by (cbn; lia); intros H; discriminate H.
  - assert (C : c = 4 \/ c = 5 \/ c = 6) by lia.
    destruct C as [-> | [-> | ->]];
      (eexists; split; [reflexivity|]);
      repeat constructor; intros H; discriminate H.
Qed.

(** On channel 7 of XR21B142X the channel arithmetic sends ENABLE and
    FLOW_CTRL to the same wire address. *)
Example flow_ctrl_aliased_XR21B142X_channel_7 :
  uart_wIndex (mk_port XR21B142X 7 0) REG_ENABLE = Some 6 /\
  uart_wIndex (mk_port XR21B142X 7 0) REG_FLOW_CTRL = Some 6.
Proof. split; reflexivity. Qed.

(** C6. In every [xr_set_flow_mode] call whose GPIO_MODE read succeeds, the
    trace is: the read; then [pre], holding only XON_CHAR and XOFF_CHAR
    writes; then the transfers of an [xr_uart_disable] call (at least one);
    then the one FLOW_CTRL write, carrying the selected flow mode; then the
    transfers of an [xr_uart_enable] call (at least one); then [post],
    holding only GPIO_MODE, GPIO_CLR and GPIO_SET writes.  So the FLOW_CTRL
    write sits immediately between a UART disable and a UART enable and
    there is no other.  When the read fails the call writes nothing.  Seen
    from the wire, on a port where FLOW_CTRL has an address of its own: any
    transfer of the call that writes that address comes immediately after
    the transfers of an [xr_uart_disable] and immediately before those of an
    [xr_uart_enable]. *)
Theorem xr_set_flow_mode_brackets_flow_ctrl (env : kernel_env)
    (tty : ktermios) (p : xr_port_private) (old_termios : option ktermios)
    (h : list event) :
  (let rd := xr_get_reg_uart env p (xr_hal_table (model p) REG_GPIO_MODE)
               (uninit env L_flow_gpio_mode h) in
   let R := emitted rd h in
   let evs := emitted (xr_set_flow_mode env tty p old_termios) h in
   (fst (result rd h) <> 0 /\ evs = R /\
    Forall (fun e => ~ is_vendor_write e) evs)
   \/
   (fst (result rd h) = 0 /\
    exists pre post n st b0,
      let D := emitted (xr_uart_disable env p) ((h ++ R) ++ pre) in
      let F := EvCtrl (set_reg_msg p UART_REG_BLOCK n (flow_of tty)) st b0 in
      let E := emitted (xr_uart_enable env p)
                 ((((h ++ R) ++ pre) ++ D) ++ [F]) in
      evs = R ++ pre ++ D ++ [F] ++ E ++ post /\
      D <> [] /\ E <> [] /\
      xr_mangle_reg p (u8 (xr_hal_table (model p) REG_FLOW_CTRL)) = Some n /\
      Forall (fun e => is_reg_write p REG_XON_CHAR e \/
                       is_reg_write p REG_XOFF_CHAR e) pre /\
      Forall (fun e => is_reg_write p REG_GPIO_MODE e \/
                       is_reg_write p REG_GPIO_CLR e \/
                       is_reg_write p REG_GPIO_SET e) post))
  /\
  (flow_ctrl_unaliased p ->
   forall a l1 e l2,
     uart_wIndex p REG_FLOW_CTRL = Some a ->
     emitted (xr_set_flow_mode env tty p old_termios) h = l1 ++ e :: l2 ->
     writes_wIndex a e ->
     exists l0 l3,
       l1 = l0 ++ emitted (xr_uart_disable env p) (h ++ l0) /\
       l2 = emitted (xr_uart_enable env p) ((h ++ l1) ++ [e]) ++ l3 /\
       emitted (xr_uart_disable env p) (h ++ l0) <> [] /\
       emitted (xr_uart_enable env p) ((h ++ l1) ++ [e]) <> []).
Proof.
  split.
  - apply xr_set_flow_mode_trace.
  - intros Hu a l1 e l2 Ha Hevs He.
    exact (xr_set_flow_mode_bracket_on_wire env tty p old_termios h
             a l1 l2 e Hu Ha Hevs He).
Qed.

(** Hardware flow control on XR21B142X, channel 4: FLOW_CTRL = 1 goes out
    between ENABLE = 0 and ENABLE = 3. *)
Example xr_set_flow_mode_XR21B142X :
  map (fun e => match e with
                | EvCtrl m _ _ => (pipe_in m, wIndex m, wValue m)
                | EvKmalloc _ => (true, -1, -1)
                end)
      (emitted (xr_set_flow_mode env_ok tty_9600_crtscts
                  (mk_port XR21B142X 4 0) None) [])
  = [(true, -1, -1); (true, 0x0c, 0);
     (false, 0x00, 0); (false, 0x06, 1); (false, 0x00, 3);
     (false, 0x0c, 1)].
Proof. vm_compute. reflexivity. Qed.

(** The same call, through the theorem: the write to address 0x06 has the
    transfer of [xr_uart_disable] right before it and that of
    [xr_uart_enable] right after it. *)
Lemma xr_set_flow_mode_brackets_flow_ctrl_witness :
  exists l0 l3,
    [EvKmalloc true;
     EvCtrl (get_reg_msg (mk_port XR21B142X 4 0) 0 0x0c) 1 0;
     EvCtrl (set_reg_msg (mk_port XR21B142X 4 0) 0 0x00 0) 0 0]
    = l0 ++ emitted (xr_uart_disable env_ok (mk_port XR21B142X 4 0))
              ([] ++ l0) /\
    [EvCtrl (set_reg_msg (mk_port XR21B142X 4 0) 0 0x00 3) 0 0;
     EvCtrl (set_reg_msg (mk_port XR21B142X 4 0) 0 0x0c 1) 0 0]
    = emitted (xr_uart_enable env_ok (mk_port XR21B142X 4 0))
        (([] ++
          [EvKmalloc true;
           EvCtrl (get_reg_msg (mk_port XR21B142X 4 0) 0 0x0c) 1 0;
           EvCtrl (set_reg_msg (mk_port XR21B142X 4 0) 0 0x00 0) 0 0]) ++
         [EvCtrl (set_reg_msg (mk_port XR21B142X 4 0) 0 0x06 1) 0 0])
      ++ l3.
Proof.
  destruct (xr_set_flow_mode_brackets_flow_ctrl env_ok tty_9600_crtscts
              (mk_port XR21B142X 4 0) None []) as [_ Hwire].
  destruct (Hwire
              (flow_ctrl_unaliased_ports (mk_port XR21B142X 4 0)
                 (or_intror (or_intror (or_intror
                    (conj eq_refl (conj (Z.le_refl 4)
                                        (Zle_bool_imp_le 4 6 eq_refl)))))))
              0x06
              [EvKmalloc true;
               EvCtrl (get_reg_msg (mk_port XR21B142X 4 0) 0 0x0c) 1 0;
               EvCtrl (set_reg_msg (mk_port XR21B142X 4 0) 0 0x00 0) 0 0]
              (EvCtrl (set_reg_msg (mk_port XR21B142X 4 0) 0 0x06 1) 0 0)
              [EvCtrl (set_reg_msg (mk_port XR21B142X 4 0) 0 0x00 3) 0 0;
               EvCtrl (set_reg_msg (mk_port XR21B142X 4 0) 0 0x0c 1) 0 0])
    as (l0 & l3 & E1 & E2 & _ & _).
  - reflexivity.
  - vm_compute. reflexivity.
  - split; [split|]; reflexivity.
  - exists l0, l3. split; assumption.
Defined.

(** ** C9: [xr_tiocmset_port] *)

Lemma land_u32_small (x k : Z) :
  0 <= k < 2 ^ 32 -> Z.land (u32 x) k = Z.land x k.
Proof.
  intros Hk. unfold u32. rewrite <- Z.land_ones by lia.
  rewrite <- Z.land_assoc. f_equal.
  rewrite Z.land_comm, Z.land_ones by lia.
  apply Z.mod_small. exact Hk.
Qed.

(** A test of the RTS or of the DTR bit sees only that bit of the mask. *)
Lemma tiocm_rts_of_masked (x : Z) :
  Z.land (u32 x) TIOCM_RTS
  = Z.land (u32 (Z.land x (Z.lor TIOCM_DTR TIOCM_RTS))) TIOCM_RTS.
Proof.
  rewrite !land_u32_small by (unfold TIOCM_RTS; lia).
  now rewrite <- Z.land_assoc.
Qed.

Lemma tiocm_dtr_of_masked (x : Z) :
  Z.land (u32 x) TIOCM_DTR
  = Z.land (u32 (Z.land x (Z.lor TIOCM_DTR TIOCM_RTS))) TIOCM_DTR.
Proof.
  rewrite !land_u32_small by (unfold TIOCM_DTR; lia).
  now rewrite <- Z.land_assoc.
Qed.

Lemma xr_tiocmset_port_masked (env : kernel_env) (p : xr_port_private)
    (set clear : Z) :
  xr_tiocmset_port env p set clear
  = xr_tiocmset_port env p
      (Z.land set (Z.lor TIOCM_DTR TIOCM_RTS))
      (Z.land clear (Z.lor TIOCM_DTR TIOCM_RTS)).
Proof.
  unfold xr_tiocmset_port.
  rewrite <- (tiocm_rts_of_masked set), <- (tiocm_dtr_of_masked set).
  rewrite <- (tiocm_rts_of_masked clear), <- (tiocm_dtr_of_masked clear).
  reflexivity.
Qed.

Lemma xr_set_reg_only_dtr_rts (env : kernel_env) (p : xr_port_private)
    (block reg val : Z) (h : list event) :
  Z.land (u8 val) (Z.lnot (Z.lor UART_MODE_DTR UART_MODE_RTS)) = 0 ->
  Forall only_dtr_rts (emitted (xr_set_reg env p block reg val) h).
Proof.
  intros Hv. unfold emitted.
  destruct (xr_set_reg_cases env p block reg val h)
    as [[_ E] | (r & st & b0 & _ & _ & E)]; rewrite E; cbn [snd].
  - constructor.
  - constructor; [|constructor]. split; [reflexivity | exact Hv].
Qed.

(** C9. [xr_tiocmset_port] looks at the DTR and RTS bits of its two masks
    and at nothing else: two calls whose masks agree on those bits are the
    same computation (same transfers, same return value); every transfer it
    issues is a write of GPIO_CLR or GPIO_SET whose value has no bit outside
    [UART_MODE_DTR | UART_MODE_RTS]; and when neither mask holds DTR or RTS
    it issues no transfer and returns 0. *)
Theorem xr_tiocmset_port_only_dtr_rts (env : kernel_env)
    (p : xr_port_private) (set clear set' clear' : Z) (h : list event) :
  Z.land set (Z.lor TIOCM_DTR TIOCM_RTS)
  = Z.land set' (Z.lor TIOCM_DTR TIOCM_RTS) ->
  Z.land clear (Z.lor TIOCM_DTR TIOCM_RTS)
  = Z.land clear' (Z.lor TIOCM_DTR TIOCM_RTS) ->
  xr_tiocmset_port env p set clear h = xr_tiocmset_port env p set' clear' h /\
  Forall only_dtr_rts (emitted (xr_tiocmset_port env p set clear) h) /\
  Forall (fun e => is_reg_write p REG_GPIO_CLR e \/
                   is_reg_write p REG_GPIO_SET e)
    (emitted (xr_tiocmset_port env p set clear) h) /\
  (Z.land set (Z.lor TIOCM_DTR TIOCM_RTS) = 0 ->
   Z.land clear (Z.lor TIOCM_DTR TIOCM_RTS) = 0 ->
   xr_tiocmset_port env p set clear h = (0, [])).
Proof.
  intros Hs Hc. split; [|split; [|split]].
  - rewrite (xr_tiocmset_port_masked env p set clear).
    rewrite (xr_tiocmset_port_masked env p set' clear').
    now rewrite Hs, Hc.
  - unfold xr_tiocmset_port. cbv zeta. rewrite emitted_bind.
    apply Forall_app. split.
    + destruct (negb (Z.land (u32 set) TIOCM_RTS =? 0));
        destruct (negb (Z.land (u32 set) TIOCM_DTR =? 0)); cbn [negb];
        try (apply Forall_nil);
        apply xr_set_reg_only_dtr_rts; reflexivity.
    + destruct (negb (Z.land (u32 clear) TIOCM_RTS =? 0));
        destruct (negb (Z.land (u32 clear) TIOCM_DTR =? 0)); cbn [negb];
        try (apply Forall_nil);
        apply xr_set_reg_only_dtr_rts; reflexivity.
  - apply xr_tiocmset_port_is_reg_write.
  - intros Zs Zc.
    rewrite (xr_tiocmset_port_masked env p set clear), Zs, Zc.
    reflexivity.
Qed.

(** Masks 0x1e2 and 0x006 agree on DTR and RTS: the calls coincide; masks
    0x1e0 and 0x1b8 hold neither: no transfer. *)
Lemma xr_tiocmset_port_only_dtr_rts_witness :
  xr_tiocmset_port env_ok (mk_port XR21V141X 1 0) 0x1e2 0x1e4 []
  = xr_tiocmset_port env_ok (mk_port XR21V141X 1 0) 0x002 0x004 [] /\
  xr_tiocmset_port env_ok (mk_port XR21V141X 1 0) 0x1e0 0x1b8 [] = (0, []).
Proof.
  split.
  - apply (xr_tiocmset_port_only_dtr_rts env_ok (mk_port XR21V141X 1 0)
             0x1e2 0x1e4 0x002 0x004 []); reflexivity.
  - apply (xr_tiocmset_port_only_dtr_rts env_ok (mk_port XR21V141X 1 0)
             0x1e0 0x1b8 0x1e0 0x1b8 []); reflexivity.
Defined.

(** ** On the wire *)

(** On the models whose register number the access layer leaves alone
    (XR2280X and XR21B1411 by design, XR21V141X because the channel is lost
    in the [u8]), a UART-block write of register [reg] goes out as one
    vendor request with [wIndex = reg] and [wValue = val]. *)
Lemma xr_set_reg_uart_wire (env : kernel_env) (p : xr_port_private)
    (reg val : Z) (h : list event) :
  model p = XR2280X \/ model p = XR21B1411 \/ model p = XR21V141X ->
  0 <= reg < 256 -> 0 <= val < 256 ->
  exists m st b0,
    xr_set_reg_uart env p reg val h = (set_status st, [EvCtrl m st b0]) /\
    pipe_in m = false /\ bmRequestType m = 0x40 /\
    bRequest m = u8 (xr_hal_table (model p) REQ_SET) /\
    wIndex m = reg /\ wValue m = val /\ wLength m = 0.
Proof.
  intros Hm Hreg Hval.
  assert (Hr : xr_mangle_reg p (u8 reg) = Some reg).
  { rewrite (u8_small reg Hreg).
    destruct Hm as [Hm | [Hm | Hm]].
    - apply xr_mangle_reg_direct. now left.
    - apply xr_mangle_reg_direct. now right.
    - now apply xr_mangle_reg_XR21V141X. }
  unfold xr_set_reg_uart.
  rewrite (xr_set_reg_run env p UART_REG_BLOCK reg val reg h Hr).
  eexists _, _, _. split; [reflexivity|].
  repeat split; cbn [set_reg_msg wIndex wValue].
  - change (Z.shiftl (u8 UART_REG_BLOCK) 8) with 0.
    rewrite Z.lor_0_r. apply u16_small. lia.
  - now apply u8_small.
Qed.

(** [tiocmset(set = DTR|RTS, clear = 0)] on XR21V141X: a single write of
    0x28 to GPIO_CLR (0x1e), none to GPIO_SET. *)
Example xr_tiocmset_port_set_dtr_rts :
  xr_tiocmset_port env_ok (mk_port XR21V141X 1 0)
    (Z.lor TIOCM_DTR TIOCM_RTS) 0 []
  = (0, [EvCtrl (mk_msg false 0 0x40 0x28 0x1e 0 []) 0 0]).
Proof. vm_compute. reflexivity. Qed.

(** * Further properties of the driver *)

(** ** Register access layer *)

Lemma lor_shiftl_8_u16 (n b : Z) :
  0 <= n < 256 -> 0 <= b < 256 ->
  u16 (Z.lor n (Z.shiftl b 8)) = Z.lor (Z.shiftl b 8) n.
Proof.
  intros Hn Hb. rewrite (Z.lor_comm (Z.shiftl b 8) n). apply u16_small.
  assert (Hs : Z.shiftr (Z.lor n (Z.shiftl b 8)) 8 = b)
    by (apply lor_shiftl_8_high; lia).
  assert (H0 : 0 <= Z.lor n (Z.shiftl b 8)).
  { apply Z.lor_nonneg. split; [lia|]. apply Z.shiftl_nonneg. lia. }
  rewrite Z.shiftr_div_pow2 in Hs by lia. change (2 ^ 8) with 256 in Hs.
  pose proof (Z.div_mod (Z.lor n (Z.shiftl b 8)) 256 ltac:(lia)).
  pose proof (Z.mod_pos_bound (Z.lor n (Z.shiftl b 8)) 256 ltac:(lia)).
  lia.
Qed.

(** X1. [xr_set_reg] never returns a positive value, whatever byte count the
    transfer reports: it returns 0 exactly when it issued its one transfer
    and that transfer's status was not negative. *)
Theorem xr_set_reg_returns_zero_or_error (env : kernel_env)
    (p : xr_port_private) (block reg val : Z) (h : list event) :
  result (xr_set_reg env p block reg val) h <= 0 /\
  (result (xr_set_reg env p block reg val) h = 0 <->
   exists m st b0,
     emitted (xr_set_reg env p block reg val) h = [EvCtrl m st b0] /\
     0 <= st).
Proof.
  unfold result, emitted.
  destruct (xr_set_reg_cases env p block reg val h)
    as [[_ E] | (r & st & b0 & _ & _ & E)]; rewrite E; cbn [fst snd].
  - split; [unfold EINVAL; lia|]. split; [discriminate|].
    intros (m & st & b0 & H & _). discriminate H.
  - split.
    + unfold set_status. destruct (st <? 0) eqn:Hs; [|lia].
      apply Z.ltb_lt in Hs. lia.
    + rewrite set_status_zero_iff. split.
      * intros Hst. eexists _, _, _. split; [reflexivity | exact Hst].
      * intros (m & st' & b' & H & Hst). injection H as _ <- _. exact Hst.
Qed.

Lemma u8_lor (a b : Z) : u8 (Z.lor a b) = Z.lor (u8 a) (u8 b).
Proof.
  unfold u8. rewrite <- !Z.land_ones by lia. apply Z.land_lor_distr_l.
Qed.

Lemma u8_u32_double (x : Z) :
  u8 (u32 (Z.shiftl (u32 x) 1)) = (2 * x) mod 256.
Proof.
  unfold u8, u32. rewrite Z.shiftl_mul_pow2 by lia. change (2 ^ 1) with 2.
  rewrite Z.mod_mod_divide by (exists (2 ^ 24); reflexivity).
  change (2 ^ 8) with 256.
  rewrite Z.mul_mod by lia.
  rewrite Z.mod_mod_divide by (exists (2 ^ 24); reflexivity).
  rewrite <- Z.mul_mod by lia. f_equal. lia.
Qed.

(** The register number [xr_set_reg] and [xr_get_reg] use on XR21B142X, for
    every channel: the low byte of [2 * (channel - 4)] is OR-ed in. *)
Lemma xr_mangle_reg_XR21B142X (p : xr_port_private) (reg : Z) :
  model p = XR21B142X -> 0 <= reg < 256 ->
  xr_mangle_reg p reg = Some (Z.lor reg ((2 * (channel p - 4)) mod 256)).
Proof.
  intros Hm Hr. unfold xr_mangle_reg. rewrite Hm. f_equal.
  now rewrite u8_lor, u8_u32_double, u8_small.
Qed.

(** X2. On XR21B142X a register write of register [R] in block [b] goes out
    with [wIndex = (b << 8) | R | ((2 * (channel - 4)) mod 256)]; for the
    channels 4 to 6 that is [(b << 8) | (R | ((channel - 4) << 1))], and a
    channel below 4 wraps around: channel 1 ORs 0xfa into the register
    number. *)
Theorem xr_set_reg_XR21B142X_wIndex (env : kernel_env) (p : xr_port_private)
    (b R v : Z) (h : list event) :
  model p = XR21B142X -> 0 <= b < 256 -> 0 <= R < 256 ->
  exists m st b0,
    emitted (xr_set_reg env p b R v) h = [EvCtrl m st b0] /\
    wIndex m
    = Z.lor (Z.shiftl b 8) (Z.lor R ((2 * (channel p - 4)) mod 256)) /\
    (4 <= channel p <= 6 ->
     wIndex m = Z.lor (Z.shiftl b 8) (Z.lor R (Z.shiftl (channel p - 4) 1)))
    /\
    (channel p = 1 -> wIndex m = Z.lor (Z.shiftl b 8) (Z.lor R 0xfa)).
Proof.
  intros Hm Hb HR.
  assert (Hn : xr_mangle_reg p (u8 R)
               = Some (Z.lor R ((2 * (channel p - 4)) mod 256))).
  { rewrite (u8_small R HR). now apply xr_mangle_reg_XR21B142X. }
  pose proof (xr_mangle_reg_range p (u8 R) _ (u8_range R) Hn) as Hrange.
  eexists _, _, _. unfold emitted.
  rewrite (xr_set_reg_run env p b R v _ h Hn). cbn [snd].
  split; [reflexivity|].
  assert (Hw : wIndex (set_reg_msg p b
                         (Z.lor R ((2 * (channel p - 4)) mod 256)) v)
               = Z.lor (Z.shiftl b 8)
                   (Z.lor R ((2 * (channel p - 4)) mod 256))).
  { cbn [set_reg_msg wIndex]. rewrite (u8_small b Hb).
    now apply lor_shiftl_8_u16. }
  split; [exact Hw|]. rewrite Hw. split.
  - intros Hc. do 2 f_equal. rewrite Z.shiftl_mul_pow2 by lia.
    change (2 ^ 1) with 2. rewrite Z.mod_small by lia. lia.
  - intros Hc. rewrite Hc. reflexivity.
Qed.

Lemma xr_set_reg_XR21B142X_wIndex_witness :
  exists m st b0,
    emitted (xr_set_reg env_ok (mk_port XR21B142X 5 0) 0 0x06 1) []
    = [EvCtrl m st b0] /\
    wIndex m = 0x06.
Proof.
  destruct (xr_set_reg_XR21B142X_wIndex env_ok (mk_port XR21B142X 5 0)
              0 0x06 1 [] eq_refl) as (m & st & b0 & E & Hw & _);
    [lia | lia |].
  exists m, st, b0. split; [exact E | exact Hw].
Defined.

(** X3. [xr_get_reg] never returns a positive value; it returns 0 exactly
    when the allocation succeeded and the transfer returned exactly one
    byte (a count of 0, or of more than 1, is -EIO), and the byte it then
    stores lies in 0..255. *)
Theorem xr_get_reg_returns_zero_or_error (env : kernel_env)
    (p : xr_port_private) (block reg val : Z) (h : list event) :
  fst (result (xr_get_reg env p block reg val) h) <= 0 /\
  (fst (result (xr_get_reg env p block reg val) h) = 0 <->
   exists m b0,
     emitted (xr_get_reg env p block reg val) h
     = [EvKmalloc true; EvCtrl m 1 b0]) /\
  (fst (result (xr_get_reg env p block reg val) h) = 0 ->
   0 <= snd (result (xr_get_reg env p block reg val) h) < 256) /\
  (forall m st b0,
     In (EvCtrl m st b0) (emitted (xr_get_reg env p block reg val) h) ->
     0 <= st -> st <> 1 ->
     fst (result (xr_get_reg env p block reg val) h) = - EIO).
Proof.
  unfold result, emitted.
  assert (Herr : forall k : Z, k < 0 ->
            forall l : list event,
              (forall m b0, l <> [EvKmalloc true; EvCtrl m 1 b0]) ->
              (forall m st b0, In (EvCtrl m st b0) l ->
                               0 <= st -> st <> 1 -> k = - EIO) ->
              k <= 0 /\
              (k = 0 <-> exists m b0, l = [EvKmalloc true; EvCtrl m 1 b0]) /\
              (k = 0 -> 0 <= val < 256) /\
              (forall m st b0, In (EvCtrl m st b0) l ->
                               0 <= st -> st <> 1 -> k = - EIO)).
  { intros k Hk l Hl Hin. split; [lia|]. split; [|split; [lia | exact Hin]].
    split; [lia|]. intros (m & b0 & H). elim (Hl m b0 H). }
  destruct (xr_get_reg_cases env p block reg val h)
    as [[_ E] | [(_ & _ & E) | (r & st & b0 & _ & _ & _ & C)]].
  - rewrite E. cbn [fst snd]. apply Herr.
    + unfold ENOMEM. lia.
    + intros m b0 H. discriminate H.
    + intros m st b0 [H|[]]. discriminate H.
  - rewrite E. cbn [fst snd]. apply Herr.
    + unfold EINVAL. lia.
    + intros m b0 H. discriminate H.
    + intros m st b0 [H|[]]. discriminate H.
  - destruct C as [[Hs E] | [[Hs E] | (Hs0 & Hs1 & E)]];
      rewrite E; cbn [fst snd].
    + subst st. split; [lia|]. split; [|split].
      * split; [|reflexivity]. intros _. eexists _, _. reflexivity.
      * intros _. apply u8_range.
      * intros m st' b' [H|[H|[]]]; [discriminate H|].
        injection H as _ <- _. intros _ Hne. now elim Hne.
    + apply Herr.
      * exact Hs.
      * intros m b' H. injection H as _ -> _. lia.
      * intros m st' b' [H|[H|[]]]; [discriminate H|].
        injection H as _ <- _. intros H0 _. lia.
    + apply Herr.
      * unfold EIO. lia.
      * intros m b' H. injection H as _ -> _. now elim Hs1.
      * intros; reflexivity.
Qed.

(** ** UART lifecycle *)

(** One register write on XR21V141X followed by the rest of the function. *)
Lemma bind_xr_set_reg_XR21V141X {B} (env : kernel_env) (p : xr_port_private)
    (block reg val : Z) (f : Z -> M B) (h : list event) :
  model p = XR21V141X -> 0 <= reg < 256 ->
  bind (xr_set_reg env p block reg val) f h
  = (fst (f (set_status
               (fst (usb_control_msg env h (set_reg_msg p block reg val))))
            (h ++ [EvCtrl (set_reg_msg p block reg val)
                     (fst (usb_control_msg env h
                             (set_reg_msg p block reg val)))
                     (snd (usb_control_msg env h
                             (set_reg_msg p block reg val)))])),
     EvCtrl (set_reg_msg p block reg val)
       (fst (usb_control_msg env h (set_reg_msg p block reg val)))
       (snd (usb_control_msg env h (set_reg_msg p block reg val)))
     :: snd (f (set_status
                  (fst (usb_control_msg env h
                          (set_reg_msg p block reg val))))
               (h ++ [EvCtrl (set_reg_msg p block reg val)
                        (fst (usb_control_msg env h
                                (set_reg_msg p block reg val)))
                        (snd (usb_control_msg env h
                                (set_reg_msg p block reg val)))]))).
Proof.
  intros Hp Hr. rewrite bind_run.
  assert (Hm : xr_mangle_reg p (u8 reg) = Some reg).
  { rewrite (u8_small reg Hr). now apply xr_mangle_reg_XR21V141X. }
  rewrite (xr_set_reg_run env _ block reg val reg h Hm). reflexivity.
Qed.

Lemma set_status_neg (st : Z) : st < 0 -> set_status st = st.
Proof.
  intros H. unfold set_status. destruct (st <? 0) eqn:E; [reflexivity|].
  apply Z.ltb_ge in E. lia.
Qed.

Lemma set_status_nonneg (st : Z) : 0 <= st -> set_status st = 0.
Proof. apply set_status_zero_iff. Qed.

Lemma negb_eqb_neg (st : Z) : st < 0 -> negb (st =? 0) = true.
Proof.
  intros H. destruct (st =? 0) eqn:E; [|reflexivity].
  apply Z.eqb_eq in E. lia.
Qed.

(** X4. [xr_uart_enable] on XR21V141X writes, in this order, FIFO_ENABLE = 1
    (UART manager, [wIndex] 0x0410), ENABLE = 3 ([wIndex] 0x0003) and
    FIFO_ENABLE = 3, stopping at the first transfer that fails and returning
    its status; it returns 0 exactly when all three succeed.  When the third
    fails it writes ENABLE = 0 as a fourth transfer and still returns the
    status of the third, whatever becomes of the fourth. *)
Theorem xr_uart_enable_XR21V141X (env : kernel_env) (c ifn : Z)
    (h : list event) :
  let p := mk_port XR21V141X c ifn in
  let m1 := set_reg_msg p UM_REG_BLOCK UM_FIFO_ENABLE_REG 1 in
  let m2 := set_reg_msg p UART_REG_BLOCK 0x03 3 in
  let m3 := set_reg_msg p UM_REG_BLOCK UM_FIFO_ENABLE_REG 3 in
  let m4 := set_reg_msg p UART_REG_BLOCK 0x03 0 in
  (wIndex m1 = 0x0410 /\ wIndex m2 = 0x0003 /\ wIndex m3 = 0x0410 /\
   wIndex m4 = 0x0003 /\ wValue m1 = 1 /\ wValue m2 = 3 /\ wValue m3 = 3 /\
   wValue m4 = 0) /\
  exists s1 b1,
    (s1 < 0 /\ xr_uart_enable env p h = (s1, [EvCtrl m1 s1 b1])) \/
    (0 <= s1 /\
     exists s2 b2,
       (s2 < 0 /\
        xr_uart_enable env p h = (s2, [EvCtrl m1 s1 b1; EvCtrl m2 s2 b2])) \/
       (0 <= s2 /\
        exists s3 b3,
          (0 <= s3 /\
           xr_uart_enable env p h
           = (0, [EvCtrl m1 s1 b1; EvCtrl m2 s2 b2; EvCtrl m3 s3 b3])) \/
          (s3 < 0 /\
           exists s4 b4,
             xr_uart_enable env p h
             = (s3, [EvCtrl m1 s1 b1; EvCtrl m2 s2 b2; EvCtrl m3 s3 b3;
                     EvCtrl m4 s4 b4])))).
Proof.
  intros p m1 m2 m3 m4. split; [repeat split|].
  unfold xr_uart_enable. cbn [model p xr_model_eqb negb].
  unfold xr_set_reg_um, xr_set_reg_uart.
  change (xr_hal_table XR21V141X REG_ENABLE) with 0x03.
  change (Z.lor UART_ENABLE_TX UART_ENABLE_RX) with 3.
  change (Z.lor UM_ENABLE_TX_FIFO UM_ENABLE_RX_FIFO) with 3.
  change UM_ENABLE_TX_FIFO with 1.
  rewrite bind_xr_set_reg_XR21V141X
    by (trivial; unfold UM_FIFO_ENABLE_REG; lia).
  fold m1.
  destruct (usb_control_msg env h m1) as [s1 b1]. cbn [fst snd].
  exists s1, b1.
  destruct (Z_lt_le_dec s1 0) as [H1|H1].
  { left. split; [exact H1|].
    rewrite (set_status_neg s1 H1), (negb_eqb_neg s1 H1). reflexivity. }
  right. split; [exact H1|]. rewrite (set_status_nonneg s1 H1).
  cbn [Z.eqb negb].
  rewrite bind_xr_set_reg_XR21V141X by (trivial; lia). fold m2.
  destruct (usb_control_msg env (h ++ [EvCtrl m1 s1 b1]) m2) as [s2 b2].
  cbn [fst snd]. exists s2, b2.
  destruct (Z_lt_le_dec s2 0) as [H2|H2].
  { left. split; [exact H2|].
    rewrite (set_status_neg s2 H2), (negb_eqb_neg s2 H2). reflexivity. }
  right. split; [exact H2|]. rewrite (set_status_nonneg s2 H2).
  cbn [Z.eqb negb].
  rewrite bind_xr_set_reg_XR21V141X
    by (trivial; unfold UM_FIFO_ENABLE_REG; lia).
  fold m3.
  destruct (usb_control_msg env
              ((h ++ [EvCtrl m1 s1 b1]) ++ [EvCtrl m2 s2 b2]) m3)
    as [s3 b3].
  cbn [fst snd]. exists s3, b3.
  destruct (Z_lt_le_dec s3 0) as [H3|H3].
  - right. split; [exact H3|].
    rewrite (set_status_neg s3 H3), (negb_eqb_neg s3 H3).
    rewrite bind_xr_set_reg_XR21V141X by (trivial; lia). fold m4.
    destruct (usb_control_msg env
                (((h ++ [EvCtrl m1 s1 b1]) ++ [EvCtrl m2 s2 b2])
                 ++ [EvCtrl m3 s3 b3]) m4) as [s4 b4].
    exists s4, b4. reflexivity.
  - left. split; [exact H3|]. rewrite (set_status_nonneg s3 H3).
    reflexivity.
Qed.

Lemma xr_model_eqb_eq (a b : xr_model) : xr_model_eqb a b = true <-> a = b.
Proof. destruct a, b; cbn; split; intros H; congruence. Qed.

(** One register write, on a known model, followed by the rest of the
    function. *)
Lemma bind_xr_set_reg_some {B} (env : kernel_env) (p : xr_port_private)
    (block reg val n : Z) (f : Z -> M B) (h : list event) :
  xr_mangle_reg p (u8 reg) = Some n ->
  bind (xr_set_reg env p block reg val) f h
  = (fst (f (set_status
               (fst (usb_control_msg env h (set_reg_msg p block n val))))
            (h ++ [EvCtrl (set_reg_msg p block n val)
                     (fst (usb_control_msg env h (set_reg_msg p block n val)))
                     (snd (usb_control_msg env h
                             (set_reg_msg p block n val)))])),
     EvCtrl (set_reg_msg p block n val)
       (fst (usb_control_msg env h (set_reg_msg p block n val)))
       (snd (usb_control_msg env h (set_reg_msg p block n val)))
     :: snd (f (set_status
                  (fst (usb_control_msg env h (set_reg_msg p block n val))))
               (h ++ [EvCtrl (set_reg_msg p block n val)
                        (fst (usb_control_msg env h
                                (set_reg_msg p block n val)))
                        (snd (usb_control_msg env h
                                (set_reg_msg p block n val)))]))).
Proof.
  intros Hm. rewrite bind_run.
  rewrite (xr_set_reg_run env _ block reg val n h Hm). reflexivity.
Qed.

Lemma xr_mangle_reg_some (p : xr_port_private) (reg : Z) :
  model p <> MAX_XR_MODELS -> exists n, xr_mangle_reg p reg = Some n.
Proof.
  intros Hm. destruct (xr_mangle_reg p reg) as [n|] eqn:E.
  - now exists n.
  - apply xr_mangle_reg_none in E. contradiction.
Qed.

(** X5. [xr_uart_disable] writes ENABLE = 0 first and returns its status if
    that fails.  It touches FIFO_ENABLE of the UART manager only on
    XR21V141X and only after ENABLE = 0 succeeded; on the other models the
    ENABLE write is the whole call. *)
Theorem xr_uart_disable_outcome (env : kernel_env) (p : xr_port_private)
    (h : list event) :
  model p <> MAX_XR_MODELS ->
  exists n s1 b1,
    xr_mangle_reg p (u8 (xr_hal_table (model p) REG_ENABLE)) = Some n /\
    ((s1 < 0 /\
      xr_uart_disable env p h
      = (s1, [EvCtrl (set_reg_msg p UART_REG_BLOCK n 0) s1 b1])) \/
     (0 <= s1 /\ model p <> XR21V141X /\
      xr_uart_disable env p h
      = (0, [EvCtrl (set_reg_msg p UART_REG_BLOCK n 0) s1 b1])) \/
     (0 <= s1 /\ model p = XR21V141X /\
      exists s2 b2,
        xr_uart_disable env p h
        = (set_status s2,
           [EvCtrl (set_reg_msg p UART_REG_BLOCK n 0) s1 b1;
            EvCtrl (set_reg_msg p UM_REG_BLOCK UM_FIFO_ENABLE_REG 0)
              s2 b2]))).
Proof.
  intros Hm.
  destruct (xr_mangle_reg_some p (u8 (xr_hal_table (model p) REG_ENABLE)) Hm)
    as [n Hn].
  unfold xr_uart_disable, xr_set_reg_uart.
  rewrite (bind_xr_set_reg_some env p _ _ _ n _ h Hn).
  destruct (usb_control_msg env h (set_reg_msg p UART_REG_BLOCK n 0))
    as [s1 b1]. cbn [fst snd].
  exists n, s1, b1. split; [exact Hn|].
  destruct (Z_lt_le_dec s1 0) as [H1|H1].
  { left. split; [exact H1|].
    rewrite (set_status_neg s1 H1), (negb_eqb_neg s1 H1). reflexivity. }
  right. rewrite (set_status_nonneg s1 H1). cbn [Z.eqb negb].
  destruct (xr_model_eqb (model p) XR21V141X) eqn:Hv; cbn [negb].
  - apply xr_model_eqb_eq in Hv. right. split; [exact H1|].
    split; [exact Hv|].
    assert (Hu : xr_mangle_reg p (u8 UM_FIFO_ENABLE_REG)
                 = Some UM_FIFO_ENABLE_REG).
    { change (u8 UM_FIFO_ENABLE_REG) with UM_FIFO_ENABLE_REG.
      apply xr_mangle_reg_XR21V141X; [exact Hv|].
      unfold UM_FIFO_ENABLE_REG. lia. }
    unfold xr_set_reg_um.
    rewrite (xr_set_reg_run env p _ _ _ _ _ Hu).
    eexists _, _. reflexivity.
  - left. split; [exact H1|]. split; [|reflexivity].
    intros E. apply xr_model_eqb_eq in E. congruence.
Qed.

(** XR21B1411 with every transfer succeeding: the call is the one write of
    0 to ENABLE. *)
Lemma xr_uart_disable_outcome_witness :
  xr_uart_disable env_ok (mk_port XR21B1411 1 0) []
  = (0, [EvCtrl (set_reg_msg (mk_port XR21B1411 1 0) UART_REG_BLOCK 0 0)
           0 0]) /\
  exists n s1 b1,
    xr_mangle_reg (mk_port XR21B1411 1 0) (u8 0xc00) = Some n /\
    ((s1 < 0 /\
      xr_uart_disable env_ok (mk_port XR21B1411 1 0) []
      = (s1, [EvCtrl (set_reg_msg (mk_port XR21B1411 1 0) UART_REG_BLOCK n 0)
                s1 b1])) \/
     (0 <= s1 /\ XR21B1411 <> XR21V141X /\
      xr_uart_disable env_ok (mk_port XR21B1411 1 0) []
      = (0, [EvCtrl (set_reg_msg (mk_port XR21B1411 1 0) UART_REG_BLOCK n 0)
               s1 b1])) \/
     (0 <= s1 /\ XR21B1411 = XR21V141X /\
      exists s2 b2,
        xr_uart_disable env_ok (mk_port XR21B1411 1 0) []
        = (set_status s2,
           [EvCtrl (set_reg_msg (mk_port XR21B1411 1 0) UART_REG_BLOCK n 0)
              s1 b1;
            EvCtrl (set_reg_msg (mk_port XR21B1411 1 0) UM_REG_BLOCK
                      UM_FIFO_ENABLE_REG 0) s2 b2]))).
Proof.
  split; [vm_compute; reflexivity|].
  apply (xr_uart_disable_outcome env_ok (mk_port XR21B1411 1 0) []).
  discriminate.
Defined.

(** X6. [fifo_reset] does nothing and returns 0 on every model but
    XR21V141X.  There it writes 0xff to the UART manager's RX reset
    register 0x18 + k and then to its TX reset register 0x1c + k, with
    k = channel - 1 (0 for channel 0); the TX write is not made when the RX
    write fails.  For channels 1 to 4 the two transfers carry [wIndex]
    0x0418 + k and 0x041c + k. *)
Theorem fifo_reset_outcome (env : kernel_env) (p : xr_port_private)
    (h : list event) :
  (model p <> XR21V141X -> fifo_reset env p h = (0, [])) /\
  (model p = XR21V141X ->
   let k := if channel p =? 0 then 0 else channel p - 1 in
   let rx := set_reg_msg p UM_REG_BLOCK (u8 (0x18 + k)) 0xff in
   let tx := set_reg_msg p UM_REG_BLOCK (u8 (0x1c + k)) 0xff in
   (1 <= channel p <= 4 ->
    wIndex rx = 0x0418 + (channel p - 1) /\
    wIndex tx = 0x041c + (channel p - 1)) /\
   exists s1 b1,
     (s1 < 0 /\ fifo_reset env p h = (s1, [EvCtrl rx s1 b1])) \/
     (0 <= s1 /\
      exists s2 b2,
        fifo_reset env p h
        = (set_status s2, [EvCtrl rx s1 b1; EvCtrl tx s2 b2]))).
Proof.
  split.
  - intros Hm. unfold fifo_reset.
    destruct (xr_model_eqb (model p) XR21V141X) eqn:E; [|reflexivity].
    apply xr_model_eqb_eq in E. contradiction.
  - intros Hm k rx tx. split.
    + intros Hc. subst rx tx k. cbn [set_reg_msg wIndex].
      assert (Hne : (channel p =? 0) = false) by (apply Z.eqb_neq; lia).
      rewrite Hne.
      assert (C : channel p = 1 \/ channel p = 2 \/ channel p = 3 \/
                  channel p = 4) by lia.
      destruct C as [-> | [-> | [-> | ->]]]; split; reflexivity.
    + unfold fifo_reset.
      assert (E : xr_model_eqb (model p) XR21V141X = true)
        by (now apply xr_model_eqb_eq).
      rewrite E. cbn [negb]. cbv zeta.
      assert (Hk : (if channel p =? 0 then channel p else channel p - 1)
                   = k).
      { subst k. destruct (channel p =? 0) eqn:E0; [|reflexivity].
        now apply Z.eqb_eq in E0. }
      rewrite Hk.
      change URM_RESET_RX_FIFO_BASE with 0x18.
      change URM_RESET_TX_FIFO_BASE with 0x1c.
      assert (Hrx : xr_mangle_reg p (u8 (0x18 + k)) = Some (u8 (0x18 + k)))
        by (apply xr_mangle_reg_XR21V141X; [exact Hm | apply u8_range]).
      assert (Htx : xr_mangle_reg p (u8 (0x1c + k)) = Some (u8 (0x1c + k)))
        by (apply xr_mangle_reg_XR21V141X; [exact Hm | apply u8_range]).
      unfold xr_set_reg_um.
      rewrite (bind_xr_set_reg_some env p _ _ _ _ _ h Hrx). fold rx.
      destruct (usb_control_msg env h rx) as [s1 b1]. cbn [fst snd].
      exists s1, b1.
      destruct (Z_lt_le_dec s1 0) as [H1|H1].
      * left. split; [exact H1|].
        rewrite (set_status_neg s1 H1), (negb_eqb_neg s1 H1). reflexivity.
      * right. split; [exact H1|]. rewrite (set_status_nonneg s1 H1).
        cbn [Z.eqb negb].
        rewrite (xr_set_reg_run env p _ _ _ _ _ Htx). fold tx.
        eexists _, _. reflexivity.
Qed.

Lemma fifo_reset_outcome_witness :
  fifo_reset env_ok (mk_port XR2280X 1 0) [] = (0, []) /\
  wIndex (set_reg_msg (mk_port XR21V141X 2 0) UM_REG_BLOCK (u8 (0x18 + 1))
            0xff) = 0x0419.
Proof.
  split.
  - apply (proj1 (fifo_reset_outcome env_ok (mk_port XR2280X 1 0) [])).
    discriminate.
  - apply (proj2 (fifo_reset_outcome env_ok (mk_port XR21V141X 2 0) [])
             eq_refl).
    cbn. lia.
Defined.

(** ** Modem-control lines *)

Lemma xr_get_reg_status_nonpos (env : kernel_env) (p : xr_port_private)
    (block reg val : Z) (h : list event) :
  fst (result (xr_get_reg env p block reg val) h) <= 0.
Proof.
  unfold result.
  destruct (xr_get_reg_cases env p block reg val h)
    as [[_ E] | [(_ & _ & E) | (r & st & b0 & _ & _ & _ & C)]].
  - rewrite E. cbn. unfold ENOMEM. lia.
  - rewrite E. cbn. unfold EINVAL. lia.
  - destruct C as [[_ E] | [[Hs E] | (_ & _ & E)]]; rewrite E; cbn;
      unfold EIO; lia.
Qed.

(** X7. [xr_tiocmget] issues the GPIO_STATUS read and nothing else.  It
    returns a negative error exactly when that read fails; otherwise it
    returns a mask made of the six modem-line bits only, in which a line is
    set exactly when its bit of the status byte is 0 (the pins are active
    low). *)
Theorem xr_tiocmget_outcome (env : kernel_env) (p : xr_port_private)
    (h : list event) :
  let rd := xr_get_reg_uart env p (xr_hal_table (model p) REG_GPIO_STATUS)
              (uninit env L_tiocmget_status h) in
  let r := result (xr_tiocmget env p) h in
  let status := snd (result rd h) in
  emitted (xr_tiocmget env p) h = emitted rd h /\
  (fst (result rd h) <> 0 -> r = fst (result rd h) /\ r < 0) /\
  (fst (result rd h) = 0 ->
   0 <= r /\
   Z.land r (Z.lnot (Z.lor (Z.lor (Z.lor (Z.lor (Z.lor
      TIOCM_DTR TIOCM_RTS) TIOCM_CTS) TIOCM_DSR) TIOCM_RI) TIOCM_CD)) = 0 /\
   (Z.land r TIOCM_DTR <> 0 <-> Z.land status UART_MODE_DTR = 0) /\
   (Z.land r TIOCM_RTS <> 0 <-> Z.land status UART_MODE_RTS = 0) /\
   (Z.land r TIOCM_CTS <> 0 <-> Z.land status UART_MODE_CTS = 0) /\
   (Z.land r TIOCM_DSR <> 0 <-> Z.land status UART_MODE_DSR = 0) /\
   (Z.land r TIOCM_RI <> 0 <-> Z.land status UART_MODE_RI = 0) /\
   (Z.land r TIOCM_CD <> 0 <-> Z.land status UART_MODE_CD = 0)).
Proof.
  intros rd r status. subst r status.
  pose proof (xr_get_reg_status_nonpos env p UART_REG_BLOCK
                (xr_hal_table (model p) REG_GPIO_STATUS)
                (uninit env L_tiocmget_status h) h) as Hle.
  change (fst (result rd h) <= 0) in Hle.
  unfold xr_tiocmget.
  rewrite emitted_bind, result_bind.
  change (emitted (read_uninit env L_tiocmget_status) h) with (@nil event).
  change (result (read_uninit env L_tiocmget_status) h)
    with (uninit env L_tiocmget_status h).
  rewrite app_nil_r. cbn [app]. fold rd.
  rewrite emitted_bind, result_bind.
  destruct (result rd h) as [rc status]. cbn [fst snd] in *.
  destruct (rc =? 0) eqn:Hrc; cbn [negb].
  - apply Z.eqb_eq in Hrc. subst rc.
    split; [apply app_nil_r|]. split; [intros H; now elim H|]. intros _.
    cbn [result ret fst].
    destruct (Z.land status UART_MODE_DTR =? 0) eqn:E1;
    destruct (Z.land status UART_MODE_RTS =? 0) eqn:E2;
    destruct (Z.land status UART_MODE_CTS =? 0) eqn:E3;
    destruct (Z.land status UART_MODE_DSR =? 0) eqn:E4;
    destruct (Z.land status UART_MODE_RI =? 0) eqn:E5;
    destruct (Z.land status UART_MODE_CD =? 0) eqn:E6;
    cbn [negb];
    rewrite ?Z.eqb_eq, ?Z.eqb_neq in *;
    (split; [vm_compute; discriminate|]);
    (split; [reflexivity|]);
    repeat split; intros H;
    try assumption; try (vm_compute in H; congruence);
    try (vm_compute; discriminate); try contradiction.
  - apply Z.eqb_neq in Hrc.
    split; [apply app_nil_r|]. split; [|intros H; contradiction].
    intros _. cbn [result ret fst]. split; [reflexivity | lia].
Qed.

Lemma land_dtr_rts_split (x : Z) :
  Z.land x (Z.lor TIOCM_DTR TIOCM_RTS)
  = Z.lor (Z.land (u32 x) TIOCM_DTR) (Z.land (u32 x) TIOCM_RTS).
Proof.
  rewrite !land_u32_small by (unfold TIOCM_DTR, TIOCM_RTS; lia).
  apply Z.land_lor_distr_r.
Qed.

(** The value [xr_tiocmset_port] builds for a mask is not 0 when the mask
    holds DTR or RTS. *)
Lemma gpio_value_nonzero (x : Z) :
  Z.land x (Z.lor TIOCM_DTR TIOCM_RTS) <> 0 ->
  (let g := 0 in
   let g := if negb (Z.land (u32 x) TIOCM_RTS =? 0)
            then u8 (Z.lor g UART_MODE_RTS) else g in
   if negb (Z.land (u32 x) TIOCM_DTR =? 0)
   then u8 (Z.lor g UART_MODE_DTR) else g) <> 0.
Proof.
  intros Hx. rewrite land_dtr_rts_split in Hx. cbv zeta.
  destruct (Z.land (u32 x) TIOCM_RTS =? 0) eqn:E1;
    destruct (Z.land (u32 x) TIOCM_DTR =? 0) eqn:E2; cbn [negb];
    try (intros H; discriminate H).
  apply Z.eqb_eq in E1, E2. rewrite E1, E2 in Hx. now elim Hx.
Qed.

(** X8. When [xr_tiocmset_port] is asked both to set and to clear lines, it
    writes GPIO_CLR first and GPIO_SET second and returns the status of the
    GPIO_SET write alone: a failure of the GPIO_CLR write is not
    reported. *)
Theorem xr_tiocmset_port_second_status_wins (env : kernel_env)
    (p : xr_port_private) (set clear : Z) (h : list event) :
  model p <> MAX_XR_MODELS ->
  Z.land set (Z.lor TIOCM_DTR TIOCM_RTS) <> 0 ->
  Z.land clear (Z.lor TIOCM_DTR TIOCM_RTS) <> 0 ->
  exists m1 s1 b1 m2 s2 b2,
    emitted (xr_tiocmset_port env p set clear) h
    = [EvCtrl m1 s1 b1; EvCtrl m2 s2 b2] /\
    is_reg_write p REG_GPIO_CLR (EvCtrl m1 s1 b1) /\
    is_reg_write p REG_GPIO_SET (EvCtrl m2 s2 b2) /\
    result (xr_tiocmset_port env p set clear) h = set_status s2.
Proof.
  intros Hm Hset Hclear.
  pose proof (gpio_value_nonzero set Hset) as Gc.
  pose proof (gpio_value_nonzero clear Hclear) as Gs.
  cbv zeta in Gc, Gs.
  unfold xr_tiocmset_port, result, emitted. cbv zeta.
  apply Z.eqb_neq in Gc, Gs. rewrite Gc, Gs. cbn [negb].
  destruct (xr_mangle_reg_some p
              (u8 (xr_hal_table (model p) REG_GPIO_CLR)) Hm) as [n1 Hn1].
  destruct (xr_mangle_reg_some p
              (u8 (xr_hal_table (model p) REG_GPIO_SET)) Hm) as [n2 Hn2].
  unfold xr_set_reg_uart.
  rewrite (bind_xr_set_reg_some env p _ _ _ n1 _ h Hn1).
  match goal with
  | |- context [xr_set_reg env p ?b ?r ?v ?hh] =>
      rewrite (xr_set_reg_run env p b r v n2 hh Hn2)
  end.
  cbn [fst snd].
  eexists _, _, _, _, _, _. split; [reflexivity|].
  split; [|split; [|reflexivity]].
  - eexists n1, _, _, _. split; [exact Hn1 | reflexivity].
  - eexists n2, _, _, _. split; [exact Hn2 | reflexivity].
Qed.

(** The GPIO_CLR write fails, the GPIO_SET write succeeds: the call
    returns 0. *)
Lemma xr_tiocmset_port_second_status_wins_witness :
  xr_tiocmset_port env_first_fails (mk_port XR21V141X 1 0)
    TIOCM_DTR TIOCM_RTS []
  = (0, [EvCtrl (set_reg_msg (mk_port XR21V141X 1 0) 0 0x1e 0x08) (-71) 0;
         EvCtrl (set_reg_msg (mk_port XR21V141X 1 0) 0 0x1d 0x20) 0 0]) /\
  exists m1 s1 b1 m2 s2 b2,
    emitted (xr_tiocmset_port env_first_fails (mk_port XR21V141X 1 0)
               TIOCM_DTR TIOCM_RTS) []
    = [EvCtrl m1 s1 b1; EvCtrl m2 s2 b2] /\
    is_reg_write (mk_port XR21V141X 1 0) REG_GPIO_CLR (EvCtrl m1 s1 b1) /\
    is_reg_write (mk_port XR21V141X 1 0) REG_GPIO_SET (EvCtrl m2 s2 b2) /\
    result (xr_tiocmset_port env_first_fails (mk_port XR21V141X 1 0)
              TIOCM_DTR TIOCM_RTS) []
    = set_status s2.
Proof.
  split; [vm_compute; reflexivity|].
  apply (xr_tiocmset_port_second_status_wins env_first_fails
           (mk_port XR21V141X 1 0) TIOCM_DTR TIOCM_RTS []);
    discriminate.
Defined.

(** What one [xr_dtr_rts] call emits. *)
Lemma xr_dtr_rts_one_write (env : kernel_env) (p : xr_port_private)
    (on : Z) (h : list event) :
  model p <> MAX_XR_MODELS ->
  exists e,
    emitted (xr_dtr_rts env p on) h = [e] /\
    (on <> 0 -> is_reg_write_of p REG_GPIO_CLR 0x28 e) /\
    (on = 0 -> is_reg_write_of p REG_GPIO_SET 0x28 e).
Proof.
  intros Hm.
  destruct (xr_mangle_reg_some p
              (u8 (xr_hal_table (model p) REG_GPIO_CLR)) Hm) as [n1 Hn1].
  destruct (xr_mangle_reg_some p
              (u8 (xr_hal_table (model p) REG_GPIO_SET)) Hm) as [n2 Hn2].
  unfold xr_dtr_rts, emitted.
  destruct (on =? 0) eqn:Hon; cbn [negb].
  - apply Z.eqb_eq in Hon.
    rewrite bind_run. unfold xr_tiocmset_port. cbv zeta.
    change (Z.land (u32 0) TIOCM_RTS =? 0) with true.
    change (Z.land (u32 0) TIOCM_DTR =? 0) with true.
    change (Z.land (u32 (Z.lor TIOCM_DTR TIOCM_RTS)) TIOCM_RTS =? 0)
      with false.
    change (Z.land (u32 (Z.lor TIOCM_DTR TIOCM_RTS)) TIOCM_DTR =? 0)
      with false.
    cbn [negb].
    change (u8 (Z.lor (u8 (Z.lor 0 UART_MODE_RTS)) UART_MODE_DTR)) with 0x28.
    cbn [Z.eqb negb]. rewrite bind_ret_l. unfold xr_set_reg_uart.
    rewrite (xr_set_reg_run env p _ _ _ n2 _ Hn2). cbn [fst snd ret app].
    eexists. split; [reflexivity|]. split; [intros H; contradiction|].
    intros _. eexists n2, _, _. split; [exact Hn2 | reflexivity].
  - apply Z.eqb_neq in Hon.
    rewrite bind_run. unfold xr_tiocmset_port. cbv zeta.
    change (Z.land (u32 0) TIOCM_RTS =? 0) with true.
    change (Z.land (u32 0) TIOCM_DTR =? 0) with true.
    change (Z.land (u32 (Z.lor TIOCM_DTR TIOCM_RTS)) TIOCM_RTS =? 0)
      with false.
    change (Z.land (u32 (Z.lor TIOCM_DTR TIOCM_RTS)) TIOCM_DTR =? 0)
      with false.
    cbn [negb].
    change (u8 (Z.lor (u8 (Z.lor 0 UART_MODE_RTS)) UART_MODE_DTR)) with 0x28.
    cbn [Z.eqb negb]. unfold xr_set_reg_uart.
    rewrite (bind_xr_set_reg_some env p _ _ _ n1 _ h Hn1).
    cbn [fst snd ret app].
    eexists. split; [reflexivity|]. split; [|intros H; contradiction].
    intros _. eexists n1, _, _. split; [exact Hn1 | reflexivity].
Qed.

(** X9. [xr_dtr_rts] issues exactly one transfer on every known model:
    switching the lines on writes 0x28 (DTR and RTS) to GPIO_CLR, switching
    them off writes 0x28 to GPIO_SET, the pins being active low. *)
Theorem xr_dtr_rts_outcome (env : kernel_env) (p : xr_port_private)
    (on : Z) (h : list event) :
  model p <> MAX_XR_MODELS ->
  exists e,
    emitted (xr_dtr_rts env p on) h = [e] /\
    (on <> 0 -> is_reg_write_of p REG_GPIO_CLR 0x28 e) /\
    (on = 0 -> is_reg_write_of p REG_GPIO_SET 0x28 e).
Proof. intros Hm. now apply xr_dtr_rts_one_write. Qed.

(** Lines off on XR21V141X: the one transfer writes 0x28 to GPIO_SET. *)
Lemma xr_dtr_rts_outcome_witness :
  exists e,
    emitted (xr_dtr_rts env_ok (mk_port XR21V141X 1 0) 0) [] = [e] /\
    (0 <> 0 -> is_reg_write_of (mk_port XR21V141X 1 0) REG_GPIO_CLR 0x28 e)
    /\
    (0 = 0 -> is_reg_write_of (mk_port XR21V141X 1 0) REG_GPIO_SET 0x28 e).
Proof.
  apply (xr_dtr_rts_outcome env_ok (mk_port XR21V141X 1 0) 0 []).
  discriminate.
Defined.

(** ** Flow-mode setting *)

Lemma u8_land_255 (x : Z) : u8 x = Z.land x 255.
Proof. unfold u8. change 255 with (Z.ones 8). now rewrite Z.land_ones by lia. Qed.

Lemma u8_clear_gpio_mask (s : Z) :
  u8 (Z.land s (Z.lnot UART_MODE_GPIO_MASK)) = Z.land s 0xf8.
Proof. rewrite u8_land_255, <- Z.land_assoc. reflexivity. Qed.

Lemma u8_land_0xf8 (s : Z) : u8 (Z.land s 0xf8) = Z.land s 0xf8.
Proof. rewrite u8_land_255, <- Z.land_assoc. reflexivity. Qed.

(** The tail of a flow-mode setting whose read succeeded: the GPIO_MODE
    write-back and what follows it. *)
Lemma xr_set_flow_mode_tail (env : kernel_env) (tty : ktermios)
    (p : xr_port_private) (old_termios : option ktermios) (h : list event) :
  let rd := xr_get_reg_uart env p (xr_hal_table (model p) REG_GPIO_MODE)
              (uninit env L_flow_gpio_mode h) in
  fst (result rd h) = 0 ->
  exists front n st b0,
    xr_mangle_reg p (u8 (xr_hal_table (model p) REG_GPIO_MODE)) = Some n /\
    emitted (xr_set_flow_mode env tty p old_termios) h
    = front
      ++ EvCtrl (set_reg_msg p UART_REG_BLOCK n
                   (gpio_mode_value (snd (result rd h)) tty)) st b0
      :: (if C_BAUD tty =? B0
          then emitted (xr_dtr_rts env p 0)
                 ((h ++ front)
                  ++ [EvCtrl (set_reg_msg p UART_REG_BLOCK n
                                (gpio_mode_value (snd (result rd h)) tty))
                        st b0])
          else
            match old_termios with
            | Some old =>
                if Z.land (c_cflag old) CBAUD =? B0
                then emitted (xr_dtr_rts env p 1)
                       ((h ++ front)
                        ++ [EvCtrl (set_reg_msg p UART_REG_BLOCK n
                                      (gpio_mode_value (snd (result rd h))
                                         tty)) st b0])
                else []
            | None => []
            end).
Proof.
  intros rd H0.
  pose proof (xr_get_reg_ok_model env p UART_REG_BLOCK
                (xr_hal_table (model p) REG_GPIO_MODE)
                (uninit env L_flow_gpio_mode h) h H0) as Hmodel.
  destruct (xr_mangle_reg_some p
              (u8 (xr_hal_table (model p) REG_GPIO_MODE)) Hmodel) as [n Hn].
  unfold xr_set_flow_mode.
  rewrite emitted_bind.
  change (emitted (read_uninit env L_flow_gpio_mode) h) with (@nil event).
  change (result (read_uninit env L_flow_gpio_mode) h)
    with (uninit env L_flow_gpio_mode h).
  rewrite app_nil_r. cbn [app]. fold rd.
  rewrite emitted_bind.
  destruct (result rd h) as [rc s]. cbn [fst snd] in *. subst rc.
  cbn [Z.eqb negb].
  set (R := emitted rd h).
  match goal with
  | |- context [emitted (bind ?m _) (h ++ R)] => set (BR := m)
  end.
  rewrite emitted_bind.
  assert (HV : (let (g, _) := result BR (h ++ R) in
                if xr_model_eqb (model p) XR21B142X
                then u8 (Z.lor g 0x300) else g)
               = gpio_mode_value s tty).
  { assert (E : forall g c : Z,
               (if xr_model_eqb (model p) XR21B142X
                then u8 (Z.lor (u8 (Z.lor (Z.land g 0xf8) (u8 c))) 0x300)
                else u8 (Z.lor (Z.land g 0xf8) (u8 c)))
               = Z.lor (Z.land g 0xf8) (u8 c)).
    { intros g c.
      assert (E1 : u8 (Z.lor (Z.land g 0xf8) (u8 c))
                   = Z.lor (Z.land g 0xf8) (u8 c))
        by (now rewrite u8_lor, u8_land_0xf8, u8_idem).
      destruct (xr_model_eqb (model p) XR21B142X); [|exact E1].
      rewrite u8_lor, u8_idem, E1. change (u8 0x300) with 0.
      apply Z.lor_0_r. }
    unfold BR, gpio_mode_value. rewrite u8_clear_gpio_mask.
    destruct (negb (C_CRTSCTS tty =? 0) && negb (C_BAUD tty =? B0)).
    - cbn [result ret fst]. exact (E s 1).
    - assert (E0 : (if xr_model_eqb (model p) XR21B142X
                    then u8 (Z.lor (Z.land s 0xf8) 0x300)
                    else Z.land s 0xf8)
                   = Z.lor (Z.land s 0xf8) 0).
      { rewrite Z.lor_0_r.
        destruct (xr_model_eqb (model p) XR21B142X); [|reflexivity].
        rewrite u8_lor, u8_land_0xf8. apply Z.lor_0_r. }
      destruct (negb (I_IXON tty =? 0)).
      + rewrite !result_bind. cbn [result ret fst]. exact E0.
      + cbn [result ret fst]. exact E0. }
  destruct (result BR (h ++ R)) as [gm flow].
  set (pre := emitted BR (h ++ R)).
  rewrite emitted_bind.
  set (D := emitted (xr_uart_disable env p) ((h ++ R) ++ pre)).
  rewrite emitted_bind.
  set (F := emitted (xr_set_reg_uart env p
                       (xr_hal_table (model p) REG_FLOW_CTRL) flow)
              (((h ++ R) ++ pre) ++ D)).
  rewrite emitted_bind.
  set (En := emitted (xr_uart_enable env p)
               ((((h ++ R) ++ pre) ++ D) ++ F)).
  rewrite HV.
  rewrite emitted_bind.
  set (hh := ((((h ++ R) ++ pre) ++ D) ++ F) ++ En).
  assert (EG : exists st b0,
             xr_set_reg_uart env p (xr_hal_table (model p) REG_GPIO_MODE)
               (gpio_mode_value s tty) hh
             = (set_status st,
                [EvCtrl (set_reg_msg p UART_REG_BLOCK n
                           (gpio_mode_value s tty)) st b0])).
  { unfold xr_set_reg_uart.
    rewrite (xr_set_reg_run env p _ _ _ n hh Hn). eexists _, _. reflexivity. }
  destruct EG as (st & b0 & EG).
  assert (EG' : emitted (xr_set_reg_uart env p
                           (xr_hal_table (model p) REG_GPIO_MODE)
                           (gpio_mode_value s tty)) hh
                = [EvCtrl (set_reg_msg p UART_REG_BLOCK n
                             (gpio_mode_value s tty)) st b0])
    by (unfold emitted; now rewrite EG).
  rewrite EG'.
  exists (R ++ pre ++ D ++ F ++ En), n, st, b0.
  split; [exact Hn|].
  assert (Hh : hh = h ++ R ++ pre ++ D ++ F ++ En)
    by (unfold hh; now rewrite <- !app_assoc).
  rewrite Hh. rewrite <- !app_assoc. cbn [app].
  do 5 f_equal.
  destruct (C_BAUD tty =? B0); [reflexivity|].
  destruct old_termios as [old|]; [|reflexivity].
  destruct (Z.land (c_cflag old) CBAUD =? B0); reflexivity.
Qed.

Lemma gpio_mode_value_bits (s : Z) (tty : ktermios) :
  0 <= gpio_mode_value s tty < 256 /\
  Z.land (gpio_mode_value s tty) 0xf8 = Z.land s 0xf8 /\
  Z.land (gpio_mode_value s tty) 0x07
  = (if negb (C_CRTSCTS tty =? 0) && negb (C_BAUD tty =? B0) then 1 else 0).
Proof.
  unfold gpio_mode_value.
  set (c := if negb (C_CRTSCTS tty =? 0) && negb (C_BAUD tty =? B0)
            then 1 else 0).
  assert (Hc : c = 0 \/ c = 1)
    by (unfold c; destruct (negb _ && negb _); auto).
  split; [|split].
  - assert (E : u8 (Z.lor (Z.land s 0xf8) c) = Z.lor (Z.land s 0xf8) c).
    { rewrite u8_lor, u8_land_0xf8. destruct Hc as [-> | ->]; reflexivity. }
    rewrite <- E. apply u8_range.
  - rewrite Z.land_lor_distr_l, <- Z.land_assoc.
    change (Z.land 0xf8 0xf8) with 0xf8.
    destruct Hc as [-> | ->]; cbn [Z.land]; apply Z.lor_0_r.
  - rewrite Z.land_lor_distr_l, <- Z.land_assoc.
    change (Z.land 0xf8 0x07) with 0. rewrite Z.land_0_r.
    destruct Hc as [-> | ->]; reflexivity.
Qed.

(** X10. When its GPIO_MODE read succeeds, [xr_set_flow_mode] writes back to
    GPIO_MODE a byte that keeps bits 7..3 of the value read and holds
    RTS_CTS (1) in the low three bits under hardware flow control, 0
    otherwise.  The byte is below 256 on every model: on XR21B142X the 0x300
    the code ORs into it is cut off by the [u8].  At most one transfer
    follows the write-back. *)
Theorem xr_set_flow_mode_gpio_mode_write_back (env : kernel_env)
    (tty : ktermios) (p : xr_port_private) (old_termios : option ktermios)
    (h : list event) :
  let rd := xr_get_reg_uart env p (xr_hal_table (model p) REG_GPIO_MODE)
              (uninit env L_flow_gpio_mode h) in
  fst (result rd h) = 0 ->
  exists front back n st b0 v,
    xr_mangle_reg p (u8 (xr_hal_table (model p) REG_GPIO_MODE)) = Some n /\
    emitted (xr_set_flow_mode env tty p old_termios) h
    = front ++ EvCtrl (set_reg_msg p UART_REG_BLOCK n v) st b0 :: back /\
    (length back <= 1)%nat /\
    0 <= v < 256 /\
    Z.land v 0xf8 = Z.land (snd (result rd h)) 0xf8 /\
    Z.land v 0x07
    = (if negb (C_CRTSCTS tty =? 0) && negb (C_BAUD tty =? B0)
       then UART_MODE_RTS_CTS else 0).
Proof.
  intros rd H0.
  pose proof (xr_get_reg_ok_model env p UART_REG_BLOCK
                (xr_hal_table (model p) REG_GPIO_MODE)
                (uninit env L_flow_gpio_mode h) h H0) as Hmodel.
  destruct (xr_set_flow_mode_tail env tty p old_termios h H0)
    as (front & n & st & b0 & Hn & E).
  fold rd in E.
  destruct (gpio_mode_value_bits (snd (result rd h)) tty) as (Hr & Hhi & Hlo).
  eexists front, _, n, st, b0, _.
  split; [exact Hn|]. split; [exact E|].
  split; [|split; [exact Hr | split; [exact Hhi | exact Hlo]]].
  assert (Hd : forall on hh,
             (length (emitted (xr_dtr_rts env p on) hh) <= 1)%nat).
  { intros on hh.
    destruct (xr_dtr_rts_one_write env p on hh Hmodel) as (e & -> & _).
    cbn. lia. }
  destruct (C_BAUD tty =? B0); [apply Hd|].
  destruct old_termios as [old|]; [|cbn; lia].
  destruct (Z.land (c_cflag old) CBAUD =? B0); [apply Hd | cbn; lia].
Qed.

(** XR21B142X, channel 4, hardware flow control, the device answering 0xff:
    what goes back to GPIO_MODE is 0xf9. *)
Lemma xr_set_flow_mode_gpio_mode_write_back_witness :
  exists front back n st b0 v,
    xr_mangle_reg (mk_port XR21B142X 4 0) (u8 0x0c) = Some n /\
    emitted (xr_set_flow_mode
               (mk_env (fun _ m => (wLength m, 0xff)) (fun _ => true)
                  (fun _ _ => 0) c_ospeed encode_baud)
               tty_9600_crtscts (mk_port XR21B142X 4 0) None) []
    = front ++ EvCtrl (set_reg_msg (mk_port XR21B142X 4 0) UART_REG_BLOCK
                         n v) st b0 :: back /\
    (length back <= 1)%nat /\
    0 <= v < 256 /\
    Z.land v 0xf8 = 0xf8 /\
    Z.land v 0x07 = 1.
Proof.
  apply (xr_set_flow_mode_gpio_mode_write_back
           (mk_env (fun _ m => (wLength m, 0xff)) (fun _ => true)
              (fun _ _ => 0) c_ospeed encode_baud)
           tty_9600_crtscts (mk_port XR21B142X 4 0) None []).
  reflexivity.
Defined.

(** X11. A flow-mode setting whose read succeeded ends in one of three ways.
    With the new baud B0 its last transfer writes 0x28 to GPIO_SET, dropping
    DTR and RTS.  With a new baud other than B0 and an old baud of B0 its
    last transfer writes 0x28 to GPIO_CLR, raising them.  Otherwise, and so
    when there is no old termios, the GPIO_MODE write-back is the last
    transfer and the lines are left alone. *)
Theorem xr_set_flow_mode_modem_lines (env : kernel_env) (tty : ktermios)
    (p : xr_port_private) (old_termios : option ktermios) (h : list event) :
  let rd := xr_get_reg_uart env p (xr_hal_table (model p) REG_GPIO_MODE)
              (uninit env L_flow_gpio_mode h) in
  fst (result rd h) = 0 ->
  exists front e,
    emitted (xr_set_flow_mode env tty p old_termios) h = front ++ [e] /\
    (C_BAUD tty = B0 -> is_reg_write_of p REG_GPIO_SET 0x28 e) /\
    (C_BAUD tty <> B0 ->
     forall old, old_termios = Some old ->
                 Z.land (c_cflag old) CBAUD = B0 ->
                 is_reg_write_of p REG_GPIO_CLR 0x28 e) /\
    (C_BAUD tty <> B0 ->
     (old_termios = None \/
      exists old, old_termios = Some old /\
                  Z.land (c_cflag old) CBAUD <> B0) ->
     is_reg_write_of p REG_GPIO_MODE
       (gpio_mode_value (snd (result rd h)) tty) e).
Proof.
  intros rd H0.
  pose proof (xr_get_reg_ok_model env p UART_REG_BLOCK
                (xr_hal_table (model p) REG_GPIO_MODE)
                (uninit env L_flow_gpio_mode h) h H0) as Hmodel.
  destruct (xr_set_flow_mode_tail env tty p old_termios h H0)
    as (front & n & st & b0 & Hn & E).
  fold rd in E. rewrite E. clear E.
  set (G := EvCtrl (set_reg_msg p UART_REG_BLOCK n
                      (gpio_mode_value (snd (result rd h)) tty)) st b0).
  assert (HG : is_reg_write_of p REG_GPIO_MODE
                 (gpio_mode_value (snd (result rd h)) tty) G)
    by (exists n, st, b0; split; [exact Hn | reflexivity]).
  destruct (C_BAUD tty =? B0) eqn:Hb.
  - apply Z.eqb_eq in Hb.
    destruct (xr_dtr_rts_one_write env p 0 ((h ++ front) ++ [G]) Hmodel)
      as (e & -> & _ & Hoff).
    exists (front ++ [G]), e. rewrite <- app_assoc.
    split; [reflexivity|]. split; [intros _; now apply Hoff|].
    split; intros Hne; contradiction.
  - apply Z.eqb_neq in Hb.
    destruct old_termios as [old|].
    + destruct (Z.land (c_cflag old) CBAUD =? B0) eqn:Ho.
      * apply Z.eqb_eq in Ho.
        destruct (xr_dtr_rts_one_write env p 1 ((h ++ front) ++ [G]) Hmodel)
          as (e & -> & Hon & _).
        exists (front ++ [G]), e. rewrite <- app_assoc.
        split; [reflexivity|]. split; [intros Hz; contradiction|].
        split.
        -- intros _ o Eo _. apply Hon. discriminate.
        -- intros _ [Hnone | (o & Eo & Hne)]; [discriminate|].
           injection Eo as <-. contradiction.
      * apply Z.eqb_neq in Ho.
        exists front, G. split; [reflexivity|].
        split; [intros Hz; contradiction|]. split.
        -- intros _ o Eo Hz. injection Eo as <-. contradiction.
        -- intros _ _. exact HG.
    + exists front, G. split; [reflexivity|].
      split; [intros Hz; contradiction|]. split.
      * intros _ o Eo. discriminate Eo.
      * intros _ _. exact HG.
Qed.

(** 9600 baud with no old termios on XR21V141X: the call ends with the
    GPIO_MODE write-back. *)
Lemma xr_set_flow_mode_modem_lines_witness :
  exists front e,
    emitted (xr_set_flow_mode env_ok tty_9600_crtscts
               (mk_port XR21V141X 1 0) None) [] = front ++ [e] /\
    is_reg_write_of (mk_port XR21V141X 1 0) REG_GPIO_MODE 1 e.
Proof.
  destruct (xr_set_flow_mode_modem_lines env_ok tty_9600_crtscts
              (mk_port XR21V141X 1 0) None [] eq_refl)
    as (front & e & E & _ & _ & Hmode).
  exists front, e. split; [exact E|].
  apply Hmode; [discriminate | now left].
Defined.

(** ** Class control layer and the CDC path *)

(** X12. [xr_usb_serial_ctrl_msg] never returns a positive value and never
    starts a transfer after a failed allocation.  Without a buffer
    ([len] 0) it allocates nothing and issues one class request; with one it
    allocates first.  The request goes to the control interface:
    [bmRequestType] 0x21, [wIndex] the interface number, [wLength] the
    length, sent on the receive pipe. *)
Theorem xr_usb_serial_ctrl_msg_outcome (env : kernel_env)
    (p : xr_port_private) (request val : Z) (buf : list Z) (len : Z)
    (h : list event) :
  let m := {| pipe_in := true; bRequest := u8 request;
              bmRequestType := 0x21; wValue := u16 val;
              wIndex := u16 (control_if p); wLength := u16 len;
              payload := buf |} in
  result (xr_usb_serial_ctrl_msg env p request val buf len) h <= 0 /\
  (len = 0 ->
   exists st b0,
     xr_usb_serial_ctrl_msg env p request val buf len h
     = (set_status st, [EvCtrl m st b0])) /\
  (len <> 0 ->
   xr_usb_serial_ctrl_msg env p request val buf len h
   = (- ENOMEM, [EvKmalloc false])
   \/
   exists st b0,
     xr_usb_serial_ctrl_msg env p request val buf len h
     = (set_status st, [EvKmalloc true; EvCtrl m st b0])).
Proof. apply xr_usb_serial_ctrl_msg_cases. Qed.

Lemma tiocmset_port_uart_mode_dtr_l (env : kernel_env) (p : xr_port_private)
    (clear : Z) :
  xr_tiocmset_port env p UART_MODE_DTR clear = xr_tiocmset_port env p 0 clear.
Proof.
  rewrite (xr_tiocmset_port_masked env p UART_MODE_DTR clear).
  rewrite (xr_tiocmset_port_masked env p 0 clear). reflexivity.
Qed.

Lemma tiocmset_port_uart_mode_dtr_r (env : kernel_env) (p : xr_port_private)
    (set : Z) :
  xr_tiocmset_port env p set UART_MODE_DTR = xr_tiocmset_port env p set 0.
Proof.
  rewrite (xr_tiocmset_port_masked env p set UART_MODE_DTR).
  rewrite (xr_tiocmset_port_masked env p set 0). reflexivity.
Qed.

(** The trace of the CDC path: the modem-control step, the flow-mode
    setting, the class request with the line coding. *)
Lemma xr_set_termios_cdc_trace (env : kernel_env) (tty : ktermios)
    (p : xr_port_private) (old_termios : option ktermios) (h : list event) :
  let rate0 := u32 (tty_get_baud_rate env tty) in
  let rate := if rate0 =? 0 then c_ospeed tty else rate0 in
  let gset := if rate0 =? 0 then uninit env L_cdc_set h else 0 in
  let gclear := if rate0 =? 0 then 0 else uninit env L_cdc_clear h in
  let T := emitted (xr_tiocmset_port env p gset gclear) h in
  let F := emitted (xr_set_flow_mode env tty p old_termios) (h ++ T) in
  emitted (xr_set_termios_cdc env tty p old_termios) h
  = T ++ F
    ++ emitted (xr_usb_serial_ctrl_msg env p USB_CDC_REQ_SET_LINE_CODING 0
                  (line_coding_bytes rate
                     (if negb (C_CSTOPB tty =? 0) then 1 else 0)
                     (if negb (C_PARENB tty =? 0)
                      then (if negb (C_PARODD tty =? 0) then 1 else 2)
                           + (if negb (C_CMSPAR tty =? 0) then 2 else 0)
                      else 0)
                     (if C_CSIZE tty =? CS5 then 5
                      else if C_CSIZE tty =? CS6 then 6
                      else if C_CSIZE tty =? CS7 then 7 else 8))
                  7)
         ((h ++ T) ++ F).
Proof.
  intros rate0 rate gset gclear T F.
  unfold xr_set_termios_cdc. cbv zeta. fold rate0.
  rewrite emitted_bind.
  change (emitted (read_uninit env L_cdc_set) h) with (@nil event).
  change (result (read_uninit env L_cdc_set) h) with (uninit env L_cdc_set h).
  rewrite app_nil_r. cbn [app].
  rewrite emitted_bind.
  change (emitted (read_uninit env L_cdc_clear) h) with (@nil event).
  change (result (read_uninit env L_cdc_clear) h)
    with (uninit env L_cdc_clear h).
  rewrite app_nil_r. cbn [app].
  subst T F gset gclear rate.
  destruct (rate0 =? 0).
  - change (negb (UART_MODE_DTR =? 0)) with true. cbn [orb].
    rewrite !emitted_bind. cbn [emitted ret snd].
    rewrite tiocmset_port_uart_mode_dtr_r.
    rewrite !app_nil_r, <- !app_assoc. reflexivity.
  - change (negb (UART_MODE_DTR =? 0)) with true. rewrite orb_true_r.
    rewrite !emitted_bind. cbn [emitted ret snd].
    rewrite tiocmset_port_uart_mode_dtr_l.
    rewrite !app_nil_r, <- !app_assoc. reflexivity.
Qed.

(** X13. On the CDC path the modem-control step never carries out the DTR
    change it sets up: the mask it assigns, [UART_MODE_DTR] (8), holds
    neither [TIOCM_DTR] nor [TIOCM_RTS], so the step is the call
    [xr_tiocmset_port] would make with 0 in its place, and what it writes
    comes from the uninitialised mask alone.  When that one holds neither
    bit, the step writes nothing and the call is the flow-mode setting
    followed by the class request. *)
Theorem xr_set_termios_cdc_modem_step (env : kernel_env) (tty : ktermios)
    (p : xr_port_private) (old_termios : option ktermios) (h : list event) :
  let rate0 := u32 (tty_get_baud_rate env tty) in
  let gset := if rate0 =? 0 then uninit env L_cdc_set h else 0 in
  let gclear := if rate0 =? 0 then 0 else uninit env L_cdc_clear h in
  let T := emitted (xr_tiocmset_port env p gset gclear) h in
  (exists rest,
     emitted (xr_set_termios_cdc env tty p old_termios) h
     = T ++ emitted (xr_set_flow_mode env tty p old_termios) (h ++ T)
         ++ rest /\
     Forall (fun e => ~ is_vendor_write e) rest) /\
  (Z.land (uninit env L_cdc_set h) (Z.lor TIOCM_DTR TIOCM_RTS) = 0 ->
   Z.land (uninit env L_cdc_clear h) (Z.lor TIOCM_DTR TIOCM_RTS) = 0 ->
   T = []).
Proof.
  intros rate0 gset gclear T. split.
  - eexists. split; [apply xr_set_termios_cdc_trace|].
    apply xr_usb_serial_ctrl_msg_emits_no_write.
  - intros Hs Hc. subst T gset gclear. unfold emitted.
    rewrite xr_tiocmset_port_masked.
    destruct (rate0 =? 0); [rewrite Hs | rewrite Hc]; reflexivity.
Qed.

(** XR21B1411 at 9600 baud, the uninitialised masks holding 0: no modem
    line is written although a DTR assertion was set up. *)
Lemma xr_set_termios_cdc_modem_step_witness :
  emitted (xr_tiocmset_port env_ok (mk_port XR21B1411 1 0) 0 0) [] = [] /\
  map (fun e => match e with
                | EvCtrl m _ _ => (bmRequestType m, wIndex m, wValue m)
                | EvKmalloc _ => (-1, -1, -1)
                end)
      (emitted (xr_set_termios_cdc env_ok tty_9600_crtscts
                  (mk_port XR21B1411 1 0) None) [])
  = [(-1, -1, -1); (0xC0, 0x0c, 0);
     (0x40, 0x00, 0); (0x40, 0x06, 1); (0x40, 0x00, 3); (0x40, 0x0c, 1);
     (-1, -1, -1); (0x21, 0, 0)].
Proof.
  split.
  - apply (proj2 (xr_set_termios_cdc_modem_step env_ok tty_9600_crtscts
                    (mk_port XR21B1411 1 0) None [])); reflexivity.
  - vm_compute. reflexivity.
Defined.

(** *** Vendor requests and class requests *)

Lemma vendor_write_not_class_request (e : event) :
  is_vendor_write e -> ~ is_class_request e.
Proof.
  destruct e as [ok|m st b0]; cbn; [tauto|].
  intros [_ Hb] Hc. rewrite Hb in Hc. discriminate Hc.
Qed.

Lemma emits_writes_no_class_request {A} (m : M A) :
  emits_only is_vendor_write m ->
  emits_only (fun e => ~ is_class_request e) m.
Proof. apply emits_only_weaken, vendor_write_not_class_request. Qed.

Lemma xr_get_reg_no_class_request (env : kernel_env) (p : xr_port_private)
    (block reg val : Z) :
  emits_only (fun e => ~ is_class_request e) (xr_get_reg env p block reg val).
Proof.
  intros h. unfold emitted.
  destruct (xr_get_reg_cases env p block reg val h)
    as [[_ E] | [(_ & _ & E) | (r & st & b0 & _ & _ & _ & C)]].
  - rewrite E. cbn [snd]. repeat (apply Forall_cons || apply Forall_nil).
    intros [].
  - rewrite E. cbn [snd]. repeat (apply Forall_cons || apply Forall_nil).
    intros [].
  - destruct C as [[_ E] | [[_ E] | (_ & _ & E)]]; rewrite E; cbn [snd];
      repeat (apply Forall_cons || apply Forall_nil);
      cbn [is_class_request get_reg_msg bmRequestType]; intros H;
      try discriminate H; destruct H.
Qed.

Lemma xr_set_flow_mode_no_class_request (env : kernel_env) (tty : ktermios)
    (p : xr_port_private) (old_termios : option ktermios) :
  emits_only (fun e => ~ is_class_request e)
    (xr_set_flow_mode env tty p old_termios).
Proof.
  assert (Hw : forall reg val,
             emits_only (fun e => ~ is_class_request e)
               (xr_set_reg_uart env p reg val)).
  { intros. apply emits_writes_no_class_request,
      xr_set_reg_uart_emits_writes. }
  assert (Hd : forall on,
             emits_only (fun e => ~ is_class_request e)
               (xr_dtr_rts env p on)).
  { intros. apply emits_writes_no_class_request, xr_dtr_rts_emits_writes. }
  pose proof (emits_writes_no_class_request _
                (xr_uart_disable_emits_writes env p)) as Hdis.
  pose proof (emits_writes_no_class_request _
                (xr_uart_enable_emits_writes env p)) as Hen.
  unfold xr_set_flow_mode.
  apply emits_only_bind; [apply emits_only_read_uninit | intros g0].
  apply emits_only_bind;
    [apply xr_get_reg_no_class_request | intros [rc gpio_mode]].
  cbv zeta.
  repeat (apply emits_only_ret || apply Hw || apply Hd || apply Hdis
          || apply Hen || apply emits_only_if
          || (apply emits_only_bind; [|intros ?])
          || match goal with
             | |- emits_only _ (let (_, _) := ?x in _) => destruct x
             | |- emits_only _ (match ?x with Some _ => _ | None => _ end) =>
                 destruct x
             end).
Qed.

Lemma le32_round_trip (r : Z) :
  0 <= r < 2 ^ 32 ->
  Z.land r 0xff + 256 * Z.land (Z.shiftr r 8) 0xff
  + 65536 * Z.land (Z.shiftr r 16) 0xff
  + 16777216 * Z.land (Z.shiftr r 24) 0xff = r.
Proof.
  intros Hr. change 0xff with (Z.ones 8).
  rewrite !Z.land_ones, !Z.shiftr_div_pow2 by lia.
  change (2 ^ 8) with 256. change (2 ^ 16) with (256 * 256).
  change (2 ^ 24) with (256 * 256 * 256).
  change (2 ^ 32) with (256 * 256 * 256 * 256) in Hr.
  rewrite <- !Z.div_div by lia.
  change 65536 with (256 * 256). change 16777216 with (256 * 256 * 256).
  generalize (Z.div_mod r 256 ltac:(lia)).
  generalize (Z.div_mod (r / 256) 256 ltac:(lia)).
  generalize (Z.div_mod (r / 256 / 256) 256 ltac:(lia)).
  assert (H4 : (r / 256 / 256 / 256) mod 256 = r / 256 / 256 / 256).
  { apply Z.mod_small. split.
    - repeat apply Z.div_pos; lia.
    - repeat (apply Z.div_lt_upper_bound; [lia|]). lia. }
  rewrite H4.
  generalize (r mod 256) ((r / 256) mod 256) ((r / 256 / 256) mod 256).
  generalize (r / 256 / 256 / 256). intros q3 m0 m1 m2.
  generalize (r / 256 / 256). intros q2. generalize (r / 256). intros q1.
  lia.
Qed.

Lemma land_0xff_range (x : Z) : 0 <= Z.land x 0xff < 256.
Proof.
  change 0xff with (Z.ones 8). rewrite Z.land_ones by lia.
  change (2 ^ 8) with 256. apply Z.mod_pos_bound. lia.
Qed.

(** The last events of [xr_set_termios_cdc] and the payload they carry. *)
Lemma xr_set_termios_cdc_ends_with_line_coding (env : kernel_env) (tty : ktermios)
    (p : xr_port_private) (old_termios : option ktermios) (h : list event) :
  let rate0 := u32 (tty_get_baud_rate env tty) in
  let rate := if rate0 =? 0 then c_ospeed tty else rate0 in
  exists front b0 b1 b2 b3 fmt par bits,
    let m := {| pipe_in := true; bRequest := 0x20; bmRequestType := 0x21;
                wValue := 0; wIndex := u16 (control_if p); wLength := 7;
                payload := [b0; b1; b2; b3; fmt; par; bits] |} in
    (emitted (xr_set_termios_cdc env tty p old_termios) h
     = front ++ [EvKmalloc false]
     \/
     exists st r0,
       emitted (xr_set_termios_cdc env tty p old_termios) h
       = front ++ [EvKmalloc true; EvCtrl m st r0]) /\
    Forall (fun e => ~ is_class_request e) front /\
    Forall (fun b => 0 <= b < 256) [b0; b1; b2; b3; fmt; par; bits] /\
    (0 <= rate < 2 ^ 32 ->
     b0 + 256 * b1 + 65536 * b2 + 16777216 * b3 = rate) /\
    fmt = (if C_CSTOPB tty =? 0 then 0 else 1) /\
    par = (if C_PARENB tty =? 0 then 0
           else if C_CMSPAR tty =? 0
                then (if C_PARODD tty =? 0 then 2 else 1)
                else (if C_PARODD tty =? 0 then 4 else 3)) /\
    bits = (if C_CSIZE tty =? CS5 then 5
            else if C_CSIZE tty =? CS6 then 6
            else if C_CSIZE tty =? CS7 then 7 else 8).
Proof.
  intros rate0 rate.
  pose proof (xr_set_termios_cdc_trace env tty p old_termios h) as E.
  cbv zeta in E. fold rate0 in E. fold rate in E.
  set (T := emitted (xr_tiocmset_port env p
                       (if rate0 =? 0 then uninit env L_cdc_set h else 0)
                       (if rate0 =? 0 then 0 else uninit env L_cdc_clear h))
              h) in E.
  set (F := emitted (xr_set_flow_mode env tty p old_termios) (h ++ T)) in E.
  set (fmt := if negb (C_CSTOPB tty =? 0) then 1 else 0) in E.
  set (par := if negb (C_PARENB tty =? 0)
              then (if negb (C_PARODD tty =? 0) then 1 else 2)
                   + (if negb (C_CMSPAR tty =? 0) then 2 else 0)
              else 0) in E.
  set (bits := if C_CSIZE tty =? CS5 then 5
               else if C_CSIZE tty =? CS6 then 6
               else if C_CSIZE tty =? CS7 then 7 else 8) in E.
  assert (Hfmt : fmt = 0 \/ fmt = 1).
  { subst fmt. destruct (C_CSTOPB tty =? 0); cbn; auto. }
  assert (Hpar : 0 <= par <= 4).
  { subst par. destruct (C_PARENB tty =? 0), (C_PARODD tty =? 0),
      (C_CMSPAR tty =? 0); cbn; lia. }
  assert (Hbits : 5 <= bits <= 8).
  { subst bits. destruct (C_CSIZE tty =? CS5), (C_CSIZE tty =? CS6),
      (C_CSIZE tty =? CS7); lia. }
  exists (T ++ F), (Z.land rate 0xff), (Z.land (Z.shiftr rate 8) 0xff),
    (Z.land (Z.shiftr rate 16) 0xff), (Z.land (Z.shiftr rate 24) 0xff),
    fmt, par, bits.
  cbv zeta. split; [|split; [|split; [|split; [|split; [|split]]]]].
  - rewrite E. unfold line_coding_bytes.
    rewrite (u8_small fmt), (u8_small par), (u8_small bits) by lia.
    unfold emitted.
    destruct (xr_usb_serial_ctrl_msg_cases env p USB_CDC_REQ_SET_LINE_CODING
                0 [Z.land rate 0xff; Z.land (Z.shiftr rate 8) 0xff;
                   Z.land (Z.shiftr rate 16) 0xff;
                   Z.land (Z.shiftr rate 24) 0xff; fmt; par; bits] 7
                ((h ++ T) ++ F)) as (_ & _ & Hc).
    destruct (Hc ltac:(lia)) as [Ec | (st & r0 & Ec)]; rewrite Ec; cbn [snd].
    + left. now rewrite app_assoc.
    + right. exists st, r0. now rewrite app_assoc.
  - apply Forall_app. split.
    + subst T. eapply Forall_impl;
        [|apply (xr_tiocmset_port_emits_writes env p _ _ h)].
      intros [ok|m st r0]; cbn; [tauto|]. intros [_ Hb] Hc. rewrite Hb in Hc.
      discriminate.
    + subst F. apply xr_set_flow_mode_no_class_request.
  - repeat (apply Forall_cons || apply Forall_nil);
      try apply land_0xff_range; lia.
  - apply le32_round_trip.
  - subst fmt. now destruct (C_CSTOPB tty =? 0).
  - subst par. now destruct (C_PARENB tty =? 0), (C_PARODD tty =? 0),
      (C_CMSPAR tty =? 0).
  - reflexivity.
Qed.

(** X14. [xr_set_termios_cdc] ends with the SET_LINE_CODING attempt: after
    the allocation, one class request (0x20) to the control interface with
    a seven-byte payload.  The first four bytes are the rate, low byte
    first, and read back as the rate: the one [tty_get_baud_rate] gives, or
    [c_ospeed] when that is 0.  Then the stop-bit code (1 under CSTOPB,
    else 0), the parity code (0 none, 1 odd, 2 even, 3 mark, 4 space) and
    the data bits (5 to 8).  If the allocation fails nothing is sent. *)
Theorem xr_set_termios_cdc_line_coding (env : kernel_env) (tty : ktermios)
    (p : xr_port_private) (old_termios : option ktermios) (h : list event) :
  let rate0 := u32 (tty_get_baud_rate env tty) in
  let rate := if rate0 =? 0 then c_ospeed tty else rate0 in
  exists front b0 b1 b2 b3 fmt par bits,
    let m := {| pipe_in := true; bRequest := 0x20; bmRequestType := 0x21;
                wValue := 0; wIndex := u16 (control_if p); wLength := 7;
                payload := [b0; b1; b2; b3; fmt; par; bits] |} in
    (emitted (xr_set_termios_cdc env tty p old_termios) h
     = front ++ [EvKmalloc false]
     \/
     exists st r0,
       emitted (xr_set_termios_cdc env tty p old_termios) h
       = front ++ [EvKmalloc true; EvCtrl m st r0]) /\
    Forall (fun e => ~ is_class_request e) front /\
    Forall (fun b => 0 <= b < 256) [b0; b1; b2; b3; fmt; par; bits] /\
    (0 <= rate < 2 ^ 32 ->
     b0 + 256 * b1 + 65536 * b2 + 16777216 * b3 = rate) /\
    fmt = (if C_CSTOPB tty =? 0 then 0 else 1) /\
    par = (if C_PARENB tty =? 0 then 0
           else if C_CMSPAR tty =? 0
                then (if C_PARODD tty =? 0 then 2 else 1)
                else (if C_PARODD tty =? 0 then 4 else 3)) /\
    bits = (if C_CSIZE tty =? CS5 then 5
            else if C_CSIZE tty =? CS6 then 6
            else if C_CSIZE tty =? CS7 then 7 else 8).
Proof. apply xr_set_termios_cdc_ends_with_line_coding. Qed.

(** ** The FORMAT register *)

(** Clearing CSIZE in [c_cflag] and putting other CSIZE bits in leaves
    every flag outside CSIZE as it was. *)
Lemma restore_csize_keeps_flag (c extra m : Z) :
  0 <= m < 2 ^ 32 -> Z.land m CSIZE = 0 -> Z.land extra m = 0 ->
  Z.land (Z.lor (u32 (Z.land c (Z.lnot CSIZE))) extra) m = Z.land c m.
Proof.
  intros Hm Hc He. apply Z.bits_inj'. intros n Hn.
  assert (Hc' : Z.testbit (Z.land m CSIZE) n = false)
    by (rewrite Hc; apply Z.bits_0).
  assert (He' : Z.testbit (Z.land extra m) n = false)
    by (rewrite He; apply Z.bits_0).
  assert (Hr : 32 <= n -> Z.testbit m n = false).
  { intros Hn'. destruct (Z.eq_dec m 0) as [->|Hz]; [apply Z.bits_0|].
    apply Z.bits_above_log2; [lia|].
    apply Z.lt_le_trans with 32; [|exact Hn'].
    apply Z.log2_lt_pow2; lia. }
  unfold u32. rewrite <- Z.land_ones by lia.
  rewrite Z.land_spec in Hc', He'.
  rewrite !Z.land_spec, Z.lor_spec, !Z.land_spec, Z.lnot_spec by lia.
  rewrite Z.testbit_ones_nonneg by lia.
  destruct (Z.ltb_spec n 32) as [Hlt|Hge].
  - destruct (Z.testbit c n), (Z.testbit m n), (Z.testbit CSIZE n),
      (Z.testbit extra n); cbn in *; congruence.
  - rewrite (Hr Hge). now rewrite !andb_false_r.
Qed.

Lemma restore_csize_field (c o : Z) :
  Z.land (Z.lor (u32 (Z.land c (Z.lnot CSIZE))) (Z.land o CSIZE)) CSIZE
  = Z.land o CSIZE.
Proof.
  apply Z.bits_inj'. intros n Hn.
  unfold u32. rewrite <- Z.land_ones by lia.
  rewrite !Z.land_spec, Z.lor_spec, !Z.land_spec, Z.lnot_spec by lia.
  destruct (Z.testbit c n), (Z.testbit CSIZE n), (Z.testbit o n),
    (Z.testbit (Z.ones 32) n); reflexivity.
Qed.

Lemma clear_csize_field (c : Z) :
  Z.land (u32 (Z.land c (Z.lnot CSIZE))) CSIZE = 0.
Proof.
  apply Z.bits_inj'. intros n Hn.
  unfold u32. rewrite <- Z.land_ones by lia.
  rewrite !Z.land_spec, Z.lnot_spec, Z.bits_0 by lia.
  destruct (Z.testbit c n), (Z.testbit CSIZE n),
    (Z.testbit (Z.ones 32) n); reflexivity.
Qed.

(** A bind whose first computation is known. *)
Lemma bind_run_eq {A B} (m : M A) (f : A -> M B) (h : list event)
    (a : A) (ev : list event) :
  m h = (a, ev) ->
  bind m f h = (fst (f a (h ++ ev)), ev ++ snd (f a (h ++ ev))).
Proof. intros E. rewrite bind_run, E. reflexivity. Qed.

(** The tail of [xr_set_termios_format_reg]: the FORMAT write, then the
    flow-mode setting. *)
Lemma format_reg_tail (env : kernel_env) (p : xr_port_private)
    (old_termios : option ktermios) (tty' : ktermios) (bits n : Z)
    (h : list event) :
  xr_mangle_reg p (u8 (xr_hal_table (model p) REG_FORMAT)) = Some n ->
  let m := set_reg_msg p UART_REG_BLOCK n bits in
  let w := EvCtrl m (fst (usb_control_msg env h m))
             (snd (usb_control_msg env h m)) in
  bind (xr_set_reg_uart env p (xr_hal_table (model p) REG_FORMAT) bits)
    (fun _ => bind (xr_set_flow_mode env tty' p old_termios)
                (fun _ => ret tty')) h
  = (tty', w :: emitted (xr_set_flow_mode env tty' p old_termios) (h ++ [w])).
Proof.
  intros Hn m w. unfold xr_set_reg_uart.
  rewrite (bind_xr_set_reg_some env p UART_REG_BLOCK _ bits n _ h Hn).
  fold m. fold w. rewrite bind_run. cbn [ret fst snd].
  rewrite app_nil_r. reflexivity.
Qed.

Lemma clear_csize_keeps_flag (c m : Z) :
  0 <= m < 2 ^ 32 -> Z.land m CSIZE = 0 ->
  Z.land (u32 (Z.land c (Z.lnot CSIZE))) m = Z.land c m.
Proof.
  intros Hm Hc.
  rewrite <- (Z.lor_0_r (u32 (Z.land c (Z.lnot CSIZE)))).
  now apply restore_csize_keeps_flag.
Qed.

(** The FORMAT byte for a data-bits field [bits0] already chosen, when the
    parity and stop flags of [tty0] are those of [tty1]. *)
Lemma format_reg_finish (env : kernel_env) (p : xr_port_private)
    (old_termios : option ktermios) (tty1 tty0 : ktermios) (bits0 n : Z)
    (h : list event) :
  xr_mangle_reg p (u8 (xr_hal_table (model p) REG_FORMAT)) = Some n ->
  C_PARENB tty0 = C_PARENB tty1 -> C_CMSPAR tty0 = C_CMSPAR tty1 ->
  C_PARODD tty0 = C_PARODD tty1 -> C_CSTOPB tty0 = C_CSTOPB tty1 ->
  bits0 = 0 \/ bits0 = 7 \/ bits0 = 8 ->
  let parity := if C_PARENB tty1 =? 0 then 0
                else if C_CMSPAR tty1 =? 0
                     then (if C_PARODD tty1 =? 0 then 2 else 1)
                     else (if C_PARODD tty1 =? 0 then 4 else 3) in
  let stop := if C_CSTOPB tty1 =? 0 then 0 else 1 in
  let m := set_reg_msg p UART_REG_BLOCK n (bits0 + 16 * parity + 128 * stop) in
  let w := EvCtrl m (fst (usb_control_msg env h m))
             (snd (usb_control_msg env h m)) in
  bind (xr_set_reg_uart env p (xr_hal_table (model p) REG_FORMAT)
          (if negb (C_CSTOPB tty0 =? 0)
           then
             u8 (Z.lor
                   (if negb (C_PARENB tty0 =? 0)
                    then
                      if negb (C_CMSPAR tty0 =? 0)
                      then
                        if negb (C_PARODD tty0 =? 0)
                        then u8 (Z.lor bits0 UART_PARITY_MARK)
                        else u8 (Z.lor bits0 UART_PARITY_SPACE)
                      else
                        if negb (C_PARODD tty0 =? 0)
                        then u8 (Z.lor bits0 UART_PARITY_ODD)
                        else u8 (Z.lor bits0 UART_PARITY_EVEN)
                    else bits0)
                   UART_STOP_2)
           else
             u8 (Z.lor
                   (if negb (C_PARENB tty0 =? 0)
                    then
                      if negb (C_CMSPAR tty0 =? 0)
                      then
                        if negb (C_PARODD tty0 =? 0)
                        then u8 (Z.lor bits0 UART_PARITY_MARK)
                        else u8 (Z.lor bits0 UART_PARITY_SPACE)
                      else
                        if negb (C_PARODD tty0 =? 0)
                        then u8 (Z.lor bits0 UART_PARITY_ODD)
                        else u8 (Z.lor bits0 UART_PARITY_EVEN)
                    else bits0)
                   UART_STOP_1)))
    (fun _ => bind (xr_set_flow_mode env tty0 p old_termios)
                (fun _ => ret tty0)) h
  = (tty0, w :: emitted (xr_set_flow_mode env tty0 p old_termios) (h ++ [w])).
Proof.
  intros Hn H1 H2 H3 H4 Hb parity stop m w.
  rewrite (format_reg_tail env p old_termios tty0 _ n h Hn). cbv zeta.
  rewrite H1, H2, H3, H4.
  match goal with
  | |- context [set_reg_msg p UART_REG_BLOCK n ?v] =>
      assert (VE : v = bits0 + 16 * parity + 128 * stop)
  end.
  { subst parity stop.
    destruct (C_CSTOPB tty1 =? 0), (C_PARENB tty1 =? 0),
      (C_CMSPAR tty1 =? 0), (C_PARODD tty1 =? 0);
      destruct Hb as [-> | [-> | ->]]; reflexivity. }
  rewrite VE. reflexivity.
Qed.

Lemma format_reg_run (env : kernel_env) (tty : ktermios)
    (p : xr_port_private) (old_termios : option ktermios) (h : list event) :
  model p <> MAX_XR_MODELS ->
  let set_baud := match old_termios with
                  | None => true
                  | Some old => negb (c_ospeed tty =? c_ospeed old)
                  end in
  let B := if set_baud then emitted (xr_set_baudrate env tty p) h else [] in
  let tty1 := if set_baud then snd (result (xr_set_baudrate env tty p) h)
              else tty in
  let unsupported := (C_CSIZE tty1 =? CS5) || (C_CSIZE tty1 =? CS6) in
  let data := if unsupported
              then match old_termios with Some _ => 0 | None => 8 end
              else if C_CSIZE tty1 =? CS7 then 7 else 8 in
  let parity := if C_PARENB tty1 =? 0 then 0
                else if C_CMSPAR tty1 =? 0
                     then (if C_PARODD tty1 =? 0 then 2 else 1)
                     else (if C_PARODD tty1 =? 0 then 4 else 3) in
  let stop := if C_CSTOPB tty1 =? 0 then 0 else 1 in
  let tty2 := if unsupported
              then set_c_cflag tty1
                     match old_termios with
                     | Some old =>
                         Z.lor (u32 (Z.land (c_cflag tty1) (Z.lnot CSIZE)))
                           (Z.land (c_cflag old) CSIZE)
                     | None => u32 (Z.land (c_cflag tty1) (Z.lnot CSIZE))
                     end
              else tty1 in
  exists n st b0,
    xr_mangle_reg p (u8 (xr_hal_table (model p) REG_FORMAT)) = Some n /\
    let w := EvCtrl (set_reg_msg p UART_REG_BLOCK n
                       (data + 16 * parity + 128 * stop)) st b0 in
    xr_set_termios_format_reg env tty p old_termios h
    = (tty2,
       B ++ w :: emitted (xr_set_flow_mode env tty2 p old_termios)
                   (h ++ B ++ [w])).
Proof.
  intros Hm set_baud B tty1 unsupported data parity stop tty2.
  destruct (xr_mangle_reg_some p (u8 (xr_hal_table (model p) REG_FORMAT)) Hm)
    as [n Hn].
  assert (E1 : match old_termios with
               | Some old =>
                   if negb (c_ospeed tty =? c_ospeed old)
                   then r <- xr_set_baudrate env tty p ;; ret (snd r)
                   else ret tty
               | None => r <- xr_set_baudrate env tty p ;; ret (snd r)
               end h = (tty1, B)).
  { subst tty1 B set_baud. unfold result, emitted.
    destruct old_termios as [old|];
      [destruct (negb (c_ospeed tty =? c_ospeed old)); [|reflexivity]|];
      rewrite bind_run; cbn [ret fst snd]; now rewrite app_nil_r. }
  clearbody tty1 B. clear set_baud.
  unfold xr_set_termios_format_reg. cbv zeta.
  rewrite (bind_run_eq _ _ h tty1 B E1).
  assert (Hs : forall o m, 0 <= m < 2 ^ 32 -> Z.land m CSIZE = 0 ->
               Z.land (c_cflag (set_c_cflag tty1
                         (Z.lor (u32 (Z.land (c_cflag tty1) (Z.lnot CSIZE)))
                            (Z.land o CSIZE)))) m
               = Z.land (c_cflag tty1) m).
  { intros o m H1 H2. cbn [set_c_cflag c_cflag].
    apply restore_csize_keeps_flag; [exact H1 | exact H2 |].
    rewrite <- Z.land_assoc, (Z.land_comm CSIZE m), H2. apply Z.land_0_r. }
  assert (Hc : forall m, 0 <= m < 2 ^ 32 -> Z.land m CSIZE = 0 ->
               Z.land (c_cflag (set_c_cflag tty1
                         (u32 (Z.land (c_cflag tty1) (Z.lnot CSIZE))))) m
               = Z.land (c_cflag tty1) m).
  { intros m H1 H2. cbn [set_c_cflag c_cflag].
    now apply clear_csize_keeps_flag. }
  subst tty2 data parity stop unsupported.
  destruct ((C_CSIZE tty1 =? CS5) || (C_CSIZE tty1 =? CS6));
    [destruct old_termios as [old|] | destruct (C_CSIZE tty1 =? CS7)];
    cbv iota beta;
    (rewrite (format_reg_finish env p _ tty1 _ _ n (h ++ B) Hn);
     [ cbv zeta; cbn [fst snd]; eexists n, _, _; split; [exact Hn|];
       cbv zeta; rewrite <- !app_assoc; reflexivity
     | try reflexivity; unfold C_PARENB, C_CMSPAR, C_PARODD, C_CSTOPB;
       (apply Hs || apply Hc); (split; [discriminate | reflexivity])
       || reflexivity .. 
     | cbn; auto ]).
Qed.

(** X15. [xr_set_termios_format_reg] programs the baud rate only when there
    is no old termios or the speed changed, then writes one FORMAT byte:
    data bits in the low nibble, the parity code (0 none, 1 odd, 2 even,
    3 mark, 4 space) from bit 4, the stop bit in bit 7; the flow-mode
    setting follows.  For CS7 the data field is 7, for CS8 it is 8.  For
    CS5 and CS6 the termios gets the old CSIZE back, but the data field
    written is 0 when there is an old termios, and 8 when there is none, in
    which case the termios is left at CS5. *)
Theorem xr_set_termios_format_reg_byte (env : kernel_env) (tty : ktermios)
    (p : xr_port_private) (old_termios : option ktermios) (h : list event) :
  model p <> MAX_XR_MODELS ->
  let set_baud := match old_termios with
                  | None => true
                  | Some old => negb (c_ospeed tty =? c_ospeed old)
                  end in
  let B := if set_baud then emitted (xr_set_baudrate env tty p) h else [] in
  let tty1 := if set_baud then snd (result (xr_set_baudrate env tty p) h)
              else tty in
  let unsupported := (C_CSIZE tty1 =? CS5) || (C_CSIZE tty1 =? CS6) in
  let data := if unsupported
              then match old_termios with Some _ => 0 | None => 8 end
              else if C_CSIZE tty1 =? CS7 then 7 else 8 in
  let parity := if C_PARENB tty1 =? 0 then 0
                else if C_CMSPAR tty1 =? 0
                     then (if C_PARODD tty1 =? 0 then 2 else 1)
                     else (if C_PARODD tty1 =? 0 then 4 else 3) in
  let stop := if C_CSTOPB tty1 =? 0 then 0 else 1 in
  let tty2 := result (xr_set_termios_format_reg env tty p old_termios) h in
  (exists n st b0,
     xr_mangle_reg p (u8 (xr_hal_table (model p) REG_FORMAT)) = Some n /\
     let w := EvCtrl (set_reg_msg p UART_REG_BLOCK n
                        (data + 16 * parity + 128 * stop)) st b0 in
     emitted (xr_set_termios_format_reg env tty p old_termios) h
     = B ++ w :: emitted (xr_set_flow_mode env tty2 p old_termios)
                   (h ++ B ++ [w])) /\
  C_CSIZE tty2 = (if unsupported
                  then match old_termios with
                       | Some old => C_CSIZE old
                       | None => CS5
                       end
                  else C_CSIZE tty1) /\
  (unsupported = false -> tty2 = tty1) /\
  C_PARENB tty2 = C_PARENB tty1 /\ C_PARODD tty2 = C_PARODD tty1 /\
  C_CMSPAR tty2 = C_CMSPAR tty1 /\ C_CSTOPB tty2 = C_CSTOPB tty1.
Proof.
  intros Hm set_baud B tty1 unsupported data parity stop tty2.
  pose proof (format_reg_run env tty p old_termios h Hm) as R.
  cbv zeta in R. fold set_baud in R. fold B in R. fold tty1 in R.
  fold unsupported in R. fold data in R. fold parity in R. fold stop in R.
  destruct R as (n & st & b0 & Hn & E).
  assert (T2 : tty2 = fst (xr_set_termios_format_reg env tty p old_termios h))
    by reflexivity.
  rewrite E in T2. cbn [fst] in T2.
  split.
  { exists n, st, b0. split; [exact Hn|]. cbv zeta. unfold emitted at 1.
    rewrite E. cbn [snd]. rewrite T2. reflexivity. }
  clear E. clearbody tty2 tty1. subst tty2. subst unsupported.
  assert (Hs : forall o m, 0 <= m < 2 ^ 32 -> Z.land m CSIZE = 0 ->
               Z.land (Z.lor (u32 (Z.land (c_cflag tty1) (Z.lnot CSIZE)))
                         (Z.land o CSIZE)) m
               = Z.land (c_cflag tty1) m).
  { intros o m H1 H2.
    apply restore_csize_keeps_flag; [exact H1 | exact H2 |].
    rewrite <- Z.land_assoc, (Z.land_comm CSIZE m), H2. apply Z.land_0_r. }
  destruct ((C_CSIZE tty1 =? CS5) || (C_CSIZE tty1 =? CS6)).
  - unfold C_CSIZE, C_PARENB, C_PARODD, C_CMSPAR, C_CSTOPB.
    destruct old_termios as [old|]; cbn [set_c_cflag c_cflag].
    + rewrite restore_csize_field.
      repeat split; try discriminate;
        apply Hs; (split; [discriminate | reflexivity]) || reflexivity.
    + rewrite clear_csize_field.
      repeat split; try discriminate;
        apply clear_csize_keeps_flag;
        (split; [discriminate | reflexivity]) || reflexivity.
  - repeat split; reflexivity.
Qed.

(** XR21V141X channel 1, CS6 with odd parity asked for on top of a CS8
    termios at the same speed: the FORMAT byte holds parity code 1 and a
    data field of 0. *)
Lemma xr_set_termios_format_reg_byte_witness :
  exists st b0 rest,
    emitted (xr_set_termios_format_reg env_ok
               (mk_termios 0 0x310 [] 9600 9600)
               (mk_port XR21V141X 1 0)
               (Some (mk_termios 0 0x30 [] 9600 9600))) []
    = EvCtrl (set_reg_msg (mk_port XR21V141X 1 0) UART_REG_BLOCK 0x0b 0x10)
        st b0 :: rest /\
    C_CSIZE (result (xr_set_termios_format_reg env_ok
                       (mk_termios 0 0x310 [] 9600 9600)
                       (mk_port XR21V141X 1 0)
                       (Some (mk_termios 0 0x30 [] 9600 9600))) [])
    = CS8.
Proof.
  destruct (xr_set_termios_format_reg_byte env_ok
              (mk_termios 0 0x310 [] 9600 9600)
              (mk_port XR21V141X 1 0)
              (Some (mk_termios 0 0x30 [] 9600 9600)) [])
    as ((n & st & b0 & Hn & E) & Hc & _); [discriminate|].
  cbv zeta in E. injection Hn as <-.
  exists st, b0. eexists. split; [exact E | exact Hc].
Defined.

(** ** Which models get the class request *)

Lemma xr_set_termios_format_reg_no_class_request (env : kernel_env)
    (tty : ktermios) (p : xr_port_private) (old_termios : option ktermios) :
  emits_only (fun e => ~ is_class_request e)
    (xr_set_termios_format_reg env tty p old_termios).
Proof.
  pose proof (emits_writes_no_class_request _
                (xr_set_baudrate_emits_writes env tty p)) as Hb.
  assert (Hw : forall reg val,
             emits_only (fun e => ~ is_class_request e)
               (xr_set_reg_uart env p reg val)).
  { intros. apply emits_writes_no_class_request,
      xr_set_reg_uart_emits_writes. }
  unfold xr_set_termios_format_reg. cbv zeta.
  apply emits_only_bind.
  - destruct old_termios as [old|];
      repeat (apply emits_only_ret || apply Hb || apply emits_only_if
              || (apply emits_only_bind; [|intros ?])).
  - intros tty1.
    destruct ((C_CSIZE tty1 =? CS5) || (C_CSIZE tty1 =? CS6));
      [destruct old_termios as [old|] | destruct (C_CSIZE tty1 =? CS7)];
      cbv iota beta;
      repeat (apply emits_only_ret || apply Hw
              || apply xr_set_flow_mode_no_class_request
              || (apply emits_only_bind; [|intros ?])).
Qed.

(** X16. [xr_set_termios] sends a class request only to the models whose
    FORMAT entry is [VIA_CDC_REGISTER].  On XR2280X and XR21V141X nothing it
    emits is a class request.  On XR21B1411 and XR21B142X it ends with the
    SET_LINE_CODING attempt: a failed allocation, or an allocation and the
    class request 0x20 with [wLength] 7, and nothing before that is a class
    request. *)
Theorem xr_set_termios_class_request (env : kernel_env) (tty : ktermios)
    (p : xr_port_private) (old_termios : option ktermios) (h : list event) :
  (model p = XR2280X \/ model p = XR21V141X ->
   Forall (fun e => ~ is_class_request e)
     (emitted (xr_set_termios env tty p old_termios) h)) /\
  (model p = XR21B1411 \/ model p = XR21B142X ->
   exists front,
     Forall (fun e => ~ is_class_request e) front /\
     (emitted (xr_set_termios env tty p old_termios) h
      = front ++ [EvKmalloc false]
      \/
      exists m st b0,
        emitted (xr_set_termios env tty p old_termios) h
        = front ++ [EvKmalloc true; EvCtrl m st b0] /\
        bmRequestType m = 0x21 /\ bRequest m = 0x20 /\ wLength m = 7 /\
        wIndex m = u16 (control_if p) /\ length (payload m) = 7%nat)).
Proof.
  split.
  - intros Hm.
    assert (E : xr_set_termios env tty p old_termios
                = xr_set_termios_format_reg env tty p old_termios).
    { unfold xr_set_termios. destruct Hm as [-> | ->]; reflexivity. }
    rewrite E. apply xr_set_termios_format_reg_no_class_request.
  - intros Hm.
    assert (E : xr_set_termios env tty p old_termios
                = xr_set_termios_cdc env tty p old_termios).
    { unfold xr_set_termios. destruct Hm as [-> | ->]; reflexivity. }
    rewrite E.
    destruct (xr_set_termios_cdc_ends_with_line_coding env tty p
                old_termios h)
      as (front & b0 & b1 & b2 & b3 & fmt & par & bits & C & Hf & _).
    cbv zeta in C. exists front. split; [exact Hf|].
    destruct C as [C | (st & r0 & C)]; [left; exact C|].
    right. eexists _, st, r0. split; [exact C|]. cbn.
    repeat split; reflexivity.
Qed.

(** ** Opening and closing the port *)

(** The four ways [xr_open] ends, with the history each step starts from. *)
Lemma xr_open_run (env : kernel_env)
    (usb_serial_generic_open : option ktermios -> list event -> Z)
    (tty : option ktermios) (p : xr_port_private) (h : list event) :
  let r1 := result (xr_uart_enable env p) h in
  let E := emitted (xr_uart_enable env p) h in
  let G := emitted (xr_set_reg_uart env p
                      (xr_hal_table (model p) REG_GPIO_DIR) 0x28) (h ++ E) in
  let r2 := result (fifo_reset env p) ((h ++ E) ++ G) in
  let Fi := emitted (fifo_reset env p) ((h ++ E) ++ G) in
  let h3 := ((h ++ E) ++ G) ++ Fi in
  let T := match tty with
           | Some t => emitted (xr_set_termios env t p None) h3
           | None => []
           end in
  let tty' := match tty with
              | Some t => Some (result (xr_set_termios env t p None) h3)
              | None => None
              end in
  let r3 := usb_serial_generic_open tty' (h3 ++ T) in
  let D := emitted (xr_uart_disable env p) (h3 ++ T) in
  xr_open env usb_serial_generic_open tty p h
  = if negb (r1 =? 0) then ((r1, tty), E)
    else if negb (r2 =? 0) then ((r2, tty), E ++ G ++ Fi)
    else if negb (r3 =? 0) then ((r3, tty'), E ++ G ++ Fi ++ T ++ D)
    else ((0, tty'), E ++ G ++ Fi ++ T).
Proof.
  intros r1 E G r2 Fi h3 T tty' r3 D.
  unfold xr_open. rewrite bind_run.
  change (fst (xr_uart_enable env p h)) with r1.
  change (snd (xr_uart_enable env p h)) with E.
  destruct (negb (r1 =? 0)).
  { cbn [ret fst snd]. now rewrite app_nil_r. }
  cbv zeta. change (u8 (Z.lor UART_MODE_DTR UART_MODE_RTS)) with 0x28.
  rewrite bind_run.
  change (snd (xr_set_reg_uart env p (xr_hal_table (model p) REG_GPIO_DIR)
                 0x28 (h ++ E))) with G.
  rewrite bind_run.
  change (fst (fifo_reset env p ((h ++ E) ++ G))) with r2.
  change (snd (fifo_reset env p ((h ++ E) ++ G))) with Fi.
  destruct (negb (r2 =? 0)).
  { cbn [ret fst snd]. now rewrite !app_nil_r. }
  fold h3. rewrite bind_run.
  assert (ET : match tty with
               | Some t => t' <- xr_set_termios env t p None ;; ret (Some t')
               | None => ret None
               end h3 = (tty', T)).
  { subst tty' T. destruct tty as [t|]; [|reflexivity].
    rewrite bind_run. cbn [ret fst snd]. now rewrite app_nil_r. }
  rewrite ET. cbn [fst snd]. rewrite bind_run. cbn [fst snd].
  fold r3. rewrite app_nil_r.
  destruct (negb (r3 =? 0)).
  - rewrite bind_run. cbn [ret fst snd]. fold D. now rewrite !app_nil_r.
  - cbn [ret fst snd]. now rewrite !app_nil_r.
Qed.

(** X17. [xr_open] returns 0 exactly when [xr_uart_enable], [fifo_reset]
    and [usb_serial_generic_open] all return 0; the statuses of the
    GPIO_DIR write and of [xr_set_termios] do not count.  When the enable
    fails nothing else is transferred.  When [fifo_reset] fails the call
    returns its status right after it, without [xr_uart_disable].  Only
    when the generic open fails does the trace end with the transfers of
    [xr_uart_disable]. *)
Theorem xr_open_outcome (env : kernel_env)
    (usb_serial_generic_open : option ktermios -> list event -> Z)
    (tty : option ktermios) (p : xr_port_private) (h : list event) :
  let r1 := result (xr_uart_enable env p) h in
  let E := emitted (xr_uart_enable env p) h in
  let G := emitted (xr_set_reg_uart env p
                      (xr_hal_table (model p) REG_GPIO_DIR) 0x28) (h ++ E) in
  let r2 := result (fifo_reset env p) ((h ++ E) ++ G) in
  let Fi := emitted (fifo_reset env p) ((h ++ E) ++ G) in
  let h3 := ((h ++ E) ++ G) ++ Fi in
  let T := match tty with
           | Some t => emitted (xr_set_termios env t p None) h3
           | None => []
           end in
  let tty' := match tty with
              | Some t => Some (result (xr_set_termios env t p None) h3)
              | None => None
              end in
  let r3 := usb_serial_generic_open tty' (h3 ++ T) in
  let D := emitted (xr_uart_disable env p) (h3 ++ T) in
  let open := xr_open env usb_serial_generic_open tty p in
  (fst (result open h) = 0 <-> r1 = 0 /\ r2 = 0 /\ r3 = 0) /\
  (r1 <> 0 -> open h = ((r1, tty), E)) /\
  (r1 = 0 -> r2 <> 0 -> open h = ((r2, tty), E ++ G ++ Fi)) /\
  (r1 = 0 -> r2 = 0 -> r3 <> 0 ->
   open h = ((r3, tty'), E ++ G ++ Fi ++ T ++ D)) /\
  (r1 = 0 -> r2 = 0 -> r3 = 0 ->
   open h = ((0, tty'), E ++ G ++ Fi ++ T)).
Proof.
  intros r1 E G r2 Fi h3 T tty' r3 D open.
  pose proof (xr_open_run env usb_serial_generic_open tty p h) as R.
  cbv zeta in R. fold r1 in R. fold E in R. fold G in R. fold r2 in R.
  fold Fi in R. fold h3 in R. fold T in R. fold tty' in R. fold r3 in R.
  fold D in R. fold open in R.
  clearbody open D r3 tty' T h3 Fi r2 G E r1.
  unfold result. rewrite R. clear R.
  destruct (Z.eqb_spec r1 0) as [H1|H1], (Z.eqb_spec r2 0) as [H2|H2],
    (Z.eqb_spec r3 0) as [H3|H3]; cbn [negb fst snd];
    repeat split; intros; try reflexivity; try contradiction;
    try (exfalso; tauto); try assumption; try tauto.
Qed.

(** ** Binding and unbinding *)

Lemma xr_probe_run (env : kernel_env) (supports_autosuspend : bool)
    (ifnum : Z) (driver_info : xr_model) (endpoint0 : option Z)
    (usb_ifnum_to_if : Z -> bool) (h : list event) :
  0 <= ifnum ->
  xr_probe env supports_autosuspend ifnum driver_info endpoint0
    usb_ifnum_to_if h
  = if Z.even ifnum then (Some (- ENODEV, None, []), [])
    else if kmalloc env h
         then
           (match endpoint0 with
            | None => None
            | Some bEndpointAddress =>
                if usb_ifnum_to_if (ifnum - 1)
                then
                  Some (0,
                        Some (mk_port driver_info bEndpointAddress
                                (ifnum - 1)),
                        [ usb_get_intf (ifnum - 1);
                          pm_suspend_ignore_children (ifnum - 1) false;
                          if supports_autosuspend
                          then pm_runtime_enable (ifnum - 1)
                          else pm_runtime_set_active (ifnum - 1) ])
                else None
            end,
            [EvKmalloc true])
         else (Some (- ENOMEM, None, []), [EvKmalloc false]).
Proof.
  intros Hi. unfold xr_probe.
  assert (Hrem : Z.rem ifnum 2 = if Z.even ifnum then 0 else 1).
  { rewrite Z.rem_mod_nonneg by lia. rewrite Zmod_even. reflexivity. }
  rewrite Hrem. destruct (Z.even ifnum); cbn [Z.eqb]; [reflexivity|].
  cbv zeta. rewrite bind_run. unfold do_kmalloc. cbn [fst snd].
  destruct (kmalloc env h); cbn [negb]; [|reflexivity].
  destruct endpoint0 as [a|]; [|reflexivity].
  destruct (usb_ifnum_to_if (ifnum - 1)); reflexivity.
Qed.

(** X18. [xr_probe] binds only the odd-numbered (data) interfaces.  On an
    even interface number it returns [-ENODEV] before allocating anything.
    On an odd one it returns [-ENOMEM] with no reference taken if the
    allocation fails.  After the allocation it returns 0 only when the
    interface has a first endpoint and the device has the even interface
    just below: the port data then hold the model of the matched table
    entry, the endpoint address as channel and that interface as control
    interface, on which it takes one reference and turns runtime power
    management on or marks it active.  When the endpoint or that interface
    is missing, the call goes through a NULL pointer and does not return. *)
Theorem xr_probe_outcome (env : kernel_env) (supports_autosuspend : bool)
    (ifnum : Z) (driver_info : xr_model) (endpoint0 : option Z)
    (usb_ifnum_to_if : Z -> bool) (h : list event) :
  0 <= ifnum ->
  let probe := xr_probe env supports_autosuspend ifnum driver_info
                 endpoint0 usb_ifnum_to_if in
  (Z.even ifnum = true -> probe h = (Some (- ENODEV, None, []), [])) /\
  (Z.odd ifnum = true -> kmalloc env h = false ->
   probe h = (Some (- ENOMEM, None, []), [EvKmalloc false])) /\
  (Z.odd ifnum = true -> kmalloc env h = true ->
   forall bEndpointAddress,
     endpoint0 = Some bEndpointAddress ->
     usb_ifnum_to_if (ifnum - 1) = true ->
     exists port,
       probe h
       = (Some (0, Some port,
                [ usb_get_intf (control_if port);
                  pm_suspend_ignore_children (control_if port) false;
                  if supports_autosuspend
                  then pm_runtime_enable (control_if port)
                  else pm_runtime_set_active (control_if port) ]),
          [EvKmalloc true]) /\
       model port = driver_info /\ channel port = bEndpointAddress /\
       control_if port = ifnum - 1 /\ Z.even (control_if port) = true /\
       0 <= control_if port) /\
  (Z.odd ifnum = true -> kmalloc env h = true ->
   endpoint0 = None \/ usb_ifnum_to_if (ifnum - 1) = false ->
   probe h = (None, [EvKmalloc true])) /\
  (forall st port calls evs,
     probe h = (Some (st, port, calls), evs) ->
     (st = 0 <-> port <> None) /\
     (st = 0 ->
      Z.odd ifnum = true /\ endpoint0 <> None /\
      usb_ifnum_to_if (ifnum - 1) = true)).
Proof.
  intros Hi probe. subst probe. rewrite (xr_probe_run _ _ _ _ _ _ _ Hi).
  rewrite <- (Z.negb_even ifnum).
  assert (Herr : forall (e : Z) (port : option xr_port_private)
                    (calls : list kernel_call) (evs0 : list event),
             e = ENODEV \/ e = ENOMEM ->
             forall st port' calls' evs,
               (Some (- e, @None xr_port_private, @nil kernel_call), evs0)
               = (Some (st, port', calls'), evs) ->
               (st = 0 <-> port' <> None) /\
               (st = 0 ->
                negb (Z.even ifnum) = true /\ endpoint0 <> None /\
                usb_ifnum_to_if (ifnum - 1) = true)).
  { intros e _ _ evs0 He0 st port' calls' evs H.
    injection H as <- <- _ _.
    assert (Hne : - e <> 0)
      by (destruct He0 as [-> | ->]; unfold ENODEV, ENOMEM; lia).
    split; [split|]; intros H0; exfalso; [now apply Hne | now apply H0 |
                                          now apply Hne]. }
  destruct (Z.even ifnum) eqn:He; cbn [negb].
  { split; [reflexivity|].
    split; [intros Ho; discriminate Ho|].
    split; [intros Ho; discriminate Ho|].
    split; [intros Ho; discriminate Ho|].
    apply (Herr ENODEV None [] []). now left. }
  destruct (kmalloc env h) eqn:Hk.
  2:{ split; [intros Ho; discriminate Ho|].
      split; [reflexivity|].
      split; [intros _ Hc; discriminate Hc|].
      split; [intros _ Hc; discriminate Hc|].
      apply (Herr ENOMEM None [] [EvKmalloc false]). now right. }
  split; [intros Ho; discriminate Ho|].
  split; [intros _ Hc; discriminate Hc|].
  split; [|split].
  - intros _ _ a -> Hf. rewrite Hf.
    exists (mk_port driver_info a (ifnum - 1)).
    split; [reflexivity|]. cbn [model channel control_if].
    repeat split.
    + replace (ifnum - 1) with (Z.pred ifnum) by lia.
      rewrite Z.even_pred, <- Z.negb_even, He. reflexivity.
    + assert (ifnum <> 0) by (intros ->; discriminate He). lia.
  - intros _ _ [-> | Hf]; [reflexivity|].
    destruct endpoint0 as [a|]; [|reflexivity]. now rewrite Hf.
  - intros st port calls evs H.
    destruct endpoint0 as [a|]; [|discriminate H].
    destruct (usb_ifnum_to_if (ifnum - 1)); [|discriminate H].
    injection H as <- <- _ _.
    repeat split; try reflexivity; discriminate.
Qed.

(** Interface 1 of an XR21V141X with endpoint address 1: bound when the
    device has interface 0, a NULL dereference when it has not. *)
Lemma xr_probe_outcome_witness :
  xr_probe env_ok true 1 XR21V141X (Some 1) (fun i => i =? 0) []
  = (Some (0, Some (mk_port XR21V141X 1 0),
           [usb_get_intf 0; pm_suspend_ignore_children 0 false;
            pm_runtime_enable 0]),
     [EvKmalloc true]) /\
  xr_probe env_ok true 1 XR21V141X (Some 1) (fun _ => false) []
  = (None, [EvKmalloc true]).
Proof.
  split.
  - destruct (proj1 (proj2 (proj2
                (xr_probe_outcome env_ok true 1 XR21V141X (Some 1)
                   (fun i => i =? 0) [] ltac:(lia))))
                eq_refl eq_refl 1 eq_refl eq_refl)
      as (port & E & Hm & Hc & Hi & _).
    rewrite E. destruct port as [m c i]. cbn in Hm, Hc, Hi. subst.
    reflexivity.
  - apply (proj1 (proj2 (proj2 (proj2
             (xr_probe_outcome env_ok true 1 XR21V141X (Some 1)
                (fun _ => false) [] ltac:(lia)))))
             eq_refl eq_refl).
    right. reflexivity.
Defined.

(** X19. [xr_disconnect] undoes what a successful [xr_probe] did, on the
    same control interface: the reference taken is put back, runtime power
    management is disabled exactly when it was enabled, the interface is
    marked suspended, and the port data are freed and cleared. *)
Theorem xr_probe_disconnect_balanced (env : kernel_env)
    (supports_autosuspend : bool) (ifnum : Z) (driver_info : xr_model)
    (endpoint0 : option Z) (usb_ifnum_to_if : Z -> bool) (h : list event)
    (port : xr_port_private) (calls1 : list kernel_call)
    (evs : list event) :
  0 <= ifnum ->
  xr_probe env supports_autosuspend ifnum driver_info endpoint0
    usb_ifnum_to_if h
  = (Some (0, Some port, calls1), evs) ->
  let calls2 := snd (xr_disconnect supports_autosuspend port) in
  fst (xr_disconnect supports_autosuspend port) = None /\
  (forall i, In (usb_get_intf i) calls1 <-> In (usb_put_intf i) calls2) /\
  (forall i, In (pm_runtime_enable i) calls1
             <-> In (pm_runtime_disable i) calls2) /\
  (forall i, In (usb_put_intf i) calls2 -> i = ifnum - 1) /\
  In (pm_runtime_set_suspended (ifnum - 1)) calls2 /\
  exists before, calls2 = before ++ [usb_put_intf (ifnum - 1);
                                    kfree_port_priv].
Proof.
  intros Hi. rewrite (xr_probe_run _ _ _ _ _ _ _ Hi).
  destruct (Z.even ifnum); [intros E; discriminate E|].
  destruct (kmalloc env h); [|intros E; discriminate E].
  destruct endpoint0 as [a|]; [|intros E; discriminate E].
  destruct (usb_ifnum_to_if (ifnum - 1)); [|intros E; discriminate E].
  intros E. injection E as <- <- <-. unfold xr_disconnect.
  cbn [fst snd control_if].
  split; [reflexivity|].
  destruct supports_autosuspend; cbn [app In];
    (repeat split; try (intros i);
     [ intuition congruence .. | ]);
    [ exists [pm_runtime_disable (ifnum - 1);
              pm_runtime_set_suspended (ifnum - 1)]
    | exists [pm_runtime_set_suspended (ifnum - 1)] ]; reflexivity.
Qed.

Lemma xr_probe_disconnect_balanced_witness :
  fst (xr_disconnect true (mk_port XR21V141X 1 0)) = None /\
  snd (xr_disconnect true (mk_port XR21V141X 1 0))
  = [pm_runtime_disable 0; pm_runtime_set_suspended 0; usb_put_intf 0;
     kfree_port_priv].
Proof.
  split.
  - apply (xr_probe_disconnect_balanced env_ok true 1 XR21V141X (Some 1)
             (fun i => i =? 0) []
             (mk_port XR21V141X 1 0)
             [usb_get_intf 0; pm_suspend_ignore_children 0 false;
              pm_runtime_enable 0]
             [EvKmalloc true]); [lia | reflexivity].
  - reflexivity.
Defined.

(** X20. Every entry of [id_table] is for vendor 0x04e2 and names one of
    the four real models, and no product id occurs twice.  So on a port
    made by [xr_probe] for a matched device the register access never takes
    the [-EINVAL] branch: every [xr_set_reg] makes its transfer. *)
Theorem id_table_ports_reach_the_device (env : kernel_env)
    (supports_autosuspend : bool) (ifnum : Z) (endpoint0 : option Z)
    (usb_ifnum_to_if : Z -> bool)
    (vid pid : Z) (driver_info : xr_model) (h : list event)
    (port : xr_port_private) (calls : list kernel_call) (evs : list event) :
  In (vid, pid, driver_info) id_table ->
  xr_probe env supports_autosuspend ifnum driver_info endpoint0
    usb_ifnum_to_if h
  = (Some (0, Some port, calls), evs) ->
  vid = 0x04e2 /\
  model port <> MAX_XR_MODELS /\
  NoDup (map (fun e => snd (fst e)) id_table) /\
  forall block reg val h',
    exists n st b0,
      xr_mangle_reg port (u8 reg) = Some n /\
      xr_set_reg env port block reg val h'
      = (set_status st, [EvCtrl (set_reg_msg port block n val) st b0]).
Proof.
  intros Hin Hp.
  assert (Hv : vid = 0x04e2 /\ driver_info <> MAX_XR_MODELS).
  { unfold id_table in Hin. cbn [In] in Hin.
    repeat (destruct Hin as [Hin | Hin];
            [injection Hin as <- <- <-; split; [reflexivity|discriminate]|]).
    destruct Hin. }
  assert (Hm : model port = driver_info).
  { unfold xr_probe in Hp. destruct (Z.rem ifnum 2 =? 0);
      [discriminate Hp|]. cbv zeta in Hp. rewrite bind_run in Hp.
    unfold do_kmalloc in Hp. cbn [fst snd] in Hp.
    destruct (kmalloc env h); cbn [negb ret fst snd] in Hp;
      [|discriminate Hp].
    destruct endpoint0 as [a|]; [|discriminate Hp].
    destruct (usb_ifnum_to_if (ifnum - Z.rem ifnum 2));
      cbn [negb ret fst snd] in Hp; [|discriminate Hp].
    injection Hp as <- _ _. reflexivity. }
  destruct Hv as [Hv Hd]. rewrite <- Hm in Hd.
  split; [exact Hv|]. split; [exact Hd|]. split.
  - unfold id_table. cbn [map fst snd].
    repeat (apply NoDup_cons; [cbn [In]; intros H;
                               repeat (destruct H as [H|H];
                                       [discriminate H|]); destruct H|]).
    apply NoDup_nil.
  - intros block reg val h'. now apply xr_set_reg_emits_one.
Qed.

(** The XR21B1411 entry, probed on interface 1. *)
Lemma id_table_ports_reach_the_device_witness :
  exists n st b0,
    xr_mangle_reg (mk_port XR21B1411 1 0) (u8 0xc06) = Some n /\
    xr_set_reg env_ok (mk_port XR21B1411 1 0) 0 0xc06 1 []
    = (set_status st,
       [EvCtrl (set_reg_msg (mk_port XR21B1411 1 0) 0 n 1) st b0]).
Proof.
  apply (id_table_ports_reach_the_device env_ok true 1 (Some 1)
           (fun i => i =? 0) 0x04e2 0x1411
           XR21B1411 [] (mk_port XR21B1411 1 0)
           [usb_get_intf 0; pm_suspend_ignore_children 0 false;
            pm_runtime_enable 0]
           [EvKmalloc true]).
  - unfold id_table. cbn [In]. do 5 right. left. reflexivity.
  - reflexivity.
Defined.

(** ** The bytes of the baud-rate engine *)

Lemma set_status_zero (st : Z) : 0 <= st -> set_status st = 0.
Proof. intros H. now apply set_status_zero_iff. Qed.

(** The values [write_in_order] puts on the wire are a prefix of the values
    it was given, and all of them when no transfer fails. *)
Lemma write_in_order_values (env : kernel_env) (p : xr_port_private)
    (ws : list (Z * Z)) (h : list event) :
  exists n,
    map written_value (emitted (write_in_order env p ws) h)
    = firstn n (map (fun rv => u8 (snd rv)) ws) /\
    (usb_never_fails env -> model p <> MAX_XR_MODELS -> n = length ws).
Proof.
  revert h. induction ws as [|[reg val] ws IH]; intros h.
  - exists 0%nat. split; [reflexivity|]. reflexivity.
  - cbn [write_in_order]. unfold emitted. rewrite bind_run.
    unfold xr_set_reg_uart.
    destruct (xr_set_reg_cases env p UART_REG_BLOCK reg val h)
      as [[Hm E] | (r & st & b0 & Hr & Hu & E)]; rewrite E; cbn [fst snd].
    + exists 0%nat. split; [reflexivity|]. intros _ Hreal. contradiction.
    + destruct (set_status st =? 0) eqn:Hs.
      * destruct (IH (h ++ [EvCtrl (set_reg_msg p UART_REG_BLOCK r val)
                              st b0])) as (n & Hn & Hall).
        exists (S n). split.
        -- cbn [app map firstn written_value set_reg_msg wValue snd].
           f_equal. exact Hn.
        -- intros Hnf Hreal. cbn [length]. f_equal. now apply Hall.
      * exists 1%nat. split.
        -- cbn [ret snd app map firstn written_value set_reg_msg wValue].
           now destruct (map (fun rv => u8 (snd rv)) ws).
        -- intros Hnf _. exfalso.
           pose proof (Hnf h (set_reg_msg p UART_REG_BLOCK r val)) as H0.
           rewrite Hu in H0. cbn [fst] in H0.
           rewrite (set_status_zero st H0) in Hs. discriminate Hs.
Qed.

Lemma bytes3_round_trip (d : Z) :
  0 <= d < 2 ^ 24 ->
  u8 (d mod 256) + 256 * u8 ((d / 256) mod 256)
  + 65536 * u8 ((d / 65536) mod 256) = d.
Proof.
  intros Hd. change (2 ^ 24) with (256 * 256 * 256) in Hd.
  rewrite !u8_small by (apply Z.mod_pos_bound; lia).
  change 65536 with (256 * 256). rewrite <- Z.div_div by lia.
  generalize (Z.div_mod d 256 ltac:(lia)).
  generalize (Z.div_mod (d / 256) 256 ltac:(lia)).
  assert (H3 : (d / 256 / 256) mod 256 = d / 256 / 256).
  { apply Z.mod_small. split.
    - repeat apply Z.div_pos; lia.
    - repeat (apply Z.div_lt_upper_bound; [lia|]). lia. }
  rewrite H3.
  generalize (d mod 256) ((d / 256) mod 256) (d / 256 / 256).
  intros m0 m1 q2. generalize (d / 256). intros q1. lia.
Qed.

Lemma bytes2_round_trip (d : Z) :
  0 <= d < 2 ^ 16 ->
  u8 (d mod 256) + 256 * u8 ((d / 256) mod 256) = d.
Proof.
  intros Hd. change (2 ^ 16) with (256 * 256) in Hd.
  rewrite !u8_small by (apply Z.mod_pos_bound; lia).
  generalize (Z.div_mod d 256 ltac:(lia)).
  assert (H3 : (d / 256) mod 256 = d / 256).
  { apply Z.mod_small. split.
    - apply Z.div_pos; lia.
    - apply Z.div_lt_upper_bound; lia. }
  rewrite H3. generalize (d mod 256) (d / 256). intros m0 q1. lia.
Qed.

(** X21. The seven bytes [xr_set_baudrate] writes carry the whole of what
    it computed: the three divisor bytes read back, low byte first, as
    48 MHz divided by the requested speed clamped to 46..48000000, and the
    two pairs of mask bytes as the table's TX entry and the RX entry chosen
    by the parity of the divisor.  What reaches the wire is a prefix of
    these seven values, all seven when no transfer fails. *)
Theorem xr_set_baudrate_bytes_round_trip (env : kernel_env) (tty : ktermios)
    (p : xr_port_private) (h : list event) :
  c_ospeed tty <> 0 ->
  let b := xr_clamp_baud (c_ospeed tty) in
  let d := xr_divisor b in
  let entry := clk_mask_at (xr_clk_idx b) in
  exists v0 v1 v2 v3 v4 v5 v6 n,
    map written_value (emitted (xr_set_baudrate env tty p) h)
    = firstn n [v0; v1; v2; v3; v4; v5; v6] /\
    (usb_never_fails env -> model p <> MAX_XR_MODELS -> n = 7%nat) /\
    Forall (fun v => 0 <= v < 256) [v0; v1; v2; v3; v4; v5; v6] /\
    v0 + 256 * v1 + 65536 * v2 = d /\
    d = XR_INT_OSC_HZ / b /\
    MIN_SPEED <= b <= MAX_SPEED /\
    v3 + 256 * v4 = tx entry /\
    v5 + 256 * v6 = (if Z.odd d then rx1 entry else rx0 entry).
Proof.
  intros Hb b d entry.
  pose proof (xr_clamp_baud_range (c_ospeed tty)) as Hrange. fold b in Hrange.
  assert (Hb1 : 1 <= b) by (unfold MIN_SPEED in Hrange; lia).
  pose proof (xr_divisor_lt_2_20 b Hrange) as Hd20. fold d in Hd20.
  pose proof (xr_divisor_exact b Hb1) as Hdx. fold d in Hdx.
  pose proof (xr_clk_idx_exact b Hb1) as Hix.
  pose proof (clk_mask_at_bounds (xr_clk_idx b)) as Hmask. fold entry in Hmask.
  assert (E : emitted (xr_set_baudrate env tty p) h
              = emitted (write_in_order env p
                           (spec_baud_writes (c_ospeed tty))) h).
  { unfold emitted. rewrite xr_set_baudrate_eq_spec. unfold spec_set_baudrate.
    apply Z.eqb_neq in Hb. rewrite Hb. cbv zeta. rewrite bind_run.
    cbn [snd].
    destruct (fst (write_in_order env p (spec_baud_writes (c_ospeed tty)) h)
              =? 0); cbn [ret snd]; apply app_nil_r. }
  rewrite E.
  destruct (write_in_order_values env p (spec_baud_writes (c_ospeed tty)) h)
    as (n & Hn & Hall).
  rewrite Hn. unfold spec_baud_writes. cbv zeta.
  rewrite <- (xr_clamp_baud_spec (c_ospeed tty)). fold b.
  rewrite <- Hix. fold entry. rewrite <- Hdx.
  cbn [map snd]. unfold spec_baud_writes in Hall. cbv zeta in Hall.
  cbn [length] in Hall.
  clearbody d entry b.
  eexists _, _, _, _, _, _, _, n. split; [reflexivity|].
  split; [exact Hall|]. split.
  { repeat (apply Forall_cons || apply Forall_nil); apply u8_range. }
  split.
  { apply bytes3_round_trip. change (2 ^ 20) with 1048576 in Hd20.
    change (2 ^ 24) with 16777216. lia. }
  split; [unfold XR_INT_OSC_HZ; exact Hdx|].
  split; [exact Hrange|].
  split.
  { apply bytes2_round_trip. change (2 ^ 16) with 65536. lia. }
  destruct (Z.odd d); apply bytes2_round_trip; change (2 ^ 16) with 65536; lia.
Qed.

(** 115200 baud on XR21V141X: divisor 416 = 0xa0 + 256 * 1, table entry
    21. *)
Lemma xr_set_baudrate_bytes_round_trip_witness :
  map written_value
    (emitted (xr_set_baudrate env_ok (mk_termios 0 0 [] 115200 115200)
                (mk_port XR21V141X 1 0)) [])
  = [0xa0; 0x01; 0x00; 0x6d; 0x0b; 0x6a; 0x0b] /\
  exists v0 v1 v2 v3 v4 v5 v6 n,
    map written_value
      (emitted (xr_set_baudrate env_ok (mk_termios 0 0 [] 115200 115200)
                  (mk_port XR21V141X 1 0)) [])
    = firstn n [v0; v1; v2; v3; v4; v5; v6] /\
    v0 + 256 * v1 + 65536 * v2 = 416.
Proof.
  split; [vm_compute; reflexivity|].
  destruct (xr_set_baudrate_bytes_round_trip env_ok
              (mk_termios 0 0 [] 115200 115200) (mk_port XR21V141X 1 0) [])
    as (v0 & v1 & v2 & v3 & v4 & v5 & v6 & n & H1 & _ & _ & H2 & _);
    [discriminate|].
  exists v0, v1, v2, v3, v4, v5, v6, n. split; [exact H1 | exact H2].
Defined.

(** ** Register numbers on the models without channel arithmetic *)

(** X22. On XR2280X and XR21B1411 [xr_set_reg] does no channel arithmetic
    and keeps only the low byte of the register number: [wIndex] is
    [((block mod 256) << 8) | (reg mod 256)].  In the UART block the entries
    of the XR21B1411 table, which are 0xc00 and above, go out as their low
    byte alone. *)
Theorem xr_set_reg_direct_models_wIndex (env : kernel_env)
    (p : xr_port_private) (block reg val : Z) (h : list event) :
  model p = XR2280X \/ model p = XR21B1411 ->
  exists st b0,
    let m := set_reg_msg p block (reg mod 256) val in
    xr_set_reg env p block reg val h = (set_status st, [EvCtrl m st b0]) /\
    wIndex m = Z.lor (Z.shiftl (block mod 256) 8) (reg mod 256) /\
    (block mod 256 = 0 -> wIndex m = reg mod 256).
Proof.
  intros Hm. change (reg mod 256) with (u8 reg).
  change (block mod 256) with (u8 block).
  pose proof (xr_mangle_reg_direct p (u8 reg) Hm) as Hr.
  rewrite (xr_set_reg_run env p block reg val (u8 reg) h Hr).
  eexists _, _. cbv zeta. split; [reflexivity|].
  cbn [set_reg_msg wIndex].
  assert (E : u16 (Z.lor (u8 reg) (Z.shiftl (u8 block) 8))
              = Z.lor (Z.shiftl (u8 block) 8) (u8 reg))
    by (apply lor_shiftl_8_u16; apply u8_range).
  split; [exact E|].
  intros H0. rewrite E, H0. apply Z.lor_0_l.
Qed.

(** FLOW_CTRL of XR21B1411, 0xc06 in the table, is written at [wIndex]
    0x06. *)
Lemma xr_set_reg_direct_models_wIndex_witness :
  xr_hal_table XR21B1411 REG_FLOW_CTRL = 0xc06 /\
  exists st b0 m,
    xr_set_reg env_ok (mk_port XR21B1411 1 0) UART_REG_BLOCK
      (xr_hal_table XR21B1411 REG_FLOW_CTRL) 1 []
    = (set_status st, [EvCtrl m st b0]) /\
    wIndex m = 0x06.
Proof.
  split; [reflexivity|].
  destruct (xr_set_reg_direct_models_wIndex env_ok (mk_port XR21B1411 1 0)
              UART_REG_BLOCK (xr_hal_table XR21B1411 REG_FLOW_CTRL) 1 [])
    as (st & b0 & E & _ & H0); [right; reflexivity|].
  exists st, b0. eexists. split; [exact E|]. apply H0. reflexivity.
Defined.

(** ** Software flow control *)

Lemma set_reg_msg_u8 (p : xr_port_private) (block n val : Z) :
  set_reg_msg p block n (u8 val) = set_reg_msg p block n val.
Proof. unfold set_reg_msg. now rewrite u8_idem. Qed.

(** X23. When its GPIO_MODE read succeeds, [xr_set_flow_mode] writes the
    XON and XOFF characters exactly when it selects software flow control
    (IXON set, and no hardware flow control in force): XON_CHAR gets
    [c_cc[VSTART]] and XOFF_CHAR gets [c_cc[VSTOP]], each cut to a byte.
    The two writes come right after the read, before [xr_uart_disable], and
    their statuses are not looked at. *)
Theorem xr_set_flow_mode_software_chars (env : kernel_env) (tty : ktermios)
    (p : xr_port_private) (old_termios : option ktermios) (h : list event) :
  let rd := xr_get_reg_uart env p (xr_hal_table (model p) REG_GPIO_MODE)
              (uninit env L_flow_gpio_mode h) in
  let R := emitted rd h in
  fst (result rd h) = 0 ->
  exists pre rest,
    emitted (xr_set_flow_mode env tty p old_termios) h
    = R ++ pre ++ emitted (xr_uart_disable env p) ((h ++ R) ++ pre) ++ rest /\
    (flow_of tty = UART_FLOW_MODE_SW ->
     exists n1 n2 s1 b1 s2 b2,
       xr_mangle_reg p (u8 (xr_hal_table (model p) REG_XON_CHAR)) = Some n1 /\
       xr_mangle_reg p (u8 (xr_hal_table (model p) REG_XOFF_CHAR)) = Some n2 /\
       pre = [EvCtrl (set_reg_msg p UART_REG_BLOCK n1 (START_CHAR tty)) s1 b1;
              EvCtrl (set_reg_msg p UART_REG_BLOCK n2 (STOP_CHAR tty)) s2 b2])
    /\
    (flow_of tty <> UART_FLOW_MODE_SW -> pre = []).
Proof.
  intros rd R H0.
  pose proof (xr_get_reg_ok_model env p UART_REG_BLOCK
                (xr_hal_table (model p) REG_GPIO_MODE)
                (uninit env L_flow_gpio_mode h) h H0) as Hmodel.
  destruct (xr_mangle_reg_some p
              (u8 (xr_hal_table (model p) REG_XON_CHAR)) Hmodel) as [n1 Hn1].
  destruct (xr_mangle_reg_some p
              (u8 (xr_hal_table (model p) REG_XOFF_CHAR)) Hmodel) as [n2 Hn2].
  unfold xr_set_flow_mode.
  rewrite emitted_bind.
  change (emitted (read_uninit env L_flow_gpio_mode) h) with (@nil event).
  change (result (read_uninit env L_flow_gpio_mode) h)
    with (uninit env L_flow_gpio_mode h).
  rewrite app_nil_r. cbn [app]. fold rd.
  rewrite emitted_bind. fold R.
  destruct (result rd h) as [rc s]. cbn [fst snd] in *. subst rc.
  cbn [Z.eqb negb].
  match goal with
  | |- context [emitted (bind ?m _) (h ++ R)] => set (BR := m)
  end.
  rewrite emitted_bind.
  set (pre := emitted BR (h ++ R)).
  destruct (result BR (h ++ R)) as [gm flow].
  rewrite emitted_bind.
  eexists pre, _. split; [reflexivity|].
  subst pre BR. unfold flow_of.
  destruct (negb (C_CRTSCTS tty =? 0) && negb (C_BAUD tty =? B0)).
  { split; [intros H; discriminate H | reflexivity]. }
  destruct (negb (I_IXON tty =? 0)).
  - split; [|intros H; now contradiction H].
    intros _. unfold emitted, xr_set_reg_uart.
    rewrite (bind_xr_set_reg_some env p UART_REG_BLOCK _ _ n1 _ _ Hn1).
    cbn [snd].
    rewrite (bind_xr_set_reg_some env p UART_REG_BLOCK _ _ n2 _ _ Hn2).
    cbn [snd ret]. rewrite !set_reg_msg_u8.
    eexists n1, n2, _, _, _, _. split; [exact Hn1|]. split; [exact Hn2|].
    reflexivity.
  - split; [intros H; discriminate H | reflexivity].
Qed.

(** XR21V141X, IXON without CRTSCTS, the usual control characters: XON is
    0x11 and XOFF 0x13. *)
Lemma xr_set_flow_mode_software_chars_witness :
  exists pre rest,
    emitted (xr_set_flow_mode env_ok
               (mk_termios 0x400 0xbd [3; 28; 127; 21; 4; 0; 1; 0; 17; 19]
                  9600 9600)
               (mk_port XR21V141X 1 0) None) []
    = emitted (xr_get_reg_uart env_ok (mk_port XR21V141X 1 0) 0x1a 0) []
      ++ pre
      ++ emitted (xr_uart_disable env_ok (mk_port XR21V141X 1 0))
           (([] ++ emitted (xr_get_reg_uart env_ok (mk_port XR21V141X 1 0)
                              0x1a 0) []) ++ pre)
      ++ rest /\
    map written_value pre = [0x11; 0x13].
Proof.
  destruct (xr_set_flow_mode_software_chars env_ok
              (mk_termios 0x400 0xbd [3; 28; 127; 21; 4; 0; 1; 0; 17; 19]
                 9600 9600)
              (mk_port XR21V141X 1 0) None [])
    as (pre & rest & E & Hsw & _); [reflexivity|].
  destruct (Hsw eq_refl) as (n1 & n2 & s1 & b1 & s2 & b2 & _ & _ & Hpre).
  exists pre, rest. split; [exact E|]. rewrite Hpre. reflexivity.
Defined.

(** ** Reads and writes of one register *)

(** X24. A read and a write of the same register of the same block go to
    the same [wIndex], whatever the model's channel arithmetic does to it.
    The read is an IN vendor request (0xC0) of one byte with the model's
    REQ_GET, after an allocation; the write is an OUT vendor request (0x40)
    without data, with the model's REQ_SET and the byte in [wValue]. *)
Theorem xr_get_reg_addresses_like_xr_set_reg (env : kernel_env)
    (p : xr_port_private) (block reg val val' : Z) (h h' : list event) :
  model p <> MAX_XR_MODELS -> kmalloc env h = true ->
  exists mr mw sr br sw bw,
    emitted (xr_get_reg env p block reg val) h
    = [EvKmalloc true; EvCtrl mr sr br] /\
    emitted (xr_set_reg env p block reg val') h' = [EvCtrl mw sw bw] /\
    wIndex mr = wIndex mw /\
    pipe_in mr = true /\ pipe_in mw = false /\
    bmRequestType mr = 0xC0 /\ bmRequestType mw = 0x40 /\
    bRequest mr = u8 (xr_hal_table (model p) REQ_GET) /\
    bRequest mw = u8 (xr_hal_table (model p) REQ_SET) /\
    wLength mr = 1 /\ wLength mw = 0 /\ wValue mr = 0 /\ wValue mw = u8 val'.
Proof.
  intros Hm Hk. unfold emitted.
  destruct (xr_set_reg_emits_one env p block reg val' h' Hm)
    as (n & sw & bw & Hn & Ew).
  rewrite Ew. cbn [snd].
  destruct (xr_get_reg_cases env p block reg val h)
    as [[Hk' _] | [(_ & Hm' & _) | (r & st & b0 & _ & Hr & _ & C)]];
    [congruence | contradiction |].
  assert (r = n) by congruence. subst r.
  exists (get_reg_msg p block n), (set_reg_msg p block n val'), st, b0, sw, bw.
  split.
  { destruct C as [[_ E] | [[_ E] | (_ & _ & E)]]; rewrite E; reflexivity. }
  repeat split.
Qed.

(** GPIO_MODE of XR21B142X on channel 4, read and then written. *)
Lemma xr_get_reg_addresses_like_xr_set_reg_witness :
  exists mr mw sr br sw bw,
    emitted (xr_get_reg env_ok (mk_port XR21B142X 4 0) 0 0x0c 0) []
    = [EvKmalloc true; EvCtrl mr sr br] /\
    emitted (xr_set_reg env_ok (mk_port XR21B142X 4 0) 0 0x0c 1)
      [EvKmalloc true; EvCtrl mr sr br]
    = [EvCtrl mw sw bw] /\
    wIndex mr = wIndex mw.
Proof.
  destruct (xr_get_reg_addresses_like_xr_set_reg env_ok
              (mk_port XR21B142X 4 0) 0 0x0c 0 1 []
              (emitted (xr_get_reg env_ok (mk_port XR21B142X 4 0) 0 0x0c 0)
                 []))
    as (mr & mw & sr & br & sw & bw & Er & Ew & Hi & _);
    [discriminate | reflexivity |].
  exists mr, mw, sr, br, sw, bw. rewrite <- Er.
  split; [reflexivity|]. split; [exact Ew | exact Hi].
Defined.
